(** * Reporter simulator: the prompt orchestration service

    A shallow embedding of the generation service of the reporter
    simulator (the module imported as [./geminiService]): the retry
    helper [retryRequest], the era resolver [getEraContext], and the three
    entry points [generateRandomArticle], [analyzeArticle] and
    [generateReplyReaction], together with the properties of their
    specification.

    Conventions.
    - JavaScript numbers are IEEE 754 doubles.  The retry budget, the
      delay and the calendar year are integers and are modelled in [Z].
      The result of [parseInt] is the double nearest to the integer that
      the digits write, an infinity or [NaN], and a template literal
      writes it as [Number::toString] does.  The numbers of a payload or
      of a thrown value are a mantissa and a binary exponent.
    - JavaScript strings are modelled as [string], the UTF-8 bytes of the
      text.  The service only searches for and compares ASCII or whole
      strings, which UTF-8 preserves.
    - Anything can be thrown: a [catch] block receives a value, which is
      an error object or not.  Values hold data only; objects with
      functions or accessors of their own are not among them.
    - An [async] function is modelled by its sequential semantics: it takes
      the state of the outside world and returns a completion (a value or
      a thrown error) with the new state.  The outside world is the
      sequence of the invocations of the generation capability and of the
      waits scheduled with [setTimeout], in the order in which they
      happened.  Writing to the console has no part in any result and is
      left out.
    - [JSON.parse], the generation client and the clock are not part of
      the service; it is parametric in them. *)

From Stdlib Require Import ZArith String Ascii List Lia Bool DecimalString DecimalZ.
From stdpp Require Import gmap strings.
From Equations Require Import Equations.
Import ListNotations.

#[local] Set Warnings "-register-all,-clear-no-such-hyp".
#[local] Open Scope Z_scope.

(** ** JavaScript values *)

(** JavaScript values without functions: [undefined], [null], booleans,
    numbers, strings, arrays, and objects with data properties.  These are
    the values that [JSON.parse] builds, and the values that a [catch]
    block can receive, since anything can be thrown.

    A number is an IEEE 754 double.  A finite one is
    [mantissa * 2 ^ exponent]; [JSON.parse] and [number] build it with an
    odd mantissa, and zero as [VNumber 0 0].  The two zeros of JavaScript
    are one value here: [===] and [includes] do not tell them apart. *)
Inductive JsValue : Type :=
| VUndefined
| VNull
| VBool (b : bool)
| VNumber (mantissa exponent : Z)
| VInfinity (negative : bool)
| VNaN
| VString (s : string)
| VArray (items : list JsValue)
| VObject (fields : gmap string JsValue).

(** The odd part of a positive number and the power of two taken out. *)
Fixpoint oddPart (p : positive) : positive * Z :=
  match p with
  | xO q => let '(o, k) := oddPart q in (o, k + 1)
  | _ => (p, 0)
  end.

(** The finite number [m * 2 ^ e], with an odd mantissa. *)
Definition finite (m e : Z) : JsValue :=
  match m with
  | Z0 => VNumber 0 0
  | Zpos p => let '(o, k) := oddPart p in VNumber (Zpos o) (e + k)
  | Zneg p => let '(o, k) := oddPart p in VNumber (Zneg o) (e + k)
  end.

(** An integer that a double holds exactly, as a number. *)
Definition number (n : Z) : JsValue := finite n 0.

(** [v === n] for an integer [n]: [v] is a number of this value. *)
Definition strictEqInteger (n : Z) (v : JsValue) : bool :=
  match v with
  | VNumber m e => m * 2 ^ Z.max 0 e =? n * 2 ^ Z.max 0 (- e)
  | _ => false
  end.

(** The value of a property of an object; [undefined] when it has none. *)
Definition field (fields : gmap string JsValue) (key : string) : JsValue :=
  match fields !! key with
  | Some x => x
  | None => VUndefined
  end.

(** [hay.includes(needle)] of [String.prototype] *)
Fixpoint includes (needle hay : string) : bool :=
  String.prefix needle hay ||
  match hay with
  | EmptyString => false
  | String _ rest => includes needle rest
  end.

(** ** Thrown values *)

(** What a [catch] block receives: [catch (error: any)].  An error object
    is an object with the properties [name] and [message], and with
    [status] or [code] where the client sets them. *)
Definition JsError : Type := JsValue.

(** [new Error(msg)] *)
Definition newError (msg : string) : JsError :=
  VObject {[ "name" := VString "Error"; "message" := VString msg ]}.

(** [new TypeError(msg)] *)
Definition newTypeError (msg : string) : JsError :=
  VObject {[ "name" := VString "TypeError"; "message" := VString msg ]}.

(** ** Completions: a value, or a thrown error *)

Inductive Completion (A : Type) : Type :=
| Normal (a : A)
| Abrupt (e : JsError).
Arguments Normal {A} a.
Arguments Abrupt {A} e.

(** The optional property read [v?.key], for the keys [status], [code]
    and [message]: [undefined] for [null] and [undefined]; no prototype
    defines these keys, so only an object's own fields can hold them. *)
Definition optionalProp (v : JsValue) (key : string) : JsValue :=
  match v with
  | VObject fields => field fields key
  | _ => VUndefined
  end.

(** The property read [v.key], for the keys that the service reads
    ([title], [content], [category]); no prototype defines them, so only an
    object's own fields can hold them.  Reading from [null] or [undefined]
    throws. *)
Definition getProp (v : JsValue) (key : string) : Completion JsValue :=
  match v with
  | VUndefined =>
      Abrupt (newTypeError
        ("Cannot read properties of undefined (reading '" +:+ key +:+ "')"))
  | VNull =>
      Abrupt (newTypeError
        ("Cannot read properties of null (reading '" +:+ key +:+ "')"))
  | VObject fields => Normal (field fields key)
  | _ => Normal VUndefined
  end.

(** [values.includes(v)] for an array of strings. *)
Definition arrayIncludes (values : list string) (v : JsValue) : bool :=
  match v with
  | VString s => bool_decide (s ∈ values)
  | _ => false
  end.

(** A string in a condition: [undefined] and the empty string are falsy. *)
Definition truthy (s : option string) : bool :=
  match s with
  | Some (String _ _) => true
  | _ => false
  end.

(** ** The outside world *)

(** What the service does to the outside world: it invokes the wrapped
    operation, and it waits, by [setTimeout] with a delay.  The world is
    the sequence of these events so far, oldest first. *)
Inductive Event : Type :=
| Invocation
| Timeout (delay : Z).

Definition World : Type := list Event.

(** The number of invocations of the wrapped operation so far. *)
Fixpoint calls (w : World) : nat :=
  match w with
  | [] => 0%nat
  | Invocation :: rest => S (calls rest)
  | Timeout _ :: rest => calls rest
  end.

(** The delays passed to [setTimeout] so far, oldest first. *)
Fixpoint sleeps (w : World) : list Z :=
  match w with
  | [] => []
  | Invocation :: rest => sleeps rest
  | Timeout delay :: rest => delay :: sleeps rest
  end.

Definition invoked (w : World) : World := w ++ [Invocation].

Definition slept (delay : Z) (w : World) : World := w ++ [Timeout delay].

(** An effectful computation. *)
Definition Async (A : Type) : Type := World -> Completion A * World.

Definition ret {A} (a : A) : Async A := fun w => (Normal a, w).

Definition throw {A} (e : JsError) : Async A := fun w => (Abrupt e, w).

Definition bind {A B} (m : Async A) (k : A -> Async B) : Async B :=
  fun w =>
    match m w with
    | (Normal a, w') => k a w'
    | (Abrupt e, w') => (Abrupt e, w')
    end.

(** [try { body } catch (e) { handler(e) }] *)
Definition tryCatch {A} (body : Async A) (handler : JsError -> Async A) : Async A :=
  fun w =>
    match body w with
    | (Normal a, w') => (Normal a, w')
    | (Abrupt e, w') => handler e w'
    end.

(** Lifting of a synchronous step that may throw. *)
Definition lift {A} (c : Completion A) : Async A := fun w => (c, w).

Declare Scope async_scope.
Delimit Scope async_scope with async.
Notation "'let*' x ':=' m 'in' k" := (bind m (fun x => k))
  (at level 10, x name, m at level 100, k at level 200) : async_scope.

(** ** retryRequest *)

(** The error of calling [message.includes] when it is not a function.
    The text of its message is the engine's, for the source as written;
    nothing depends on it. *)
Definition includesNotCallable : JsError :=
  newTypeError "error?.message?.includes is not a function".

(** [message?.includes('429')] as a condition.  Nothing is called on
    [undefined] and [null]; a string searches its text; an array searches
    its elements for the string 429; any other value has no function
    [includes] (a boolean and a number inherit none, and a property of an
    object of data is not a function), and the call throws. *)
Definition messageIncludes429 (message : JsValue) : Completion bool :=
  match message with
  | VUndefined | VNull => Normal false
  | VString s => Normal (includes "429" s)
  | VArray items =>
      Normal (existsb (fun item => match item with
                                   | VString s => String.eqb s "429"
                                   | _ => false
                                   end) items)
  | _ => Abrupt includesNotCallable
  end.

(** The condition of the [catch] block after [retries > 0]:
    [error?.status === 429 || error?.code === 429 ||
     error?.message?.includes('429')].  The message is looked at only
    when neither the status nor the code is 429. *)
Definition rateLimitSignal (error : JsError) : Completion bool :=
  if strictEqInteger 429 (optionalProp error "status") then Normal true
  else if strictEqInteger 429 (optionalProp error "code") then Normal true
  else messageIncludes429 (optionalProp error "message").

(** The wrapped operation [requestFn] is an effectful thunk.  Its outcome
    may differ from one invocation to the next, so it is given as a
    function of the number of invocations made before. *)
Definition Operation (T : Type) : Type := nat -> Completion T.

Equations? retryRequest {T} (requestFn : Operation T) (retries delay : Z)
    (w : World) : Completion T * World by wf (Z.to_nat retries) lt :=
  retryRequest requestFn retries delay w with requestFn (calls w) => {
    | Normal v := (Normal v, invoked w);
    | Abrupt error with Z_lt_dec 0 retries => {
      | left _ with rateLimitSignal error => {
        | Normal true :=
            retryRequest requestFn (retries - 1) (delay * 2)
              (slept delay (invoked w));
        | Normal false := (Abrupt error, invoked w);
        | Abrupt thrown := (Abrupt thrown, invoked w) };
      | right _ := (Abrupt error, invoked w) } }.
Proof. lia. Qed.

(** The defaults of the signature: [retries = 3, delay = 2000]. *)
Definition defaultRetries : Z := 3.
Definition defaultDelay : Z := 2000.

(** ** Numbers read from text *)

(** The numbers of the era resolver: the results of [parseInt] and the
    calendar year.  They are doubles without a fraction: an integer, an
    infinity or [NaN].  The two zeros of JavaScript are one value here;
    comparisons and template literals do not tell them apart. *)
Inductive JsNumber : Type :=
| Num (n : Z)
| Infinity (negative : bool)
| NaN.

(** The double nearest to an integer, the even mantissa of two nearest
    ones, an infinity from [2 ^ 1024 - 2 ^ 970] on: the number value of a
    mathematical integer.  Below [2 ^ 53] every integer is a double. *)
Definition toDouble (n : Z) : JsNumber :=
  let a := Z.abs n in
  let e := Z.log2 a - 52 in
  if e <=? 0 then Num n
  else
    let q := a / 2 ^ e in
    let r := a mod 2 ^ e in
    let m :=
      if 2 ^ (e - 1) <? r then q + 1
      else if (r =? 2 ^ (e - 1)) && Z.odd q then q + 1
      else q in
    if 2 ^ 1024 <=? m * 2 ^ e then Infinity (n <? 0)
    else Num (Z.sgn n * (m * 2 ^ e)).

(** [a < b] and [a > b] on numbers; every comparison with [NaN] is false. *)
Definition num_lt (a b : JsNumber) : bool :=
  match a, b with
  | Num x, Num y => x <? y
  | Num _, Infinity negative => negb negative
  | Infinity negative, Num _ => negative
  | Infinity negative, Infinity negative' => negative && negb negative'
  | _, _ => false
  end.

Definition num_gt (a b : JsNumber) : bool := num_lt b a.

Definition num_ge (a b : JsNumber) : bool :=
  match a, b with
  | Num x, Num y => y <=? x
  | Num _, Infinity negative => negative
  | Infinity negative, Num _ => negb negative
  | Infinity negative, Infinity negative' => negb negative || negative'
  | _, _ => false
  end.

(** The decimal digits of a natural number. *)
Definition digits (n : Z) : string := NilZero.string_of_uint (N.to_uint (Z.to_N n)).

(** The shortest decimal of a positive double [x]: the pair [(s, p)]
    with the largest [p], from the given one down, for which [s * 10 ^ p]
    has [x] as its nearest double; of two such [s] the one nearer to [x],
    and the even one at equal distance. *)
Fixpoint shortestDecimal (x : Z) (p : nat) : Z * nat :=
  match p with
  | O => (x, O)
  | S p' =>
      let unit := 10 ^ Z.of_nat p in
      let lo := x / unit in
      let hi := lo + 1 in
      let r := x mod unit in
      let isX (n : JsNumber) :=
        match n with Num y => y =? x | _ => false end in
      let okLo := (0 <? lo) && isX (toDouble (lo * unit)) in
      let okHi := isX (toDouble (hi * unit)) in
      let nearerLo := (2 * r <? unit) || ((2 * r =? unit) && Z.even lo) in
      if okLo && (nearerLo || negb okHi) then (lo, p)
      else if okHi then (hi, p)
      else shortestDecimal x p'
  end.

(** The text of a positive double without a fraction, by
    [Number::toString]: below [10 ^ 21] the digits of the shortest
    decimal and its zeros, from there on the first digit, the further
    digits after a point, and the exponent. *)
Definition showPositive (x : Z) : string :=
  let '(s, p) := shortestDecimal x (String.length (digits x)) in
  if s * 10 ^ Z.of_nat p <? 10 ^ 21 then digits (s * 10 ^ Z.of_nat p)
  else
    match digits s with
    | String first more =>
        String first
          ((match more with
            | EmptyString => EmptyString
            | _ => "." +:+ more
            end)
           +:+ "e+" +:+ digits (Z.of_nat (String.length more) + Z.of_nat p))
    | EmptyString => EmptyString
    end.

(** The text of a number inside a template literal, [`${n}`]. *)
Definition showNumber (n : JsNumber) : string :=
  match n with
  | Num Z0 => "0"
  | Num (Zpos _ as x) => showPositive x
  | Num (Zneg p) => "-" +:+ showPositive (Zpos p)
  | Infinity false => "Infinity"
  | Infinity true => "-Infinity"
  | NaN => "NaN"
  end.

(** Leading white space and line terminators, as [parseInt] skips them.
    The characters outside ASCII are matched by their UTF-8 bytes. *)
Fixpoint skipWhiteSpace (s : string) : string :=
  match s with
  | String c rest =>
      let n := nat_of_ascii c in
      if ((n =? 9) || (n =? 10) || (n =? 11) || (n =? 12) || (n =? 13)
          || (n =? 32))%nat then skipWhiteSpace rest
      else
        match rest with
        | String c1 rest1 =>
            let n1 := nat_of_ascii c1 in
            if ((n =? 194) && (n1 =? 160))%nat then skipWhiteSpace rest1
            else
              match rest1 with
              | String c2 rest2 =>
                  let n2 := nat_of_ascii c2 in
                  if (((n =? 225) && (n1 =? 154) && (n2 =? 128))
                      || ((n =? 226) && (n1 =? 128)
                          && ((n2 <=? 138) || (n2 =? 168) || (n2 =? 169)
                              || (n2 =? 175)) && (128 <=? n2))
                      || ((n =? 226) && (n1 =? 129) && (n2 =? 159))
                      || ((n =? 227) && (n1 =? 128) && (n2 =? 128))
                      || ((n =? 239) && (n1 =? 187) && (n2 =? 191)))%nat
                  then skipWhiteSpace rest2
                  else s
              | EmptyString => s
              end
        | EmptyString => s
        end
  | EmptyString => s
  end.

(** The value of a digit in the given radix, when it is one. *)
Definition digitValue (radix : Z) (c : ascii) : option Z :=
  let n := Z.of_nat (nat_of_ascii c) in
  let v :=
    if (48 <=? n) && (n <=? 57) then n - 48
    else if (97 <=? n) && (n <=? 122) then n - 87
    else if (65 <=? n) && (n <=? 90) then n - 55
    else 99 in
  if v <? radix then Some v else None.

(** The longest prefix of digits, read from the left; [None] when it is
    empty. *)
Fixpoint readDigits (radix : Z) (acc : option Z) (s : string) : option Z :=
  match s with
  | String c rest =>
      match digitValue radix c with
      | Some d =>
          readDigits radix
            (Some (match acc with Some a => a * radix + d | None => d end)) rest
      | None => acc
      end
  | EmptyString => acc
  end.

(** [parseInt(s)] without a radix argument: white space is skipped, then
    a sign is read, then the prefix 0x or 0X for radix 16, then the longest
    run of digits; without a digit the result is [NaN], and else the
    double nearest to the integer that the digits write. *)
Definition parseInt (s : string) : JsNumber :=
  let s1 := skipWhiteSpace s in
  let '(sign, s2) :=
    match s1 with
    | String "-" rest => (-1, rest)
    | String "+" rest => (1, rest)
    | _ => (1, s1)
    end in
  let '(radix, s3) :=
    match s2 with
    | String "0" (String "x" rest) => (16, rest)
    | String "0" (String "X" rest) => (16, rest)
    | _ => (10, s2)
    end in
  match readDigits radix None s3 with
  | Some n => toDouble (sign * n)
  | None => NaN
  end.

(** ** The generation capability *)

(** The response schema of a request ([Type.STRING], [Type.OBJECT], ...). *)
Inductive Schema : Type :=
| SString
| SEnum (values : list string)
| SNumber
| SInteger
| SArray (items : Schema)
| SObject (properties : list (string * Schema)) (required : list string).

Record GenerateContentConfig : Type := {
  systemInstruction : option string;
  responseMimeType : string;
  responseSchema : Schema
}.

Record GenerateContentParameters : Type := {
  model : string;
  contents : string;
  config : GenerateContentConfig
}.

(** The response; [text] is [None] when the response carries no text. *)
Record GenerateContentResponse : Type := {
  text : option string
}.

(** ** Articles and comments *)

(** Modelled from the spec: the interface [Article] of [./types] is not
    among the sources.  These are the fields that the service reads, with
    the types of their uses: texts, mode flags (an absent flag is falsy and
    is represented by [false]) and two optional texts. *)
Record Article : Type := {
  title : string;
  content : string;
  category : string;
  author : string;
  isEmergencyMode : bool;
  isCrazyMode : bool;
  isFakeNews : bool;
  isTimeMachineMode : bool;
  targetYear : option string;
  previousArticleContext : option string
}.

(** Modelled from the spec: the interface [Comment] of [./types] is not
    among the sources.  These are the fields that the service reads. *)
Record Comment : Type := {
  comment_username : string;
  comment_content : string;
  comment_platform : string
}.

(** ** Prompt texts *)

(** A line feed and a double quote. *)
Definition nl : string := String (ascii_of_nat 10) EmptyString.
Definition dq : string := String (ascii_of_nat 34) EmptyString.

(** *** The directives of [getEraContext] *)

Definition eraBefore1990 (targetYear : JsNumber) : string :=
  showNumber targetYear +:+ "년도입니다. 인터넷이 없으므로 신문 투고, 라디오 사연, 대자보 등의 말투(하오체, 읍니다 등)를 사용하세요.".

Definition era1990s (targetYear : JsNumber) : string :=
  showNumber targetYear +:+ "년도 PC통신 시대(하이텔, 천리안) 말투(~셈, ~임, 방가)를 사용하세요.".

Definition era2000s (targetYear : JsNumber) : string :=
  showNumber targetYear +:+ "년도 싸이월드/초기 인터넷 감성(이모티콘, 펌킨족 등)을 반영하세요.".

Definition eraFuture (targetYear : JsNumber) : string :=
  showNumber targetYear +:+ "년도 미래 시대입니다.".

Definition eraReflect (targetYear : JsNumber) : string :=
  showNumber targetYear +:+ "년도의 시대상을 반영하세요.".
(** The directive when the time machine is off. *)
Definition eraContemporary : string :=
  "현대(2024년)의 인터넷 댓글 말투를 사용하세요.".

(** *** The prompt of [generateRandomArticle] *)

(** The template up to the era directive. *)
Definition randomArticlePromptIntro : string :=
  nl +:+
  "    당신은 창의적인 기자입니다. 다음 조건에 맞춰 **랜덤한 뉴스 기사**를 하나 작성해주세요." +:+ nl +:+
  "    " +:+ nl +:+
  "    1. **시대적 배경**: ".

(** The template between the era directive and the mode directive. *)
Definition randomArticlePromptMid : string :=
  nl +:+
  "    2. **작성 톤앤매너**: ".

(** The template after the mode directive. *)
Definition randomArticlePromptTail : string :=
  nl +:+
  "    3. **필수 조건**: 기사의 **제목(Title)과 본문(Content)의 내용은 반드시 일치**해야 하며, 육하원칙에 따라 그럴듯하게 작성해야 합니다." +:+ nl +:+
  "    4. **카테고리**: 정치, 경제, 사회, 연예, IT/과학, 스포츠, 오피니언 중 하나를 랜덤하게 선택하세요." +:+ nl +:+
  nl +:+
  "    결과는 반드시 다음 JSON 스키마를 따르세요." +:+ nl +:+
  "  ".

(** The four mode directives of the random article. *)
Definition randomDefault : string :=
  "일반적인 뉴스 기사를 랜덤한 주제로 작성하세요.".

Definition randomEmergency : string :=
  "국가 비상사태, 전쟁, 재난 등 매우 위급한 상황에 대한 속보를 작성하세요.".

Definition randomCrazy : string :=
  "논리적으로 말이 안 되거나, 기자가 미쳐버린 듯한 기괴한 내용의 기사를 작성하세요.".

Definition randomFakeNews : string :=
  "사실이 아닌 내용을 사실인 것처럼 교묘하게 꾸민 선동성 가짜 뉴스를 작성하세요.".

Definition randomArticlePrompt (eraContext modeInstruction : string) : string :=
  randomArticlePromptIntro +:+ eraContext +:+ randomArticlePromptMid
  +:+ modeInstruction +:+ randomArticlePromptTail.

(** *** The era blocks of [analyzeArticle] *)

Definition eraFullBefore1990 (targetYear : JsNumber) : string :=
  nl +:+
  "        **[시대 설정: " +:+ showNumber targetYear +:+ "년]**" +:+ nl +:+
  "        - **인터넷이 없거나 매우 제한적입니다.**" +:+ nl +:+
  "        - 'SNS'나 '온라인 댓글' 대신 **'신문 독자 투고', '라디오 사연', '다방에서의 대화', '대자보'** 형식을 'comments' 배열에 담아주세요." +:+ nl +:+
  "        - 말투는 " +:+ showNumber targetYear +:+ "년도의 시대상을 반영한 고풍스럽거나 투박한 말투를 사용하세요. (예: " +:+ dq +:+ "~읍니다" +:+ dq +:+ ", " +:+ dq +:+ "~하오" +:+ dq +:+ ")" +:+ nl +:+
  "        - 플랫폼(platform) 필드 예시: '조선일보 독자투고', '라디오 엽서', '서울 다방', '대학가 대자보'." +:+ nl +:+
  "        - **타 언론사 보도**: 당시 존재했던 신문사/방송사(동아일보, 경향신문, KBS, MBC 등)의 진지한 헤드라인 스타일." +:+ nl +:+
  "      ".

Definition eraFull1990s (targetYear : JsNumber) : string :=
  nl +:+
  "        **[시대 설정: " +:+ showNumber targetYear +:+ "년]**" +:+ nl +:+
  "        - **PC통신 시대입니다.** (하이텔, 천리안, 나우누리)" +:+ nl +:+
  "        - 파란 화면의 채팅방 감성, " +:+ dq +:+ "~셈" +:+ dq +:+ ", " +:+ dq +:+ "~임" +:+ dq +:+ ", " +:+ dq +:+ "방가방가" +:+ dq +:+ " 등의 초기 통신 언어를 적극 반영하세요." +:+ nl +:+
  "        - 플랫폼(platform) 필드 예시: '하이텔 광장', '천리안 게시판', '나우누리 유머란', 'PC방'." +:+ nl +:+
  "        - **타 언론사 보도**: 90년대 신문/방송 스타일 + 스포츠신문(스포츠서울 등)의 자극적인 헤드라인." +:+ nl +:+
  "      ".

Definition eraFull2000s (targetYear : JsNumber) : string :=
  nl +:+
  "        **[시대 설정: " +:+ showNumber targetYear +:+ "년]**" +:+ nl +:+
  "        - **싸이월드, 버디버디, 다음 카페 전성기입니다.**" +:+ nl +:+
  "        - " +:+ dq +:+ "퍼가요~♡" +:+ dq +:+ ", " +:+ dq +:+ "일촌평" +:+ dq +:+ ", 오글거리는 감성 글, 2000년대 초반 이모티콘((-_-), OTL)을 사용하세요." +:+ nl +:+
  "        - 스마트폰은 아직 대중화되지 않았습니다." +:+ nl +:+
  "        - 플랫폼(platform) 필드 예시: '싸이월드 미니홈피', '다음 카페', '네이버 붐', '버디버디 상태메시지'." +:+ nl +:+
  "        - **타 언론사 보도**: 인터넷 뉴스 태동기. '딴지일보', '오마이뉴스' 등 대안 언론의 등장 반영." +:+ nl +:+
  "      ".

Definition eraFullFuture (targetYear : JsNumber) : string :=
  nl +:+
  "        **[시대 설정: " +:+ showNumber targetYear +:+ "년 (미래)]**" +:+ nl +:+
  "        - **미래 기술 시대입니다.**" +:+ nl +:+
  "        - 홀로그램, 뉴럴 링크, 화성 거주민 등 미래적 요소를 반영하세요." +:+ nl +:+
  "        - 플랫폼(platform) 필드 예시: '뉴럴넷 링크', '화성 식민지 게시판', 'AI 통합 네트워크', '가상현실 로비'." +:+ nl +:+
  "        - **타 언론사 보도**: 'AI 뉴스 봇', '화성 일보', '갤럭시 네트워크 뉴스' 등 미래지향적 매체명." +:+ nl +:+
  "      ".

Definition eraFullReflect (targetYear : JsNumber) : string :=
  nl +:+
  "        **[시대 설정: " +:+ showNumber targetYear +:+ "년]**" +:+ nl +:+
  "        - 해당 연도의 실제 기술 수준과 유행하는 SNS 플랫폼을 반영하되, 아래의 분류 기준(SNS 통합, 커뮤니티 세분화)을 따르세요." +:+ nl +:+
  "        - **타 언론사 보도**: 현대의 다양한 매체(종편, 인터넷 신문, 유튜브 렉카 등)를 반영하세요." +:+ nl +:+
  "      ".

Definition eraFullPresent : string :=
  nl +:+
  "        **[시대 설정: 현재]**" +:+ nl +:+
  "        - 타 언론사 보도 생성 시: 메이저 언론사, 인터넷 언론사, 경제지, 또는 유튜브 '사이버 렉카' 스타일의 자극적인 썸네일 제목 등을 다양하게 포함하세요." +:+ nl +:+
  "    ".

(** *** The mode blocks of [analyzeArticle] *)

Definition modeEmergency : string :=
  nl +:+
  "      **[모드: 국가 비상사태/언론 독점]**" +:+ nl +:+
  "      - 국민들은 정보를 얻을 수 있는 유일한 창구인 이 기사에 필사적입니다." +:+ nl +:+
  "      - " +:+ dq +:+ "다른 뉴스는 다 끊겼어" +:+ dq +:+ ", " +:+ dq +:+ "살려주세요" +:+ dq +:+ " 등의 절박한 반응이 주를 이룹니다." +:+ nl +:+
  "      - **타 언론사 보도**: 비어있거나 '신호 없음', '송출 중단' 등으로 표기." +:+ nl +:+
  "      - **금융 시장**: 대폭락, 거래 정지, 또는 화폐 가치 급락(환율 폭등)을 시뮬레이션하세요." +:+ nl +:+
  "    ".

Definition modeCrazy : string :=
  nl +:+
  "      **[모드: 미친 기자]**" +:+ nl +:+
  "      - 대중은 기자를 '완전히 미친 사람', '정신 나간 사람'으로 취급합니다." +:+ nl +:+
  "      - **금융 시장**: 기이한 테마주(예: 알루미늄 호일, 정신병원 관련주)가 급등락하거나, 밈 코인(Meme Coin)이 폭등하는 등 비이성적 흐름." +:+ nl +:+
  "    ".

Definition modeFakeNews : string :=
  nl +:+
  "      **[모드: 가짜 뉴스/선동]**" +:+ nl +:+
  "      - 팩트 여부와 관계없이 선동과 음모론 확산에 초점을 맞춥니다." +:+ nl +:+
  "      - **금융 시장**: 특정 작전주 띄우기나 공포 조성을 통한 투매 유도." +:+ nl +:+
  "    ".

Definition modeDefault : string :=
  nl +:+
  "      **[일반 모드]**" +:+ nl +:+
  "      - 기사의 논조와 품질에 따른 현실적인 반응을 보여주세요." +:+ nl +:+
  "      - **금융 시장**: 기사 내용과 가장 연관성 높은 지표가 합리적으로 움직입니다." +:+ nl +:+
  "    ".

Definition previousContextBlock (previousArticleContext : string) : string :=
  nl +:+
  "    **[이전 기사 맥락 있음]**" +:+ nl +:+
  "    이 기사는 후속 보도입니다: " +:+ previousArticleContext +:+ nl +:+
  "  ".

(** *** The prompt of [analyzeArticle] *)

(** The template up to the joined mode blocks. *)
Definition analysisPromptHead (eraContextFull previousContext : string) (article : Article) : string :=
  nl +:+
  "    당신은 '기자 시뮬레이터' 게임의 엔진입니다. " +:+ nl +:+
  "    사용자가 작성한 기사 내용을 분석하여 대중의 반응과 경제적 파장을 시뮬레이션하세요." +:+ nl +:+
  "    " +:+ nl +:+
  "    " +:+ eraContextFull +:+ nl +:+
  "    " +:+ previousContext +:+ nl +:+
  nl +:+
  "    기사 제목: " +:+ title article +:+ nl +:+
  "    카테고리: " +:+ category article +:+ nl +:+
  "    내용: " +:+ content article +:+ nl +:+
  "    작성자: " +:+ author article +:+ nl +:+
  nl +:+
  "    <활성화된 모드 지시사항>" +:+ nl +:+
  "    ".

(** The template after the joined mode blocks. *)
Definition analysisPromptTail : string :=
  nl +:+
  "    </활성화된 모드 지시사항>" +:+ nl +:+
  nl +:+
  "    요청 사항:" +:+ nl +:+
  "    1. **댓글 (Comments) - 엄격한 구조 준수**:" +:+ nl +:+
  "       - 다음 **10가지 플랫폼**을 대상으로 **총 20개 ~ 25개의 댓글**을 생성하세요." +:+ nl +:+
  "       - **각 플랫폼당 최소 2개**의 댓글을 기본적으로 생성하고, 남는 0~5개는 무작위로 분배하세요." +:+ nl +:+
  "       - **모든 댓글에는 반드시 1개의 대댓글(Reply)이 달려야 합니다.** (필수 조건)" +:+ nl +:+
  "       " +:+ nl +:+
  "       **[대상 플랫폼 목록]**:" +:+ nl +:+
  "       1. **네이버 뉴스** (4050 세대, 진지함, 존댓말, 정치색 강함)" +:+ nl +:+
  "       2. **유튜브** (어린 연령층, " +:+ dq +:+ "ㄹㅇㅋㅋ" +:+ dq +:+ ", 영상 본 듯한 반응)" +:+ nl +:+
  "       3. **인스타그램** (감성적, 해시태그 #, " +:+ dq +:+ "ㅠㅠ" +:+ dq +:+ ", 이모지 남발)" +:+ nl +:+
  "       4. **트위터(X)** (짧고 날카로움, 덕질 말투, 리트윗 유도)" +:+ nl +:+
  "       5. **에펨코리아** (2030 남성, 반말, 축구/게임 비유, 거친 표현)" +:+ nl +:+
  "       6. **더쿠** (2030 여성, 반말, " +:+ dq +:+ "~함" +:+ dq +:+ ", 공감 유도, " +:+ dq +:+ "미친..." +:+ dq +:+ ")" +:+ nl +:+
  "       7. **블라인드** (직장인, 냉소적, 회사 인증 부심, " +:+ dq +:+ "형들..." +:+ dq +:+ ")" +:+ nl +:+
  "       8. **디시인사이드** (최대 커뮤니티, 극도로 거친 반말, 냉소적, 유동닉)" +:+ nl +:+
  "       9. **네이트판** (여성 중심, 드라마틱한 사연 말투, " +:+ dq +:+ "베플" +:+ dq +:+ " 언급, 감정적 호소)" +:+ nl +:+
  "       10. **카카오톡 오픈채팅** (실시간 반응, 짧은 단문 연타, " +:+ dq +:+ "#방장님" +:+ dq +:+ ", 주식/코인방 느낌)" +:+ nl +:+
  "       " +:+ nl +:+
  "       *(만약 타임머신 모드라면, 위 10개 플랫폼을 해당 시대에 맞는 매체/장소로 대체하여 각각 2개 이상 생성하세요.)*" +:+ nl +:+
  nl +:+
  "       - **페르소나 다양화**: 극대노형, 팩트체크형, 드립형, 공포형, 음모론자, 주식무새, 무지성 옹호 등." +:+ nl +:+
  "       - 좋아요 수: 베스트 댓글(수천 개)과 무관심 댓글(0~10개)을 현실적으로 분포시키세요." +:+ nl +:+
  nl +:+
  "    2. **금융 및 사회 지표**: " +:+ nl +:+
  "       - 기사 내용에 따라 가장 관련성 높은 주식/코인/환율 지표를 변동시키세요." +:+ nl +:+
  "       - 사회적 불안도, 분노 지수 등을 측정하세요." +:+ nl +:+
  "    " +:+ nl +:+
  "    3. **안전 및 필터링 가이드라인 (최우선 순위 - 엄격 적용)**: " +:+ nl +:+
  "       - **욕설, 비속어, 저속한 표현은 예외 없이 글자 전체를 '***'로 마스킹 처리하세요.**" +:+ nl +:+
  "       - **절대 한 글자도 남기지 마세요.** (예: " +:+ dq +:+ "병신" +:+ dq +:+ " -> " +:+ dq +:+ "***" +:+ dq +:+ ", " +:+ dq +:+ "시발" +:+ dq +:+ " -> " +:+ dq +:+ "***" +:+ dq +:+ ", " +:+ dq +:+ "개새끼" +:+ dq +:+ " -> " +:+ dq +:+ "***" +:+ dq +:+ ")" +:+ nl +:+
  "       - 앞글자 노출 금지, 초성 노출 금지. 무조건 전체를 *** 처리합니다." +:+ nl +:+
  "       - 문맥상 욕설이 필요하다면 그 위치에 *** 만 남겨두세요." +:+ nl +:+
  "       - 혐오 표현, 차별 발언은 생성하지 마세요." +:+ nl +:+
  "  ".

(** [modeInstructions.join('\n')] fills the place between the two parts. *)
Definition analysisPrompt (eraContextFull previousContext : string) (article : Article)
    (modeInstructions : list string) : string :=
  analysisPromptHead eraContextFull previousContext article
  +:+ String.concat nl modeInstructions +:+ analysisPromptTail.

(** *** The prompt of [generateReplyReaction] *)

Definition replyPrompt (eraContext : string) (article : Article) (originalComment : Comment)
    (reporterReply : string) : string :=
  nl +:+
  "    상황: 사용자가 작성한 기사에 달린 댓글에 대해, 기자(사용자)가 답글을 달았습니다." +:+ nl +:+
  "    이에 대한 네티즌들의 재반응(답글의 답글)을 1~2개 생성해주세요." +:+ nl +:+
  nl +:+
  "    " +:+ eraContext +:+ nl +:+
  "    " +:+ nl +:+
  "    모드 상태:" +:+ nl +:+
  "    " +:+ (if isEmergencyMode article then "- [국가 비상사태]" else "") +:+ nl +:+
  "    " +:+ (if isCrazyMode article then "- [미친 기자 취급]" else "") +:+ nl +:+
  "    " +:+ (if isFakeNews article then "- [가짜 뉴스 논란]" else "") +:+ nl +:+
  nl +:+
  "    기사 제목: " +:+ title article +:+ nl +:+
  "    " +:+ nl +:+
  "    원 댓글 작성자: " +:+ comment_username originalComment +:+ nl +:+
  "    원 댓글 내용: " +:+ comment_content originalComment +:+ nl +:+
  "    플랫폼: " +:+ comment_platform originalComment +:+ nl +:+
  nl +:+
  "    기자(사용자)의 답글: " +:+ reporterReply +:+ nl +:+
  nl +:+
  "    지시사항:" +:+ nl +:+
  "    1. 기자의 답글에 대해 네티즌들이 보일 법한 리얼한 반응을 작성하세요." +:+ nl +:+
  "    2. 다양한 성향(옹호, 비꼬기, 무시, 반박 등)을 반영하세요." +:+ nl +:+
  "    3. 작성자는 원 댓글 작성자일 수도 있고, 제3자일 수도 있습니다." +:+ nl +:+
  "    4. **안전 및 필터링 가이드라인 (최우선)**:" +:+ nl +:+
  "       - **욕설, 비속어는 무조건 전체를 '***' 처리하세요.**" +:+ nl +:+
  "       - **단 한 글자도 남기지 마세요.** (예: " +:+ dq +:+ "병신" +:+ dq +:+ " -> " +:+ dq +:+ "***" +:+ dq +:+ ", " +:+ dq +:+ "개XX" +:+ dq +:+ " -> " +:+ dq +:+ "***" +:+ dq +:+ ")" +:+ nl +:+
  "       - 혐오 표현 및 특정 극단적 커뮤니티의 반사회적 용어 절대 사용 금지." +:+ nl +:+
  "  ".

(** ** Response schemas *)

Definition randomArticleSchema : Schema :=
  SObject
    [("title", SString); ("content", SString); ("category", SString)]
    ["title"; "content"; "category"].

Definition graphPointSchema : Schema :=
  SObject [("time", SString); ("value", SNumber)] ["time"; "value"].

Definition sectorSchema : Schema :=
  SObject [("name", SString); ("change", SNumber)] ["name"; "change"].

Definition stockAnalysisSchema : Schema :=
  SObject
    [("indexName", SString); ("startValue", SNumber); ("endValue", SNumber);
     ("marketCommentary", SString);
     ("graphData", SArray graphPointSchema);
     ("affectedSectors", SArray sectorSchema)]
    ["indexName"; "startValue"; "endValue"; "graphData"; "affectedSectors";
     "marketCommentary"].

Definition extraIndicesSchema : Schema :=
  SObject
    [("nationalAnxiety", SNumber); ("economicStability", SNumber);
     ("angerIndex", SNumber)]
    ["nationalAnxiety"; "economicStability"; "angerIndex"].

Definition mediaCoverageSchema : Schema :=
  SObject [("mediaName", SString); ("headline", SString)]
    ["mediaName"; "headline"].

Definition replySchema : Schema :=
  SObject [("username", SString); ("content", SString); ("likes", SInteger)]
    ["username"; "content"; "likes"].

Definition commentSchema : Schema :=
  SObject
    [("platform", SString); ("username", SString); ("content", SString);
     ("likes", SInteger);
     ("sentiment", SEnum ["positive"; "negative"; "neutral"]);
     ("replies", SArray replySchema)]
    ["platform"; "username"; "content"; "likes"; "sentiment"; "replies"].

Definition simulationSchema : Schema :=
  SObject
    [("viralityScore", SNumber); ("reliabilityScore", SNumber);
     ("controversyScore", SNumber); ("publicSentiment", SString);
     ("editorFeedback", SString); ("impactSummary", SString);
     ("viewCountEstimate", SInteger); ("shareCount", SInteger);
     ("stockAnalysis", SArray stockAnalysisSchema);
     ("extraIndices", extraIndicesSchema);
     ("otherMediaCoverage", SArray mediaCoverageSchema);
     ("comments", SArray commentSchema)]
    ["viralityScore"; "reliabilityScore"; "controversyScore";
     "publicSentiment"; "editorFeedback"; "impactSummary";
     "viewCountEstimate"; "shareCount"; "comments"; "otherMediaCoverage";
     "stockAnalysis"; "extraIndices"].

Definition replyListSchema : Schema := SArray replySchema.

(** ** The service *)

Section Service.

(** [new Date().getFullYear()] *)
Variable currentYear : Z.

(** The enumeration [ArticleCategory] of [./types], a string
    enumeration: its values, [Object.values(ArticleCategory)], and its
    member [SOCIETY]. *)
Variable ArticleCategory_values : list string.
Variable ArticleCategory_SOCIETY : string.

(** [JSON.parse]: the value of a text, or a thrown [SyntaxError]. *)
Variable JSON_parse : string -> Completion JsValue.

(** [ai.models.generateContent]: for every request, the outcome of each
    invocation. *)
Variable generateContent :
  GenerateContentParameters -> Operation GenerateContentResponse.

(** [article.isTimeMachineMode && article.targetYear
      ? parseInt(article.targetYear) : currentYear] *)
Definition resolveTargetYear (article : Article) : JsNumber :=
  if isTimeMachineMode article && truthy (targetYear article) then
    match targetYear article with
    | Some s => parseInt s
    | None => NaN
    end
  else Num currentYear.

Definition getEraContext (article : Article) : string :=
  let targetYear := resolveTargetYear article in
  if isTimeMachineMode article then
    if num_lt targetYear (Num 1990) then eraBefore1990 targetYear
    else if num_lt targetYear (Num 2000) then era1990s targetYear
    else if num_lt targetYear (Num 2010) then era2000s targetYear
    else if num_gt targetYear (Num (currentYear + 5)) then eraFuture targetYear
    else eraReflect targetYear
  else eraContemporary.

(** *** generateRandomArticle *)

Definition modelId : string := "gemini-3-flash-preview".

(** [modeInstruction]: the default, overwritten by the first branch of
    the [if ... else if ...] chain whose flag is set. *)
Definition randomModeInstruction (currentArticle : Article) : string :=
  if isEmergencyMode currentArticle then randomEmergency
  else if isCrazyMode currentArticle then randomCrazy
  else if isFakeNews currentArticle then randomFakeNews
  else randomDefault.

Definition randomArticleRequest (currentArticle : Article)
    : GenerateContentParameters :=
  let eraContext := getEraContext currentArticle in
  let modeInstruction := randomModeInstruction currentArticle in
  {| model := modelId;
     contents := randomArticlePrompt eraContext modeInstruction;
     config := {| systemInstruction := None;
                  responseMimeType := "application/json";
                  responseSchema := randomArticleSchema |} |}.

(** The object returned from the [catch] block. *)
Definition randomArticleFallback : gmap string JsValue :=
  {[ "title" := VString "기사 생성 실패";
     "content" := VString "AI 연결 상태를 확인해주세요.";
     "category" := VString ArticleCategory_SOCIETY ]}.

(** The statements after the request, inside [try]. *)
Definition readRandomArticle (response : GenerateContentResponse)
    : Async (gmap string JsValue) :=
  (match text response with
   | Some (String _ _ as responseText) =>
       let* data := lift (JSON_parse responseText) in
       let category := VString ArticleCategory_SOCIETY in
       let* catStr := lift (getProp data "category") in
       let category :=
         if arrayIncludes ArticleCategory_values catStr then catStr
         else category in
       let* dataTitle := lift (getProp data "title") in
       let* dataContent := lift (getProp data "content") in
       ret {[ "title" := dataTitle;
              "content" := dataContent;
              "category" := category ]}
   | _ => throw (newError "No text generated")
   end)%async.

Definition generateRandomArticle (currentArticle : Article)
    : Async (gmap string JsValue) :=
  tryCatch
    (let* response :=
       retryRequest (generateContent (randomArticleRequest currentArticle))
         defaultRetries defaultDelay in
     readRandomArticle response)%async
    (fun e => ret randomArticleFallback).

(** *** analyzeArticle *)

Definition analysisEraContext (article : Article) : string :=
  let targetYear := resolveTargetYear article in
  if isTimeMachineMode article then
    if num_lt targetYear (Num 1990) then eraFullBefore1990 targetYear
    else if num_ge targetYear (Num 1990) && num_lt targetYear (Num 2000)
    then eraFull1990s targetYear
    else if num_ge targetYear (Num 2000) && num_lt targetYear (Num 2010)
    then eraFull2000s targetYear
    else if num_gt targetYear (Num (currentYear + 5))
    then eraFullFuture targetYear
    else eraFullReflect targetYear
  else eraFullPresent.

(** The array [modeInstructions] after the four conditional pushes. *)
Definition analysisModeInstructions (article : Article) : list string :=
  let modeInstructions := [] in
  let modeInstructions :=
    if isEmergencyMode article then modeInstructions ++ [modeEmergency]
    else modeInstructions in
  let modeInstructions :=
    if isCrazyMode article then modeInstructions ++ [modeCrazy]
    else modeInstructions in
  let modeInstructions :=
    if isFakeNews article then modeInstructions ++ [modeFakeNews]
    else modeInstructions in
  let modeInstructions :=
    if (length modeInstructions =? 0)%nat
    then modeInstructions ++ [modeDefault]
    else modeInstructions in
  modeInstructions.

Definition analysisPreviousContext (article : Article) : string :=
  match previousArticleContext article with
  | Some (String _ _ as previous) => previousContextBlock previous
  | _ => ""
  end.

Definition analysisRequest (article : Article) : GenerateContentParameters :=
  let eraContextFull := analysisEraContext article in
  let modeInstructions := analysisModeInstructions article in
  let previousContext := analysisPreviousContext article in
  {| model := modelId;
     contents :=
       analysisPrompt eraContextFull previousContext article modeInstructions;
     config := {| systemInstruction := Some "You are a creative writing AI designed to simulate realistic Korean netizen reactions and financial market impacts. Output must be in valid JSON format.";
                  responseMimeType := "application/json";
                  responseSchema := simulationSchema |} |}.

(** The object returned from the [catch] block. *)
Definition analysisFallback : JsValue :=
  VObject
    (<["viralityScore" := VNumber 0 0]>
     (<["reliabilityScore" := VNumber 0 0]>
     (<["controversyScore" := VNumber 0 0]>
     (<["publicSentiment" := VString "Error"]>
     (<["editorFeedback" :=
          VString "시스템 오류: AI 응답 지연. 잠시 후 다시 시도해주세요."]>
     (<["impactSummary" := VString "데이터 전송 실패."]>
     (<["viewCountEstimate" := VNumber 0 0]>
     (<["shareCount" := VNumber 0 0]>
     (<["comments" := VArray []]>
     (<["otherMediaCoverage" := VArray []]> ∅)))))))))).

Definition readSimulationResult (response : GenerateContentResponse)
    : Async JsValue :=
  match text response with
  | Some (String _ _ as responseText) => lift (JSON_parse responseText)
  | _ => throw (newError "No response text generated")
  end.

Definition analyzeArticle (article : Article) : Async JsValue :=
  tryCatch
    (let* response :=
       retryRequest (generateContent (analysisRequest article))
         defaultRetries defaultDelay in
     readSimulationResult response)%async
    (fun error => ret analysisFallback).

(** *** generateReplyReaction *)

Definition replyRequest (article : Article) (originalComment : Comment)
    (reporterReply : string) : GenerateContentParameters :=
  let eraContext := getEraContext article in
  {| model := modelId;
     contents := replyPrompt eraContext article originalComment reporterReply;
     config := {| systemInstruction := None;
                  responseMimeType := "application/json";
                  responseSchema := replyListSchema |} |}.

Definition readReplies (response : GenerateContentResponse) : Async JsValue :=
  match text response with
  | Some (String _ _ as responseText) => lift (JSON_parse responseText)
  | _ => ret (VArray [])
  end.

Definition generateReplyReaction (article : Article)
    (originalComment : Comment) (reporterReply : string) : Async JsValue :=
  tryCatch
    (let* response :=
       retryRequest
         (generateContent (replyRequest article originalComment reporterReply))
         defaultRetries defaultDelay in
     readReplies response)%async
    (fun e => ret (VArray [])).

End Service.

(** ** A reader of JSON texts

    The service is parametric in [JSON.parse].  To run it on concrete
    payloads, [jsonParse] reads a text by the JSON grammar (ECMA-404), as
    [JSON.parse] does: of two members with the same key the later one
    stays, a number is the double nearest to its decimal, and a text with
    anything but white space after its value is refused. *)

Definition isChar (code : nat) (c : ascii) : bool := (nat_of_ascii c =? code)%nat.

Fixpoint skipJsonSpace (s : string) : string :=
  match s with
  | String c rest =>
      if isChar 32 c || isChar 9 c || isChar 10 c || isChar 13 c
      then skipJsonSpace rest else s
  | EmptyString => s
  end.

(** A run of decimal digits: its value, its length and the rest. *)
Fixpoint readDecimal (acc : Z) (count : nat) (s : string) : Z * nat * string :=
  match s with
  | String c rest =>
      match digitValue 10 c with
      | Some d => readDecimal (acc * 10 + d) (S count) rest
      | None => (acc, count, s)
      end
  | EmptyString => (acc, count, s)
  end.

(** The double nearest to the ratio [n / d] of two positive integers, the
    even mantissa of two nearest ones: the mantissa has 53 bits, or fewer
    at the least exponent [-1074]; from [2 ^ 1024 - 2 ^ 970] on the result
    is an infinity. *)
Definition nearestDouble (negative : bool) (n d : Z) : JsValue :=
  let l0 := Z.log2 n - Z.log2 d in
  let l := if d * 2 ^ Z.max 0 l0 <=? n * 2 ^ Z.max 0 (- l0) then l0 else l0 - 1 in
  let e := Z.max (-1074) (l - 52) in
  let num := n * 2 ^ Z.max 0 (- e) in
  let den := d * 2 ^ Z.max 0 e in
  let q := num / den in
  let r := num mod den in
  let m :=
    if den <? 2 * r then q + 1
    else if (2 * r =? den) && Z.odd q then q + 1
    else q in
  if 2 ^ 1024 <=? m * 2 ^ e then VInfinity negative
  else finite (if negative then - m else m) e.

(** The number that the decimal [m * 10 ^ k] writes. *)
Definition decimalNumber (negative : bool) (m k : Z) : JsValue :=
  if m =? 0 then VNumber 0 0
  else nearestDouble negative (m * 10 ^ Z.max 0 k) (10 ^ Z.max 0 (- k)).

(** [int frac? exp?] after the optional minus sign. *)
Definition readNumber (negative : bool) (s : string) : option (JsValue * string) :=
  let '(intPart, intLen, afterInt) := readDecimal 0 0 s in
  let leadingZero := match s with String "0" _ => true | _ => false end in
  if (intLen =? 0)%nat || (leadingZero && (1 <? intLen)%nat) then None
  else
    let fraction :=
      match afterInt with
      | String "." rest =>
          let '(m, fracLen, afterFrac) := readDecimal intPart 0 rest in
          if (fracLen =? 0)%nat then None else Some (m, Z.of_nat fracLen, afterFrac)
      | _ => Some (intPart, 0, afterInt)
      end in
    match fraction with
    | None => None
    | Some (m, fracLen, afterFrac) =>
        let exponent (expSign : Z) (digits : string) :=
          let '(e, expLen, afterExp) := readDecimal 0 0 digits in
          if (expLen =? 0)%nat then None
          else Some (decimalNumber negative m (expSign * e - fracLen), afterExp) in
        let exponentPart (rest : string) :=
          match rest with
          | String "-" digits => exponent (-1) digits
          | String "+" digits => exponent 1 digits
          | _ => exponent 1 rest
          end in
        match afterFrac with
        | String "e" rest => exponentPart rest
        | String "E" rest => exponentPart rest
        | _ => Some (decimalNumber negative m (- fracLen), afterFrac)
        end
    end.

(** Four hexadecimal digits. *)
Definition readHex4 (s : string) : option (Z * string) :=
  match s with
  | String a (String b (String c (String d rest))) =>
      match digitValue 16 a, digitValue 16 b, digitValue 16 c, digitValue 16 d with
      | Some x, Some y, Some z, Some t =>
          Some (((x * 16 + y) * 16 + z) * 16 + t, rest)
      | _, _, _, _ => None
      end
  | _ => None
  end.

Definition byte (n : Z) : string := String (ascii_of_nat (Z.to_nat n)) EmptyString.

(** The UTF-8 bytes of a code point. *)
Definition utf8 (cp : Z) : string :=
  if cp <? 128 then byte cp
  else if cp <? 2048 then byte (192 + cp / 64) +:+ byte (128 + cp mod 64)
  else if cp <? 65536 then
    byte (224 + cp / 4096) +:+ byte (128 + (cp / 64) mod 64)
    +:+ byte (128 + cp mod 64)
  else
    byte (240 + cp / 262144) +:+ byte (128 + (cp / 4096) mod 64)
    +:+ byte (128 + (cp / 64) mod 64) +:+ byte (128 + cp mod 64).

(** The characters of a string after its opening quote, up to the closing
    one.  A pair of surrogate escapes gives one code point. *)
Fixpoint readString (fuel : nat) (s : string) : option (string * string) :=
  match fuel with
  | O => None
  | S fuel' =>
      match s with
      | EmptyString => None
      | String c rest =>
          if isChar 34 c then Some (EmptyString, rest)
          else if isChar 92 c then
            match rest with
            | String e rest' =>
                let plain (out : string) :=
                  match readString fuel' rest' with
                  | Some (more, r) => Some (out +:+ more, r)
                  | None => None
                  end in
                if isChar 34 e then plain dq
                else if isChar 92 e then plain (byte 92)
                else if isChar 47 e then plain "/"
                else if isChar 98 e then plain (byte 8)
                else if isChar 102 e then plain (byte 12)
                else if isChar 110 e then plain nl
                else if isChar 114 e then plain (byte 13)
                else if isChar 116 e then plain (byte 9)
                else if isChar 117 e then
                  match readHex4 rest' with
                  | Some (hi, afterHi) =>
                      let single :=
                        match readString fuel' afterHi with
                        | Some (more, r) => Some (utf8 hi +:+ more, r)
                        | None => None
                        end in
                      if (55296 <=? hi) && (hi <? 56320) then
                        match afterHi with
                        | String b (String u afterU) =>
                            if isChar 92 b && isChar 117 u then
                              match readHex4 afterU with
                              | Some (lo, afterLo) =>
                                  if (56320 <=? lo) && (lo <? 57344) then
                                    match readString fuel' afterLo with
                                    | Some (more, r) =>
                                        Some (utf8 (65536 + (hi - 55296) * 1024
                                                    + (lo - 56320)) +:+ more, r)
                                    | None => None
                                    end
                                  else single
                              | None => single
                              end
                            else single
                        | _ => single
                        end
                      else single
                  | None => None
                  end
                else None
            | EmptyString => None
            end
          else if (nat_of_ascii c <? 32)%nat then None
          else
            match readString fuel' rest with
            | Some (more, r) => Some (String c more, r)
            | None => None
            end
      end
  end.

(** A value, the elements of an array after its bracket, and the members
    of an object after its brace.  Every call uses one unit of [fuel]. *)
Fixpoint readValue (fuel : nat) (s : string) : option (JsValue * string) :=
  match fuel with
  | O => None
  | S fuel' =>
      match skipJsonSpace s with
      | String "n" (String "u" (String "l" (String "l" rest))) => Some (VNull, rest)
      | String "t" (String "r" (String "u" (String "e" rest))) =>
          Some (VBool true, rest)
      | String "f" (String "a" (String "l" (String "s" (String "e" rest)))) =>
          Some (VBool false, rest)
      | String "[" rest =>
          match skipJsonSpace rest with
          | String "]" rest' => Some (VArray [], rest')
          | _ => readElements fuel' rest []
          end
      | String "{" rest =>
          match skipJsonSpace rest with
          | String "}" rest' => Some (VObject ∅, rest')
          | _ => readMembers fuel' rest ∅
          end
      | String "-" rest => readNumber true rest
      | String c rest as s' =>
          if isChar 34 c then
            match readString (String.length rest) rest with
            | Some (str, rest') => Some (VString str, rest')
            | None => None
            end
          else readNumber false s'
      | EmptyString => None
      end
  end
with readElements (fuel : nat) (s : string) (done : list JsValue)
    : option (JsValue * string) :=
  match fuel with
  | O => None
  | S fuel' =>
      match readValue fuel' s with
      | Some (v, rest) =>
          match skipJsonSpace rest with
          | String "," rest' => readElements fuel' rest' (done ++ [v])
          | String "]" rest' => Some (VArray (done ++ [v]), rest')
          | _ => None
          end
      | None => None
      end
  end
with readMembers (fuel : nat) (s : string) (done : gmap string JsValue)
    : option (JsValue * string) :=
  match fuel with
  | O => None
  | S fuel' =>
      match skipJsonSpace s with
      | String q afterQuote =>
          if isChar 34 q then
            match readString (String.length afterQuote) afterQuote with
            | Some (key, afterKey) =>
                match skipJsonSpace afterKey with
                | String ":" afterColon =>
                    match readValue fuel' afterColon with
                    | Some (v, rest) =>
                        match skipJsonSpace rest with
                        | String "," rest' =>
                            readMembers fuel' rest' (<[key := v]> done)
                        | String "}" rest' =>
                            Some (VObject (<[key := v]> done), rest')
                        | _ => None
                        end
                    | None => None
                    end
                | _ => None
                end
            | None => None
            end
          else None
      | EmptyString => None
      end
  end.

(** [new SyntaxError(msg)] *)
Definition newSyntaxError (msg : string) : JsError :=
  VObject {[ "name" := VString "SyntaxError"; "message" := VString msg ]}.

(** The whole text is one value; the fuel covers the deepest nesting that
    a text of this length can have. *)
Definition jsonParse (s : string) : Completion JsValue :=
  match readValue (2 * String.length s + 2) s with
  | Some (v, rest) =>
      match skipJsonSpace rest with
      | EmptyString => Normal v
      | _ => Abrupt (newSyntaxError "Unexpected non-whitespace character after JSON")
      end
  | None => Abrupt (newSyntaxError "Unexpected token in JSON")
  end.

(** ** The waits of a backoff *)

(** The delays of [K] consecutive waits that start at [delay]:
    [delay * 2^0], ..., [delay * 2^(K-1)]. *)
Definition backoffDelays (delay : Z) (K : nat) : list Z :=
  map (fun k => delay * 2 ^ Z.of_nat k) (seq 0 K).

(** The events of [K] failed attempts: [K] times an invocation followed
    by a wait, the waits starting at [delay] and doubling. *)
Fixpoint failedAttempts (delay : Z) (K : nat) : list Event :=
  match K with
  | O => []
  | S K' => Invocation :: Timeout delay :: failedAttempts (delay * 2) K'
  end.

(** The events of a run with [K] retries: an invocation, then [K] times
    a wait followed by the next invocation, the waits starting at [delay]
    and doubling. *)
Fixpoint retryEvents (delay : Z) (K : nat) : list Event :=
  match K with
  | O => [Invocation]
  | S K' => Invocation :: Timeout delay :: retryEvents (delay * 2) K'
  end.

(** ** Sample instances

    Concrete instances of what the service is parametric in, to run it. *)

(** An operation that goes through the listed outcomes, one for each
    invocation, and then stays at [final]. *)
Definition scripted {T} (outcomes : list (Completion T)) (final : Completion T)
    : Operation T :=
  fun i => nth i outcomes final.

(** Errors as the generation client raises them. *)
Definition rateLimitError : JsError :=
  VObject {[ "name" := VString "ApiError";
             "message" := VString "Resource has been exhausted (e.g. check quota).";
             "status" := number 429 ]}.

Definition quotaMessageError : JsError :=
  newError "got status: 429 Too Many Requests".

Definition serverError : JsError :=
  VObject {[ "name" := VString "ApiError"; "message" := VString "Internal error";
             "status" := number 500 ]}.

(** Values that are thrown without being errors of the runtime: an object
    whose message is a number, and one whose message is a list of
    texts. *)
Definition numericMessageError : JsError :=
  VObject {[ "message" := number 503 ]}.

Definition listMessageError : JsError :=
  VObject {[ "message" := VArray [VString "quota"; VString "429"] ]}.

Definition initialWorld : World := [].

(** Modelled from the spec: the enumeration [ArticleCategory] of [./types]
    is not among the sources.  The sample takes for its values the
    category names that the random-article prompt lists, with the name for
    society as [SOCIETY]. *)
Definition promptCategories : list string :=
  ["정치"; "경제"; "사회"; "연예"; "IT/과학"; "스포츠"; "오피니언"].

Definition promptSociety : string := "사회".

(** A generation capability that answers every request with [payload]. *)
Definition answering (payload : option string)
    : GenerateContentParameters -> Operation GenerateContentResponse :=
  fun _ _ => Normal {| text := payload |}.

(** A generation capability that fails every request with [error]. *)
Definition failing (error : JsError)
    : GenerateContentParameters -> Operation GenerateContentResponse :=
  fun _ _ => Abrupt error.

Definition plainArticle : Article :=
  {| title := "제목"; content := "본문"; category := "사회"; author := "기자";
     isEmergencyMode := false; isCrazyMode := false; isFakeNews := false;
     isTimeMachineMode := false; targetYear := None;
     previousArticleContext := None |}.

Definition plainComment : Comment :=
  {| comment_username := "user1"; comment_content := "댓글";
     comment_platform := "네이버 뉴스" |}.

(** An article in time-machine mode with the given year text. *)
Definition timeMachineArticle (year : option string) : Article :=
  {| title := "제목"; content := "본문"; category := "사회"; author := "기자";
     isEmergencyMode := false; isCrazyMode := false; isFakeNews := false;
     isTimeMachineMode := true; targetYear := year;
     previousArticleContext := None |}.

(** An article with the given mode flags. *)
Definition modeArticle (emergency crazy fake : bool) : Article :=
  {| title := "제목"; content := "본문"; category := "사회"; author := "기자";
     isEmergencyMode := emergency; isCrazyMode := crazy; isFakeNews := fake;
     isTimeMachineMode := false; targetYear := None;
     previousArticleContext := None |}.

(** ** The bands of the era resolver, as the specification names them

    Five bands by the year, tried in this order with strict comparisons;
    the first that matches is taken. *)
Inductive EraBand : Type :=
| BandBefore1990
| Band1990s
| Band2000s
| BandFuture
| BandReflect.

Definition bandOfYear (currentYear year : Z) : EraBand :=
  if year <? 1990 then BandBefore1990
  else if year <? 2000 then Band1990s
  else if year <? 2010 then Band2000s
  else if currentYear + 5 <? year then BandFuture
  else BandReflect.

(** The directive of a band in [getEraContext] and in [analyzeArticle]. *)
Definition eraDirective (band : EraBand) (targetYear : JsNumber) : string :=
  match band with
  | BandBefore1990 => eraBefore1990 targetYear
  | Band1990s => era1990s targetYear
  | Band2000s => era2000s targetYear
  | BandFuture => eraFuture targetYear
  | BandReflect => eraReflect targetYear
  end.

Definition eraFullDirective (band : EraBand) (targetYear : JsNumber) : string :=
  match band with
  | BandBefore1990 => eraFullBefore1990 targetYear
  | Band1990s => eraFull1990s targetYear
  | Band2000s => eraFull2000s targetYear
  | BandFuture => eraFullFuture targetYear
  | BandReflect => eraFullReflect targetYear
  end.

(** ** Failures of a generation, as the specification names them *)

Section Failures.

Variable JSON_parse : string -> Completion JsValue.
Variable generateContent :
  GenerateContentParameters -> Operation GenerateContentResponse.

(** The request, sent through [retryRequest] with its defaults. *)
Definition requestGeneration (request : GenerateContentParameters)
    : Async GenerateContentResponse :=
  retryRequest (generateContent request) defaultRetries defaultDelay.

(** What can go wrong with a generation that starts in the world [w]:
    the request throws (at once, or after the retries), the response has
    no text or an empty one, or the text does not parse. *)
Inductive GenerationFailure (request : GenerateContentParameters) (w : World)
    : Prop :=
| TransportFailure (e : JsError) (w' : World) :
    requestGeneration request w = (Abrupt e, w') ->
    GenerationFailure request w
| EmptyPayload (response : GenerateContentResponse) (w' : World) :
    requestGeneration request w = (Normal response, w') ->
    truthy (text response) = false ->
    GenerationFailure request w
| MalformedPayload (response : GenerateContentResponse) (w' : World)
    (responseText : string) (e : JsError) :
    requestGeneration request w = (Normal response, w') ->
    text response = Some responseText ->
    responseText <> EmptyString ->
    JSON_parse responseText = Abrupt e ->
    GenerationFailure request w.

(** A generation that yields the parsed value [data]. *)
Definition GenerationYields (request : GenerateContentParameters) (w : World)
    (data : JsValue) : Prop :=
  exists response w' responseText,
    requestGeneration request w = (Normal response, w') /\
    text response = Some responseText /\
    responseText <> EmptyString /\
    JSON_parse responseText = Normal data.

End Failures.

(** A value lacks a field that the object schema requires. *)
Definition lacksRequiredField (schema : Schema) (data : JsValue) : bool :=
  match schema, data with
  | SObject _ required, VObject fields =>
      existsb (fun key => match fields !! key with
                          | Some _ => false
                          | None => true
                          end) required
  | SObject _ _, _ => true
  | _, _ => false
  end.

(** Payloads of the random-article flow. *)

(** A JSON member [key: value] with a string value. *)
Definition member (key value : string) : string :=
  dq +:+ key +:+ dq +:+ ":" +:+ dq +:+ value +:+ dq.

(** An article in the economy category, with one field more than the
    schema names. *)
Definition payloadEconomy : string :=
  "{" +:+ member "title" "금리 동결" +:+ "," +:+ member "content" "본문입니다."
  +:+ "," +:+ member "category" "경제" +:+ "," +:+ member "mood" "calm" +:+ "}".

(** An article in a category that is not known. *)
Definition payloadWeather : string :=
  "{" +:+ member "title" "내일 비" +:+ "," +:+ member "content" "본문입니다."
  +:+ "," +:+ member "category" "날씨" +:+ "}".

(** An object with a title and nothing else. *)
Definition payloadTitleOnly : string := "{" +:+ member "title" "속보" +:+ "}".

Definition dataEconomy : JsValue :=
  VObject {[ "title" := VString "금리 동결"; "content" := VString "본문입니다.";
             "category" := VString "경제"; "mood" := VString "calm" ]}.

Definition dataWeather : JsValue :=
  VObject {[ "title" := VString "내일 비"; "content" := VString "본문입니다.";
             "category" := VString "날씨" ]}.

(** ** Characters of a text *)

(** The characters that the text of a year is made of: the digits, the
    signs, the point and the letter e of an exponent, and the letters of
    NaN and Infinity. *)
Definition isYearChar (c : ascii) : bool :=
  let n := nat_of_ascii c in
  ((48 <=? n) && (n <=? 57) || (n =? 45) || (n =? 43) || (n =? 46)
   || (n =? 101) || (n =? 78) || (n =? 97) || (n =? 73) || (n =? 110)
   || (n =? 102) || (n =? 105) || (n =? 116) || (n =? 121))%nat.

(** The characters that the text of a year starts with: a digit, the
    minus sign, or the first letter of NaN or of Infinity. *)
Definition isYearHead (c : ascii) : bool :=
  let n := nat_of_ascii c in
  ((48 <=? n) && (n <=? 57) || (n =? 45) || (n =? 78) || (n =? 73))%nat.

(** The first character of a text satisfies [P]. *)
Definition headChar (P : ascii -> bool) (s : string) : bool :=
  match s with
  | EmptyString => false
  | String c _ => P c
  end.

Fixpoint allChars (P : ascii -> bool) (s : string) : bool :=
  match s with
  | EmptyString => true
  | String c rest => P c && allChars P rest
  end.

(** The mode directives of the random article that occur in a prompt. *)
Definition directivesIn (prompt : string) : list string :=
  List.filter (fun directive => includes directive prompt)
    [randomEmergency; randomCrazy; randomFakeNews; randomDefault].

(** ** The steps of [parseInt]

    The sign and the radix that [parseInt] reads before the digits, as
    functions of their own. *)
Definition signAndRest (s : string) : Z * string :=
  match s with
  | String "-" rest => (-1, rest)
  | String "+" rest => (1, rest)
  | _ => (1, s)
  end.

Definition radixAndDigits (s : string) : Z * string :=
  match s with
  | String "0" (String "x" rest) => (16, rest)
  | String "0" (String "X" rest) => (16, rest)
  | _ => (10, s)
  end.

(** The decimal text of an integer: its digits, after a minus sign when
    it is negative. *)
Definition decimalText (z : Z) : string := NilZero.string_of_int (Z.to_int z).

(** ** The time waited *)

(** The sum of the delays of all waits made so far. *)
Definition totalWait (w : World) : Z := fold_right Z.add 0 (sleeps w).

(** ** Articles with one field replaced *)

Definition withTargetYear (year : option string) (a : Article) : Article :=
  {| title := title a; content := content a; category := category a;
     author := author a; isEmergencyMode := isEmergencyMode a;
     isCrazyMode := isCrazyMode a; isFakeNews := isFakeNews a;
     isTimeMachineMode := isTimeMachineMode a; targetYear := year;
     previousArticleContext := previousArticleContext a |}.

Definition withPreviousArticleContext (previous : option string) (a : Article)
    : Article :=
  {| title := title a; content := content a; category := category a;
     author := author a; isEmergencyMode := isEmergencyMode a;
     isCrazyMode := isCrazyMode a; isFakeNews := isFakeNews a;
     isTimeMachineMode := isTimeMachineMode a; targetYear := targetYear a;
     previousArticleContext := previous |}.

(** ** The article editor

    The component [ArticleEditor]: what it derives from the article for
    rendering, and its handlers.  The article is the state of the parent
    component; a handler passes an updater to [setArticle]. *)

(** The keys of the theme tables. *)
Inductive Theme : Type :=
| darkRed
| purple
| red
| amber
| gray.

Definition getThemeColor (article : Article) : Theme :=
  if isEmergencyMode article then darkRed
  else if isCrazyMode article then purple
  else if isFakeNews article then red
  else if isTimeMachineMode article then amber
  else gray.

(** The colour class of the dot in the header. *)
Definition indicatorClass (article : Article) : string :=
  if isEmergencyMode article then "bg-red-600"
  else if isCrazyMode article then "bg-fuchsia-400"
  else if isFakeNews article then "bg-yellow-400"
  else if isTimeMachineMode article then "bg-amber-400"
  else "bg-red-500".

(** The texts of the [span]s in the header, in their order: one for each
    condition that holds. *)
Definition headerLabels (article : Article) : list string :=
  (if isEmergencyMode article then ["[긴급]"] else []) ++
  (if isCrazyMode article then ["[광기]"] else []) ++
  (if isFakeNews article then ["[선동]"] else []) ++
  (if isTimeMachineMode article then ["[시간여행]"] else []) ++
  (if negb (isEmergencyMode article) && negb (isCrazyMode article)
      && negb (isFakeNews article) && negb (isTimeMachineMode article)
   then ["CMS: 기사 작성 시스템"] else []).

(** A text in a condition: the empty text is falsy. *)
Definition truthyText (s : string) : bool :=
  match s with
  | EmptyString => false
  | String _ _ => true
  end.

(** The [disabled] attributes of the three buttons. *)
Definition randomButtonDisabled (isSimulating isGeneratingRandom : bool) : bool :=
  isSimulating || isGeneratingRandom.

Definition rewriteButtonDisabled (article : Article) (isSimulating : bool) : bool :=
  isSimulating
  || (negb (truthyText (title article)) && negb (truthyText (content article))).

Definition publishButtonDisabled (article : Article) (isSimulating : bool) : bool :=
  negb (truthyText (title article)) || negb (truthyText (content article))
  || isSimulating.

(** The keys of [Article]. *)
Inductive ArticleKey : Type :=
| KTitle
| KContent
| KCategory
| KAuthor
| KIsEmergencyMode
| KIsCrazyMode
| KIsFakeNews
| KIsTimeMachineMode
| KTargetYear
| KPreviousArticleContext.

(** The value of a field: a text, a flag, or an optional text. *)
Inductive FieldValue : Type :=
| TextValue (s : string)
| FlagValue (b : bool)
| OptionalValue (o : option string).

Definition readField (key : ArticleKey) (a : Article) : FieldValue :=
  match key with
  | KTitle => TextValue (title a)
  | KContent => TextValue (content a)
  | KCategory => TextValue (category a)
  | KAuthor => TextValue (author a)
  | KIsEmergencyMode => FlagValue (isEmergencyMode a)
  | KIsCrazyMode => FlagValue (isCrazyMode a)
  | KIsFakeNews => FlagValue (isFakeNews a)
  | KIsTimeMachineMode => FlagValue (isTimeMachineMode a)
  | KTargetYear => OptionalValue (targetYear a)
  | KPreviousArticleContext => OptionalValue (previousArticleContext a)
  end.

(** A call [handleChange(field, value)] with a value of the type of the
    field: a text for a text field, a flag for a mode flag. *)
Inductive FieldChange : Type :=
| ChangeTitle (value : string)
| ChangeContent (value : string)
| ChangeCategory (value : string)
| ChangeAuthor (value : string)
| ChangeIsEmergencyMode (value : bool)
| ChangeIsCrazyMode (value : bool)
| ChangeIsFakeNews (value : bool)
| ChangeIsTimeMachineMode (value : bool)
| ChangeTargetYear (value : string)
| ChangePreviousArticleContext (value : string).

Definition changedKey (change : FieldChange) : ArticleKey :=
  match change with
  | ChangeTitle _ => KTitle
  | ChangeContent _ => KContent
  | ChangeCategory _ => KCategory
  | ChangeAuthor _ => KAuthor
  | ChangeIsEmergencyMode _ => KIsEmergencyMode
  | ChangeIsCrazyMode _ => KIsCrazyMode
  | ChangeIsFakeNews _ => KIsFakeNews
  | ChangeIsTimeMachineMode _ => KIsTimeMachineMode
  | ChangeTargetYear _ => KTargetYear
  | ChangePreviousArticleContext _ => KPreviousArticleContext
  end.

Definition changedValue (change : FieldChange) : FieldValue :=
  match change with
  | ChangeTitle s | ChangeContent s | ChangeCategory s | ChangeAuthor s =>
      TextValue s
  | ChangeIsEmergencyMode b | ChangeIsCrazyMode b | ChangeIsFakeNews b
  | ChangeIsTimeMachineMode b => FlagValue b
  | ChangeTargetYear s | ChangePreviousArticleContext s => OptionalValue (Some s)
  end.

(** The updater of [handleChange]: [prev => ({ ...prev, [field]: value })]. *)
Definition handleChange (change : FieldChange) (prev : Article) : Article :=
  {| title := match change with ChangeTitle v => v | _ => title prev end;
     content := match change with ChangeContent v => v | _ => content prev end;
     category := match change with ChangeCategory v => v | _ => category prev end;
     author := match change with ChangeAuthor v => v | _ => author prev end;
     isEmergencyMode :=
       match change with ChangeIsEmergencyMode v => v | _ => isEmergencyMode prev end;
     isCrazyMode :=
       match change with ChangeIsCrazyMode v => v | _ => isCrazyMode prev end;
     isFakeNews :=
       match change with ChangeIsFakeNews v => v | _ => isFakeNews prev end;
     isTimeMachineMode :=
       match change with
       | ChangeIsTimeMachineMode v => v
       | _ => isTimeMachineMode prev
       end;
     targetYear :=
       match change with ChangeTargetYear v => Some v | _ => targetYear prev end;
     previousArticleContext :=
       match change with
       | ChangePreviousArticleContext v => Some v
       | _ => previousArticleContext prev
       end |}.

(** The controls of the editor that call [handleChange], with the value
    that the control passes. *)
Inductive EditorInput : Type :=
| TimeMachineToggled (checked : bool)
| YearTyped (value : string)
| FakeNewsToggled (checked : bool)
| CategorySelected (value : string)
| AuthorTyped (value : string)
| TitleTyped (value : string)
| ContentTyped (value : string).

Definition onChange (input : EditorInput) : FieldChange :=
  match input with
  | TimeMachineToggled checked => ChangeIsTimeMachineMode checked
  | YearTyped value => ChangeTargetYear value
  | FakeNewsToggled checked => ChangeIsFakeNews checked
  | CategorySelected value => ChangeCategory value
  | AuthorTyped value => ChangeAuthor value
  | TitleTyped value => ChangeTitle value
  | ContentTyped value => ChangeContent value
  end.

(** [handleRewrite]: the article after the handler, for the answer given
    to the confirmation dialog. *)
Definition handleRewrite (confirmed : bool) (prev : Article) : Article :=
  if confirmed then
    {| title := ""; content := ""; category := category prev;
       author := author prev; isEmergencyMode := isEmergencyMode prev;
       isCrazyMode := isCrazyMode prev; isFakeNews := isFakeNews prev;
       isTimeMachineMode := isTimeMachineMode prev;
       targetYear := targetYear prev;
       previousArticleContext := previousArticleContext prev |}
  else prev.

(** The article as an object: a property for each field, none for an
    optional text that is absent. *)
Definition articleObject (a : Article) : gmap string JsValue :=
  let withOptional (key : string) (o : option string)
        (m : gmap string JsValue) :=
    match o with
    | Some s => <[key := VString s]> m
    | None => m
    end in
  withOptional "targetYear" (targetYear a)
    (withOptional "previousArticleContext" (previousArticleContext a)
       {[ "title" := VString (title a);
          "content" := VString (content a);
          "category" := VString (category a);
          "author" := VString (author a);
          "isEmergencyMode" := VBool (isEmergencyMode a);
          "isCrazyMode" := VBool (isCrazyMode a);
          "isFakeNews" := VBool (isFakeNews a);
          "isTimeMachineMode" := VBool (isTimeMachineMode a) ]}).

(** The updater of [handleRandomGenerate]:
    [prev => ({ ...prev, ...randomContent })].  The properties of
    [randomContent] replace those of [prev]. *)
Definition mergeRandomContent (randomContent : gmap string JsValue)
    (prev : Article) : gmap string JsValue :=
  randomContent ∪ articleObject prev.

(** What a run of [handleRandomGenerate] does to the component, in order. *)
Inductive EditorEffect : Type :=
| SetIsGeneratingRandom (value : bool)
| SetArticle (randomContent : gmap string JsValue)
| Alert (message : string).

Section Editor.

Variable currentYear : Z.
Variable ArticleCategory_values : list string.
Variable ArticleCategory_SOCIETY : string.
Variable JSON_parse : string -> Completion JsValue.
Variable generateContent :
  GenerateContentParameters -> Operation GenerateContentResponse.

(** [handleRandomGenerate] for the article of the current rendering.
    [confirmed] is the answer to the confirmation dialog, which is shown
    only when the article has a title or a content. *)
Definition handleRandomGenerate (confirmed : bool) (article : Article)
    : Async (list EditorEffect) :=
  if (truthyText (title article) || truthyText (content article))
     && negb confirmed
  then ret []
  else
    (let* effects :=
       tryCatch
         (let* randomContent :=
            generateRandomArticle currentYear ArticleCategory_values
              ArticleCategory_SOCIETY JSON_parse generateContent article in
          ret [SetArticle randomContent])
         (fun error =>
            ret [Alert "기사 생성에 실패했습니다. 잠시 후 다시 시도해주세요."]) in
     ret ([SetIsGeneratingRandom true] ++ effects
          ++ [SetIsGeneratingRandom false]))%async.

End Editor.

(** ** The outcome of a run *)

(** The outcome of a run that ends at an invocation: the value that the
    invocation returns; the error that it throws, when the budget is
    spent or the condition of the [catch] block is false; what this
    condition throws, when it throws with budget left. *)
Definition outcomeAt {T} (invocation : Completion T) (budgetLeft : bool)
    : Completion T :=
  match invocation with
  | Normal v => Normal v
  | Abrupt e =>
      if budgetLeft then
        match rateLimitSignal e with
        | Normal _ => Abrupt e
        | Abrupt thrown => Abrupt thrown
        end
      else Abrupt e
  end.

(** ** The requests of one entry point *)

(** The world after an entry point that started in [w]: some number [m]
    of retries, at most three, with the waits of the default backoff. *)
Definition withinRequestBudget (w w' : World) : Prop :=
  exists m : nat,
    (m <= 3)%nat /\ w' = w ++ retryEvents defaultDelay m.

(** * Properties *)

(** ** Searching a text *)

Lemma prefix_app (d s : string) :
  String.prefix d s = true <-> exists post, s = d +:+ post.
Proof.
  revert s. induction d as [|d0 d IH]; intros s.
  - split; [intros _; now exists s | intros _; now destruct s].
  - destruct s as [|c s]; cbn [String.prefix].
    + split; [discriminate | intros (post & H); discriminate].
    + destruct (Ascii.ascii_dec d0 c) as [->|Hne].
      * rewrite IH. split; intros (post & H); exists post.
        -- now rewrite H.
        -- now injection H.
      * split; [discriminate | intros (post & H)]. injection H as H _. congruence.
Qed.

(** [includes] finds the needle exactly when the text holds it. *)
Lemma includes_app (needle hay : string) :
  includes needle hay = true <-> exists pre post, hay = pre +:+ needle +:+ post.
Proof.
  induction hay as [|c hay IH]; cbn [includes].
  - rewrite orb_false_r, prefix_app. split.
    + intros (post & H). now exists EmptyString, post.
    + intros (pre & post & H). destruct pre; [now exists post | discriminate].
  - rewrite orb_true_iff, prefix_app, IH. split.
    + intros [(post & H) | (pre & post & H)].
      * now exists EmptyString, post.
      * exists (String c pre), post. now rewrite H.
    + intros (pre & post & H). destruct pre as [|p pre].
      * left. now exists post.
      * right. exists pre, post. now injection H.
Qed.

(** The condition of the [catch] block is true exactly in these cases. *)
Lemma rateLimitSignal_spec (error : JsError) :
  rateLimitSignal error = Normal true <->
  strictEqInteger 429 (optionalProp error "status") = true \/
  strictEqInteger 429 (optionalProp error "code") = true \/
  (exists m, optionalProp error "message" = VString m /\ includes "429" m = true) \/
  (exists items, optionalProp error "message" = VArray items /\
                 In (VString "429") items).
Proof.
  assert (Hitems : forall items,
            existsb (fun item => match item with
                                 | VString s => String.eqb s "429"
                                 | _ => false
                                 end) items = true <->
            In (VString "429") items).
  { intros items. rewrite existsb_exists. split.
    - intros (x & Hin & Hx). destruct x; try discriminate.
      apply String.eqb_eq in Hx. now subst.
    - intros Hin. exists (VString "429"). split; [exact Hin | reflexivity]. }
  unfold rateLimitSignal.
  destruct (strictEqInteger 429 (optionalProp error "status")); [tauto|].
  destruct (strictEqInteger 429 (optionalProp error "code")); [tauto|].
  destruct (optionalProp error "message") as [| |b|m e| | |s|items|fields];
    cbn [messageIncludes429];
    try (split; [discriminate
                | intros [H | [H | [(m' & H & _) | (l & H & _)]]]; discriminate]).
  - split.
    + intros [= H]. right. right. left. now exists s.
    + intros [H | [H | [(m' & [= <-] & H) | (l & H & _)]]];
        try discriminate. now rewrite H.
  - split.
    + intros [= H]. right. right. right. exists items. split; [reflexivity|].
      now apply Hitems.
    + intros [H | [H | [(m' & H & _) | (l & [= <-] & H)]]]; try discriminate.
      f_equal. now apply Hitems.
Qed.

(** The condition is false exactly when neither the status nor the code
    is 429 and the message is absent, a text without 429, or a list
    without the text 429. *)
Lemma rateLimitSignal_false_spec (error : JsError) :
  rateLimitSignal error = Normal false <->
  strictEqInteger 429 (optionalProp error "status") = false /\
  strictEqInteger 429 (optionalProp error "code") = false /\
  (optionalProp error "message" = VUndefined \/
   optionalProp error "message" = VNull \/
   (exists m, optionalProp error "message" = VString m /\
              includes "429" m = false) \/
   (exists items, optionalProp error "message" = VArray items /\
                  ~ In (VString "429") items)).
Proof.
  assert (Hitems : forall items,
            existsb (fun item => match item with
                                 | VString s => String.eqb s "429"
                                 | _ => false
                                 end) items = false <->
            ~ In (VString "429") items).
  { intros items. rewrite <- not_true_iff_false, existsb_exists. split.
    - intros Hno Hin. apply Hno. exists (VString "429"). now split.
    - intros Hno (x & Hin & Hx). destruct x; try discriminate.
      apply String.eqb_eq in Hx. now subst. }
  unfold rateLimitSignal.
  destruct (strictEqInteger 429 (optionalProp error "status"));
    [split; [discriminate | intros (H & _); discriminate]|].
  destruct (strictEqInteger 429 (optionalProp error "code"));
    [split; [discriminate | intros (_ & H & _); discriminate]|].
  destruct (optionalProp error "message") as [| |b|m e| | |s|items|fields];
    cbn [messageIncludes429];
    try (split; [discriminate
                | intros (_ & _ & [H | [H | [(m' & H & _) | (l & H & _)]]]);
                  discriminate]).
  - split; [intros _; repeat split; now left | reflexivity].
  - split; [intros _; repeat split; right; now left | reflexivity].
  - split.
    + intros [= H]. repeat split. right. right. left. now exists s.
    + intros (_ & _ & [H | [H | [(m' & [= <-] & H) | (l & H & _)]]]);
        try discriminate. now rewrite H.
  - split.
    + intros [= H]. repeat split. right. right. right. exists items.
      split; [reflexivity | now apply Hitems].
    + intros (_ & _ & [H | [H | [(m' & H & _) | (l & [= <-] & H)]]]);
        try discriminate. f_equal. now apply Hitems.
Qed.

(** ** The events of a run *)

Lemma calls_app (w w' : World) : calls (w ++ w') = (calls w + calls w')%nat.
Proof.
  induction w as [|[|d] w IH]; cbn [app calls]; [reflexivity | | exact IH].
  now rewrite IH.
Qed.

Lemma sleeps_app (w w' : World) : sleeps (w ++ w') = sleeps w ++ sleeps w'.
Proof.
  induction w as [|[|d] w IH]; cbn [app sleeps]; [reflexivity | exact IH |].
  now rewrite IH.
Qed.

Lemma calls_invoked (w : World) : calls (invoked w) = S (calls w).
Proof. unfold invoked. rewrite calls_app. cbn. lia. Qed.

Lemma calls_slept (delay : Z) (w : World) : calls (slept delay w) = calls w.
Proof. unfold slept. rewrite calls_app. cbn. lia. Qed.

Lemma backoffDelays_S delay K :
  backoffDelays delay (S K) = delay :: backoffDelays (delay * 2) K.
Proof.
  unfold backoffDelays. cbn [seq map]. f_equal.
  - cbn. lia.
  - rewrite <- seq_shift, map_map. apply map_ext. intros k.
    rewrite Nat2Z.inj_succ, Z.pow_succ_r by lia. lia.
Qed.

Lemma backoffDelays_length delay K : length (backoffDelays delay K) = K.
Proof. unfold backoffDelays. rewrite length_map. apply length_seq. Qed.

Lemma backoffDelays_0 delay : backoffDelays delay 0 = [].
Proof. reflexivity. Qed.

(** A run with [K] retries makes [K + 1] invocations and the [K] waits of
    the backoff. *)
Lemma calls_retryEvents (delay : Z) (K : nat) : calls (retryEvents delay K) = S K.
Proof.
  revert delay. induction K as [|K IH]; intros delay; [reflexivity|].
  cbn [retryEvents calls]. now rewrite IH.
Qed.

Lemma sleeps_retryEvents (delay : Z) (K : nat) :
  sleeps (retryEvents delay K) = backoffDelays delay K.
Proof.
  revert delay. induction K as [|K IH]; intros delay; [reflexivity|].
  cbn [retryEvents sleeps]. now rewrite IH, backoffDelays_S.
Qed.

Lemma calls_after_retry (w : World) (delay : Z) (K : nat) :
  calls (w ++ retryEvents delay K) = (calls w + K + 1)%nat.
Proof. rewrite calls_app, calls_retryEvents. lia. Qed.

Lemma sleeps_after_retry (w : World) (delay : Z) (K : nat) :
  sleeps (w ++ retryEvents delay K) = sleeps w ++ backoffDelays delay K.
Proof. now rewrite sleeps_app, sleeps_retryEvents. Qed.

(** The events of a wait and a further run follow those of the
    invocation before. *)
Lemma retryEvents_next (w : World) (delay : Z) (K : nat) :
  slept delay (invoked w) ++ retryEvents (delay * 2) K =
  w ++ retryEvents delay (S K).
Proof.
  unfold slept, invoked. cbn [retryEvents]. now rewrite <- !app_assoc.
Qed.

(** In a run with retries, an invocation comes first and last, and every
    wait stands between two invocations. *)
Lemma retryEvents_alternate (delay : Z) (K : nat) :
  forall before after d,
    retryEvents delay K = before ++ Timeout d :: after ->
    (exists before', before = before' ++ [Invocation]) /\
    (exists after', after = Invocation :: after').
Proof.
  revert delay. induction K as [|K IH]; intros delay before after d Heq.
  - destruct before as [|x before]; cbn in Heq; [discriminate|].
    injection Heq as _ Heq. destruct before; discriminate.
  - cbn [retryEvents] in Heq.
    destruct before as [|x [|y before]]; cbn in Heq; try discriminate.
    + injection Heq as <- _ <-. split; [now exists [] |].
      destruct K; cbn [retryEvents]; eauto.
    + injection Heq as <- <- Heq.
      destruct (IH _ _ _ _ Heq) as ((before' & ->) & Hafter).
      split; [|exact Hafter].
      now exists (Invocation :: Timeout delay :: before').
Qed.

(** ** retryRequest *)

Section RetryFacts.

Context {T : Type} (requestFn : Operation T).

Lemma retryRequest_success retries delay w v :
  requestFn (calls w) = Normal v ->
  retryRequest requestFn retries delay w = (Normal v, invoked w).
Proof. intros H. simp retryRequest. rewrite H. reflexivity. Qed.

Lemma retryRequest_again retries delay w e :
  requestFn (calls w) = Abrupt e ->
  0 < retries ->
  rateLimitSignal e = Normal true ->
  retryRequest requestFn retries delay w =
  retryRequest requestFn (retries - 1) (delay * 2) (slept delay (invoked w)).
Proof.
  intros H Hr Hs. rewrite retryRequest_equation_1, H. cbn.
  destruct (Z_lt_dec 0 retries); [|lia]. cbn. rewrite Hs. reflexivity.
Qed.

Lemma retryRequest_no_signal retries delay w e :
  requestFn (calls w) = Abrupt e ->
  rateLimitSignal e = Normal false ->
  retryRequest requestFn retries delay w = (Abrupt e, invoked w).
Proof.
  intros H Hs. rewrite retryRequest_equation_1, H. cbn.
  destruct (Z_lt_dec 0 retries); cbn; [rewrite Hs|]; reflexivity.
Qed.

Lemma retryRequest_exhausted retries delay w e :
  requestFn (calls w) = Abrupt e ->
  retries <= 0 ->
  retryRequest requestFn retries delay w = (Abrupt e, invoked w).
Proof.
  intros H Hr. rewrite retryRequest_equation_1, H. cbn.
  destruct (Z_lt_dec 0 retries); [lia|]. reflexivity.
Qed.

(** When the condition of the [catch] block throws, what it throws leaves
    [retryRequest] in place of the error of the operation. *)
Lemma retryRequest_condition_throws retries delay w e thrown :
  requestFn (calls w) = Abrupt e ->
  0 < retries ->
  rateLimitSignal e = Abrupt thrown ->
  retryRequest requestFn retries delay w = (Abrupt thrown, invoked w).
Proof.
  intros H Hr Hs. rewrite retryRequest_equation_1, H. cbn.
  destruct (Z_lt_dec 0 retries); [|lia]. cbn. rewrite Hs. reflexivity.
Qed.

End RetryFacts.

Lemma retryRequest_after_failures {T} (requestFn : Operation T) (K : nat) :
  forall (retries delay : Z) (w : World) (v : T),
    (forall i, (i < K)%nat ->
       exists e, requestFn (calls w + i)%nat = Abrupt e /\
                 rateLimitSignal e = Normal true) ->
    requestFn (calls w + K)%nat = Normal v ->
    Z.of_nat K <= retries ->
    retryRequest requestFn retries delay w =
    (Normal v, w ++ retryEvents delay K).
Proof.
  induction K as [|K IH]; intros retries delay w v Hfail Hok Hbudget.
  - rewrite Nat.add_0_r in Hok.
    now rewrite (retryRequest_success _ _ _ _ _ Hok).
  - destruct (Hfail 0%nat) as (e & He & Hsig); [lia|].
    rewrite Nat.add_0_r in He.
    rewrite (retryRequest_again _ _ _ _ _ He) by (assumption || lia).
    rewrite (IH (retries - 1) (delay * 2) (slept delay (invoked w)) v).
    + now rewrite retryEvents_next.
    + intros i Hi. rewrite calls_slept, calls_invoked.
      replace (S (calls w) + i)%nat with (calls w + S i)%nat by lia.
      apply Hfail. lia.
    + rewrite calls_slept, calls_invoked.
      replace (S (calls w) + K)%nat with (calls w + S K)%nat by lia. exact Hok.
    + lia.
Qed.

Lemma retryRequest_budget_spent {T} (requestFn : Operation T) (n : nat) :
  forall (retries delay : Z) (w : World),
    Z.to_nat retries = n ->
    (forall i, (i <= n)%nat ->
       exists e, requestFn (calls w + i)%nat = Abrupt e /\
                 rateLimitSignal e = Normal true) ->
    exists e,
      requestFn (calls w + n)%nat = Abrupt e /\
      retryRequest requestFn retries delay w =
      (Abrupt e, w ++ retryEvents delay n).
Proof.
  induction n as [|n IH]; intros retries delay w Hn Hfail.
  - destruct (Hfail 0%nat) as (e & He & _); [lia|].
    exists e. split; [exact He|]. rewrite Nat.add_0_r in He.
    now rewrite (retryRequest_exhausted _ _ _ _ _ He) by lia.
  - destruct (Hfail 0%nat) as (e0 & He0 & Hsig0); [lia|].
    rewrite Nat.add_0_r in He0.
    rewrite (retryRequest_again _ _ _ _ _ He0) by (assumption || lia).
    destruct (IH (retries - 1) (delay * 2) (slept delay (invoked w)))
      as (e & He & Hrun); [lia| |].
    + intros i Hi. rewrite calls_slept, calls_invoked.
      replace (S (calls w) + i)%nat with (calls w + S i)%nat by lia.
      apply Hfail. lia.
    + rewrite calls_slept, calls_invoked in He.
      exists e. split.
      * replace (calls w + S n)%nat with (S (calls w) + n)%nat by lia. exact He.
      * now rewrite Hrun, retryEvents_next.
Qed.

(** Whatever the operation does, a run ends after some [m <= retries]
    waits, at invocation number [m]. *)
Lemma retryRequest_shape {T} (requestFn : Operation T) (n : nat) :
  forall (retries delay : Z) (w : World),
    Z.to_nat retries = n ->
    exists m, (m <= n)%nat /\
      retryRequest requestFn retries delay w =
      (outcomeAt (requestFn (calls w + m)%nat) (Z.of_nat m <? retries),
       w ++ retryEvents delay m).
Proof.
  induction n as [|n IH]; intros retries delay w Hn.
  - exists 0%nat. split; [lia|]. rewrite Nat.add_0_r.
    replace (Z.of_nat 0 <? retries) with false
      by (symmetry; apply Z.ltb_ge; lia).
    destruct (requestFn (calls w)) as [v|e] eqn:Hop.
    + now apply retryRequest_success.
    + apply retryRequest_exhausted; [exact Hop | lia].
  - destruct (requestFn (calls w)) as [v|e] eqn:Hop.
    + exists 0%nat. split; [lia|]. rewrite Nat.add_0_r, Hop.
      now apply retryRequest_success.
    + destruct (rateLimitSignal e) as [[|]|thrown] eqn:Hsig.
      * destruct (IH (retries - 1) (delay * 2) (slept delay (invoked w)))
          as (m & Hm & Hrun); [lia|].
        exists (S m). split; [lia|].
        rewrite (retryRequest_again _ _ _ _ _ Hop) by (assumption || lia).
        rewrite Hrun, retryEvents_next, calls_slept, calls_invoked.
        replace (S (calls w) + m)%nat with (calls w + S m)%nat by lia.
        replace (Z.of_nat m <? retries - 1) with (Z.of_nat (S m) <? retries)
          by (destruct (Z.ltb_spec (Z.of_nat (S m)) retries),
                (Z.ltb_spec (Z.of_nat m) (retries - 1)); lia || reflexivity).
        reflexivity.
      * exists 0%nat. split; [lia|]. rewrite Nat.add_0_r, Hop.
        cbn [outcomeAt]. rewrite Hsig.
        destruct (Z.of_nat 0 <? retries); now apply retryRequest_no_signal.
      * exists 0%nat. split; [lia|]. rewrite Nat.add_0_r, Hop.
        cbn [outcomeAt]. rewrite Hsig.
        replace (Z.of_nat 0 <? retries) with true
          by (symmetry; apply Z.ltb_lt; lia).
        apply (retryRequest_condition_throws _ _ _ _ _ _ Hop); [lia | exact Hsig].
Qed.

(** C2.  An operation that fails with a rate-limit signal (status 429, code
    429 or "429" in the message) exactly [K] times and then succeeds, with
    [K] below the retry budget: [retryRequest] returns the value of the
    success, the operation is invoked [K + 1] times, and exactly [K] waits
    are made, of [delay * 2^0], ..., [delay * 2^(K-1)] milliseconds, in
    this order, each after the failure that caused it and before the next
    invocation. *)
Theorem retryRequest_backoff {T} (requestFn : Operation T) (K : nat)
    (retries delay : Z) (w : World) (v : T) :
  (forall i, (i < K)%nat ->
     exists e, requestFn (calls w + i)%nat = Abrupt e /\
               rateLimitSignal e = Normal true) ->
  requestFn (calls w + K)%nat = Normal v ->
  Z.of_nat K < retries ->
  retryRequest requestFn retries delay w =
    (Normal v, w ++ retryEvents delay K) /\
  calls (w ++ retryEvents delay K) = (calls w + K + 1)%nat /\
  sleeps (w ++ retryEvents delay K) =
    sleeps w ++ map (fun k => delay * 2 ^ Z.of_nat k) (seq 0 K).
Proof.
  intros Hfail Hok Hbudget. split; [|split].
  - apply (retryRequest_after_failures requestFn K); [exact Hfail | exact Hok | lia].
  - apply calls_after_retry.
  - apply sleeps_after_retry.
Qed.

(** Two rate-limited failures, then a success, under the defaults. *)
Lemma retryRequest_backoff_witness :
  retryRequest
    (scripted [Abrupt rateLimitError; Abrupt quotaMessageError] (Normal 7))
    defaultRetries defaultDelay initialWorld =
  (Normal 7, [Invocation; Timeout 2000; Invocation; Timeout 4000; Invocation]).
Proof.
  apply (retryRequest_backoff
           (scripted [Abrupt rateLimitError; Abrupt quotaMessageError] (Normal 7))
           2 defaultRetries defaultDelay initialWorld 7).
  - intros [|[|i]] Hi.
    + exists rateLimitError. split; reflexivity.
    + exists quotaMessageError. split; reflexivity.
    + lia.
  - reflexivity.
  - reflexivity.
Defined.

(** C3, as the code has it.  When the operation fails with an error on
    which the condition of the [catch] block is false, [retryRequest]
    makes no wait and throws that very error after the one invocation;
    these are the errors whose status and code are not the number 429
    and whose message is absent, a text without 429, or a list without
    the text 429.  When every invocation fails with a rate-limit signal,
    [retryRequest] spends its budget and then throws the error of the
    last invocation as it is. *)
Theorem retryRequest_propagates {T} (requestFn : Operation T)
    (retries delay : Z) (w : World) :
  (forall e,
     requestFn (calls w) = Abrupt e ->
     rateLimitSignal e = Normal false ->
     retryRequest requestFn retries delay w = (Abrupt e, w ++ [Invocation]) /\
     calls (w ++ [Invocation]) = (calls w + 1)%nat /\
     sleeps (w ++ [Invocation]) = sleeps w) /\
  (forall e,
     rateLimitSignal e = Normal false <->
     strictEqInteger 429 (optionalProp e "status") = false /\
     strictEqInteger 429 (optionalProp e "code") = false /\
     (optionalProp e "message" = VUndefined \/
      optionalProp e "message" = VNull \/
      (exists m, optionalProp e "message" = VString m /\
                 includes "429" m = false) \/
      (exists items, optionalProp e "message" = VArray items /\
                     ~ In (VString "429") items))) /\
  ((forall i, exists e,
       requestFn (calls w + i)%nat = Abrupt e /\
       rateLimitSignal e = Normal true) ->
   exists e,
     requestFn (calls w + Z.to_nat retries)%nat = Abrupt e /\
     retryRequest requestFn retries delay w =
       (Abrupt e, w ++ retryEvents delay (Z.to_nat retries)) /\
     calls (w ++ retryEvents delay (Z.to_nat retries)) =
       (calls w + Z.to_nat retries + 1)%nat /\
     sleeps (w ++ retryEvents delay (Z.to_nat retries)) =
       sleeps w ++ backoffDelays delay (Z.to_nat retries)).
Proof.
  split; [|split].
  - intros e He Hsig. split; [|split].
    + apply (retryRequest_no_signal _ _ _ _ _ He Hsig).
    + rewrite calls_app. reflexivity.
    + rewrite sleeps_app. apply app_nil_r.
  - apply rateLimitSignal_false_spec.
  - intros Hfail.
    destruct (retryRequest_budget_spent requestFn (Z.to_nat retries)
                retries delay w eq_refl) as (e & He & Hrun).
    { intros i _. apply Hfail. }
    exists e. split; [exact He|]. split; [exact Hrun|].
    split; [apply calls_after_retry | apply sleeps_after_retry].
Qed.

(** A server error is thrown at once; a lasting rate limit is thrown after
    the waits of 2, 4 and 8 seconds. *)
Lemma retryRequest_propagates_witness :
  retryRequest (T := Z) (scripted [] (Abrupt serverError))
    defaultRetries defaultDelay initialWorld =
  (Abrupt serverError, [Invocation]) /\
  retryRequest (T := Z) (scripted [] (Abrupt rateLimitError))
    defaultRetries defaultDelay initialWorld =
  (Abrupt rateLimitError,
   [Invocation; Timeout 2000; Invocation; Timeout 4000; Invocation;
    Timeout 8000; Invocation]).
Proof.
  split.
  - destruct (proj1 (retryRequest_propagates (T := Z)
                       (scripted [] (Abrupt serverError))
                       defaultRetries defaultDelay initialWorld)
                serverError eq_refl eq_refl) as (Hrun & _).
    exact Hrun.
  - destruct (proj2 (proj2 (retryRequest_propagates (T := Z)
                              (scripted [] (Abrupt rateLimitError))
                              defaultRetries defaultDelay initialWorld)))
      as (e & He & Hrun & _).
    + intros i. exists rateLimitError. split; [|reflexivity].
      unfold scripted. now destruct (calls initialWorld + i)%nat.
    + unfold scripted in He. cbn in He. injection He as <-. exact Hrun.
Defined.

(** C3, counterexample.  An error whose message is the number 503 has no
    status 429, no code 429 and no text 429 in its message; the
    operation fails with it once and for all.  With the default budget
    [retryRequest] does not throw this error: the condition of the
    [catch] block calls [includes] on the number and throws a
    [TypeError], which is what the caller receives.  With no budget left
    the condition is not evaluated, and the error itself is thrown. *)
Lemma retryRequest_replaces_error :
  strictEqInteger 429 (optionalProp numericMessageError "status") = false /\
  strictEqInteger 429 (optionalProp numericMessageError "code") = false /\
  optionalProp numericMessageError "message" = VNumber 503 0 /\
  retryRequest (T := Z) (scripted [] (Abrupt numericMessageError))
    defaultRetries defaultDelay initialWorld =
  (Abrupt includesNotCallable, [Invocation]) /\
  includesNotCallable <> numericMessageError /\
  retryRequest (T := Z) (scripted [] (Abrupt numericMessageError))
    0 defaultDelay initialWorld =
  (Abrupt numericMessageError, [Invocation]).
Proof.
  repeat split. intros H. apply (f_equal (fun v => optionalProp v "name")) in H.
  vm_compute in H. discriminate.
Qed.

(** C9.  [retryRequest] is a total function: for every retry budget and
    every behaviour of the operation it ends after some number [m] of
    waits that the budget bounds, so the operation is invoked [m + 1]
    times, at most [retries + 1] times for a budget [retries >= 0] (and
    once for a negative one). *)
Theorem retryRequest_terminates {T} (requestFn : Operation T)
    (retries delay : Z) (w : World) :
  exists (m : nat) (outcome : Completion T),
    retryRequest requestFn retries delay w =
      (outcome, w ++ retryEvents delay m) /\
    calls (w ++ retryEvents delay m) = (calls w + m + 1)%nat /\
    sleeps (w ++ retryEvents delay m) = sleeps w ++ backoffDelays delay m /\
    Z.of_nat m <= Z.max 0 retries /\
    Z.of_nat (m + 1) <= Z.max 0 retries + 1.
Proof.
  destruct (retryRequest_shape requestFn (Z.to_nat retries) retries delay w eq_refl)
    as (m & Hm & Hrun).
  exists m, (outcomeAt (requestFn (calls w + m)%nat) (Z.of_nat m <? retries)).
  split; [exact Hrun|].
  split; [apply calls_after_retry|]. split; [apply sleeps_after_retry | lia].
Qed.

(** Under the defaults a lasting rate limit costs waits of 2, 4 and 8
    seconds, 14 seconds in all, and four invocations. *)
Example default_worst_case :
  backoffDelays defaultDelay (Z.to_nat defaultRetries) = [2000; 4000; 8000] /\
  fold_right Z.add 0 (backoffDelays defaultDelay (Z.to_nat defaultRetries)) = 14000 /\
  snd (retryRequest (T := Z) (scripted [] (Abrupt rateLimitError))
         defaultRetries defaultDelay initialWorld) =
  [Invocation; Timeout 2000; Invocation; Timeout 4000; Invocation;
   Timeout 8000; Invocation].
Proof. repeat split. Qed.

(** ** The era resolver *)

Example parseInt_samples :
  parseInt "1989" = Num 1989 /\ parseInt " 2031년" = Num 2031 /\
  parseInt "-5" = Num (-5) /\ parseInt "0x7C5" = Num 1989 /\
  parseInt "1e3" = Num 1 /\ parseInt "abc" = NaN /\ parseInt "" = NaN.
Proof. repeat split. Qed.

(** From [2 ^ 53] on [parseInt] rounds, and the text of a number is its
    shortest decimal: with zeros below [10 ^ 21], with an exponent from
    there on. *)
Example large_year_samples :
  parseInt "9007199254740993" = Num 9007199254740992 /\
  parseInt "-9007199254740995" = Num (-9007199254740996) /\
  showNumber (parseInt "1152921504606846976") = "1152921504606847000" /\
  showNumber (parseInt "999999999999999999999") = "1e+21" /\
  showNumber (parseInt "123456789012345678901234567890") =
    "1.2345678901234568e+29" /\
  showNumber (toDouble (2 ^ 1024)) = "Infinity" /\
  getEraContext 2026 (timeMachineArticle (Some "9007199254740993")) =
    "9007199254740992년도 미래 시대입니다." /\
  getEraContext 2026 (timeMachineArticle (Some "1000000000000000000000")) =
    "1e+21년도 미래 시대입니다.".
Proof. vm_compute. repeat split. Qed.

(** Numbers of a payload: equal numbers are equal values, whatever their
    texts. *)
Example json_number_samples :
  jsonParse "1e2" = Normal (number 100) /\
  jsonParse "100.0" = jsonParse "100" /\
  jsonParse "429" = Normal (VNumber 429 0) /\
  jsonParse "0.5" = Normal (VNumber 1 (-1)) /\
  jsonParse "9007199254740993" = jsonParse "9007199254740992" /\
  jsonParse "-0" = Normal (VNumber 0 0) /\
  jsonParse "1e400" = Normal (VInfinity false).
Proof. vm_compute. repeat split. Qed.


Section EraFacts.

Variable currentYear : Z.

Lemma resolveTargetYear_off article :
  isTimeMachineMode article = false ->
  resolveTargetYear currentYear article = Num currentYear.
Proof. intros H. unfold resolveTargetYear. now rewrite H. Qed.

Lemma resolveTargetYear_absent article :
  truthy (targetYear article) = false ->
  resolveTargetYear currentYear article = Num currentYear.
Proof.
  intros H. unfold resolveTargetYear. now rewrite H, andb_false_r.
Qed.

Lemma resolveTargetYear_parsed article s :
  isTimeMachineMode article = true ->
  targetYear article = Some s ->
  s <> EmptyString ->
  resolveTargetYear currentYear article = parseInt s.
Proof.
  intros Hon Hs Hne. unfold resolveTargetYear. rewrite Hon, Hs.
  destruct s; [congruence | reflexivity].
Qed.

Lemma getEraContext_year article year :
  isTimeMachineMode article = true ->
  resolveTargetYear currentYear article = Num year ->
  getEraContext currentYear article =
  eraDirective (bandOfYear currentYear year) (Num year).
Proof.
  intros Hon Hy. unfold getEraContext, bandOfYear. rewrite Hon, Hy.
  unfold num_gt, num_lt.
  repeat (destruct (_ <? _); [reflexivity|]). reflexivity.
Qed.

Lemma analysisEraContext_year article year :
  isTimeMachineMode article = true ->
  resolveTargetYear currentYear article = Num year ->
  analysisEraContext currentYear article =
  eraFullDirective (bandOfYear currentYear year) (Num year).
Proof.
  intros Hon Hy. unfold analysisEraContext, bandOfYear. rewrite Hon, Hy.
  unfold num_gt, num_lt, num_ge.
  destruct (year <? 1990) eqn:H1; [reflexivity|].
  destruct (year <? 2000) eqn:H2.
  { replace (1990 <=? year) with true by lia. reflexivity. }
  rewrite andb_false_r.
  destruct (year <? 2010) eqn:H3.
  { replace (2000 <=? year) with true by lia. reflexivity. }
  rewrite andb_false_r.
  destruct (currentYear + 5 <? year); reflexivity.
Qed.

Lemma getEraContext_NaN article :
  isTimeMachineMode article = true ->
  resolveTargetYear currentYear article = NaN ->
  getEraContext currentYear article = eraReflect NaN /\
  analysisEraContext currentYear article = eraFullReflect NaN.
Proof.
  intros Hon Hy. unfold getEraContext, analysisEraContext.
  rewrite Hon, Hy. split; reflexivity.
Qed.

End EraFacts.

(** C4, as the code has it.  With the time machine off the resolver returns
    the contemporary directive.  With it on, the year is the current year
    when [targetYear] is absent or empty and [parseInt targetYear]
    otherwise; a year that is a number selects the first band that matches
    in the order [< 1990], [< 2000], [< 2010], [> currentYear + 5], else
    "reflect the era" (so 1989 is before 1990, 1990 and 1999 are the
    1990s, 2000 is the 2000s and, for a current year from 2006 on,
    [currentYear + 6] is the future and [currentYear + 4] reflects the
    era), in [getEraContext] and in [analyzeArticle] alike; a year that
    does not parse is [NaN], fails every comparison and takes the
    "reflect the era" directive with the text NaN for the year. *)
Theorem era_resolver_bands (currentYear : Z) (article : Article) :
  (isTimeMachineMode article = false ->
     getEraContext currentYear article = eraContemporary) /\
  (isTimeMachineMode article = true ->
     (truthy (targetYear article) = false ->
        resolveTargetYear currentYear article = Num currentYear) /\
     (forall s, targetYear article = Some s -> s <> EmptyString ->
        resolveTargetYear currentYear article = parseInt s) /\
     (forall year, resolveTargetYear currentYear article = Num year ->
        getEraContext currentYear article =
          eraDirective (bandOfYear currentYear year) (Num year) /\
        analysisEraContext currentYear article =
          eraFullDirective (bandOfYear currentYear year) (Num year) /\
        (year = 1989 ->
           getEraContext currentYear article = eraBefore1990 (Num 1989)) /\
        (year = 1990 ->
           getEraContext currentYear article = era1990s (Num 1990)) /\
        (year = 1999 ->
           getEraContext currentYear article = era1990s (Num 1999)) /\
        (year = 2000 ->
           getEraContext currentYear article = era2000s (Num 2000)) /\
        (2006 <= currentYear -> year = currentYear + 6 ->
           getEraContext currentYear article = eraFuture (Num (currentYear + 6))) /\
        (2006 <= currentYear -> year = currentYear + 4 ->
           getEraContext currentYear article = eraReflect (Num (currentYear + 4)))) /\
     (resolveTargetYear currentYear article = NaN ->
        getEraContext currentYear article = eraReflect NaN /\
        analysisEraContext currentYear article = eraFullReflect NaN)).
Proof.
  split.
  - intros Hoff. unfold getEraContext. now rewrite Hoff.
  - intros Hon. repeat split.
    + apply resolveTargetYear_absent.
    + intros s Hs Hne. now apply resolveTargetYear_parsed.
    + now apply getEraContext_year.
    + now apply analysisEraContext_year.
    + intros ->. now rewrite (getEraContext_year _ _ 1989).
    + intros ->. now rewrite (getEraContext_year _ _ 1990).
    + intros ->. now rewrite (getEraContext_year _ _ 1999).
    + intros ->. now rewrite (getEraContext_year _ _ 2000).
    + intros Hcy ->. rewrite (getEraContext_year _ _ (currentYear + 6)) by assumption.
      unfold bandOfYear.
      replace (currentYear + 6 <? 1990) with false by lia.
      replace (currentYear + 6 <? 2000) with false by lia.
      replace (currentYear + 6 <? 2010) with false by lia.
      replace (currentYear + 5 <? currentYear + 6) with true by lia.
      reflexivity.
    + intros Hcy ->. rewrite (getEraContext_year _ _ (currentYear + 4)) by assumption.
      unfold bandOfYear.
      replace (currentYear + 4 <? 1990) with false by lia.
      replace (currentYear + 4 <? 2000) with false by lia.
      replace (currentYear + 4 <? 2010) with false by lia.
      replace (currentYear + 5 <? currentYear + 4) with false by lia.
      reflexivity.
    + now apply getEraContext_NaN.
    + now apply getEraContext_NaN.
Qed.

(** In 2026: the year texts 1989 and 2032, and no year text. *)
Lemma era_resolver_bands_witness :
  getEraContext 2026 (timeMachineArticle (Some "1989")) =
    "1989년도입니다. 인터넷이 없으므로 신문 투고, 라디오 사연, 대자보 등의 말투(하오체, 읍니다 등)를 사용하세요." /\
  getEraContext 2026 (timeMachineArticle (Some "2032")) = "2032년도 미래 시대입니다." /\
  resolveTargetYear 2026 (timeMachineArticle None) = Num 2026 /\
  getEraContext 2026 plainArticle = "현대(2024년)의 인터넷 댓글 말투를 사용하세요.".
Proof.
  pose proof (proj2 (era_resolver_bands 2026 (timeMachineArticle (Some "1989")))
                eq_refl) as (_ & _ & H1989 & _).
  pose proof (proj2 (era_resolver_bands 2026 (timeMachineArticle (Some "2032")))
                eq_refl) as (_ & _ & H2032 & _).
  pose proof (proj2 (era_resolver_bands 2026 (timeMachineArticle None))
                eq_refl) as (Habsent & _).
  pose proof (proj1 (era_resolver_bands 2026 plainArticle) eq_refl) as Hoff.
  destruct (H1989 1989 eq_refl) as (_ & _ & Ha & _).
  destruct (H2032 2032 eq_refl) as (_ & _ & _ & _ & _ & _ & Hb & _).
  split; [|split; [|split]].
  - exact (Ha eq_refl).
  - apply Hb; [lia | reflexivity].
  - exact (Habsent eq_refl).
  - exact Hoff.
Defined.

(** C4, counterexample.  A year text that does not parse does not fall back
    to the current year: in 2026 the text abc resolves to [NaN], and the
    directive names the year NaN where an absent year gives 2026.  And with
    a clock before 2004 the year [currentYear + 6] is still in the 2000s
    band. *)
Lemma era_resolver_unparseable_year :
  resolveTargetYear 2026 (timeMachineArticle (Some "abc")) = NaN /\
  getEraContext 2026 (timeMachineArticle (Some "abc")) =
    "NaN년도의 시대상을 반영하세요." /\
  getEraContext 2026 (timeMachineArticle None) =
    "2026년도의 시대상을 반영하세요." /\
  getEraContext 2026 (timeMachineArticle (Some "abc")) <>
    getEraContext 2026 (timeMachineArticle None) /\
  getEraContext 2000 (timeMachineArticle (Some "2006")) =
    "2006년도 싸이월드/초기 인터넷 감성(이모티콘, 펌킨족 등)을 반영하세요.".
Proof. repeat split. discriminate. Qed.

(** ** Mode directives *)

Lemma mode_blocks_distinct :
  modeEmergency <> modeCrazy /\ modeEmergency <> modeFakeNews /\
  modeEmergency <> modeDefault /\ modeCrazy <> modeFakeNews /\
  modeCrazy <> modeDefault /\ modeFakeNews <> modeDefault.
Proof.
  repeat split; intros H; apply String.eqb_eq in H; vm_compute in H; discriminate.
Qed.

Lemma random_directives_distinct :
  randomEmergency <> randomCrazy /\ randomEmergency <> randomFakeNews /\
  randomEmergency <> randomDefault /\ randomCrazy <> randomFakeNews /\
  randomCrazy <> randomDefault /\ randomFakeNews <> randomDefault.
Proof.
  repeat split; intros H; apply String.eqb_eq in H; vm_compute in H; discriminate.
Qed.

(** C6.  For every combination of the three flags, the mode blocks of the
    analysis prompt are the blocks of the flags that are set, in the order
    emergency, crazy, fake news, followed by the default block exactly
    when no flag is set; the prompt holds them joined by line feeds
    between its two fixed parts. *)
Theorem analysis_modes_accumulate (currentYear : Z) (article : Article) :
  analysisModeInstructions article =
    (if isEmergencyMode article then [modeEmergency] else []) ++
    (if isCrazyMode article then [modeCrazy] else []) ++
    (if isFakeNews article then [modeFakeNews] else []) ++
    (if isEmergencyMode article || isCrazyMode article || isFakeNews article
     then [] else [modeDefault]) /\
  (In modeDefault (analysisModeInstructions article) <->
   isEmergencyMode article = false /\ isCrazyMode article = false /\
   isFakeNews article = false) /\
  contents (analysisRequest currentYear article) =
    analysisPromptHead (analysisEraContext currentYear article)
      (analysisPreviousContext article) article
    +:+ String.concat nl (analysisModeInstructions article)
    +:+ analysisPromptTail.
Proof.
  pose proof mode_blocks_distinct as (H1 & H2 & H3 & H4 & H5 & H6).
  split; [|split; [|reflexivity]].
  - unfold analysisModeInstructions.
    destruct (isEmergencyMode article), (isCrazyMode article),
      (isFakeNews article); reflexivity.
  - unfold analysisModeInstructions.
    destruct (isEmergencyMode article), (isCrazyMode article),
      (isFakeNews article); cbn; split;
      try (intros (? & ? & ?); discriminate);
      try (intros _; tauto);
      try (intros ?; repeat split; reflexivity);
      intros H; repeat (destruct H as [H|H]; try (symmetry in H; tauto)); tauto.
Qed.

(** With all three flags set the blocks are emergency, crazy, fake news. *)
Example analysis_modes_all_flags :
  analysisModeInstructions (modeArticle true true true) =
    [modeEmergency; modeCrazy; modeFakeNews] /\
  String.concat nl (analysisModeInstructions (modeArticle true true true)) =
    modeEmergency +:+ nl +:+ modeCrazy +:+ nl +:+ modeFakeNews /\
  analysisModeInstructions (modeArticle false false false) = [modeDefault].
Proof. repeat split. Qed.

(** ** Occurrences in a text with a year in it *)

Lemma allChars_app (P : ascii -> bool) (a b : string) :
  allChars P (a +:+ b) = allChars P a && allChars P b.
Proof.
  induction a as [|c a IH]; [reflexivity|].
  change (String c a +:+ b) with (String c (a +:+ b)).
  cbn [allChars]. now rewrite IH, andb_assoc.
Qed.

Lemma string_of_uint_chars (d : Decimal.uint) :
  allChars isYearChar (NilEmpty.string_of_uint d) = true.
Proof. induction d; cbn; auto. Qed.

(** The digits of a number are digits, at least one. *)
Lemma digits_chars (n : Z) :
  allChars isYearChar (digits n) = true /\ headChar isYearHead (digits n) = true.
Proof.
  unfold digits, NilZero.string_of_uint.
  destruct (N.to_uint (Z.to_N n)) as [|d|d|d|d|d|d|d|d|d|d];
    (split; [try reflexivity; apply (string_of_uint_chars (_ d)) | reflexivity]).
Qed.

Lemma showPositive_chars (x : Z) :
  allChars isYearChar (showPositive x) = true /\
  headChar isYearHead (showPositive x) = true.
Proof.
  unfold showPositive.
  destruct (shortestDecimal x (String.length (digits x))) as [s p].
  destruct (s * 10 ^ Z.of_nat p <? 10 ^ 21); [apply digits_chars|].
  destruct (digits_chars s) as (Hchars & Hhead).
  destruct (digits s) as [|first more]; [discriminate|].
  cbn [allChars headChar] in Hchars, Hhead |- *.
  apply andb_prop in Hchars as [Hfirst Hmore].
  split; [|exact Hhead].
  rewrite Hfirst, !allChars_app, (proj1 (digits_chars _)), andb_true_r.
  destruct more as [|c more]; [reflexivity|].
  now rewrite allChars_app, Hmore.
Qed.

(** The text of a number is made of the characters of a year and starts
    with one that starts a year. *)
Lemma showNumber_chars (n : JsNumber) :
  allChars isYearChar (showNumber n) = true /\
  headChar isYearHead (showNumber n) = true.
Proof.
  destruct n as [[|x|x]|[|]|]; cbn [showNumber];
    try (split; reflexivity).
  - apply showPositive_chars.
  - destruct (showPositive_chars (Z.pos x)) as (Hchars & _).
    change ("-" +:+ showPositive (Z.pos x))
      with (String "-" (showPositive (Z.pos x))).
    cbn [allChars headChar]. now rewrite Hchars.
Qed.

Lemma append_cons (x : ascii) (a b : string) :
  String x a +:+ b = String x (a +:+ b).
Proof. reflexivity. Qed.

Lemma append_assoc (a b c : string) : (a +:+ b) +:+ c = a +:+ (b +:+ c).
Proof.
  induction a as [|x a IH]; [reflexivity|].
  now rewrite !append_cons, IH.
Qed.

Section Occurrences.

(** A text [X] of characters in [P] that starts with a character in [Q],
    and a text [d] that starts with no character of [P] and has no
    character of [Q]: [d] does not occur in [X], and does not start
    before [X] and go on into it. *)
Variable P Q : ascii -> bool.
Variable X : string.
Hypothesis X_chars : allChars P X = true.
Hypothesis X_head : headChar Q X = true.

Lemma prefix_blocked (d S B : string) :
  allChars (fun c => negb (Q c)) d = true ->
  String.prefix d (S +:+ X +:+ B) = String.prefix d S.
Proof.
  destruct X as [|c X'] eqn:HX; [discriminate|].
  cbn in X_head.
  revert S. induction d as [|d0 d IH]; intros S Hd.
  - destruct S; reflexivity.
  - cbn in Hd. apply andb_prop in Hd as [Hd0 Hd].
    destruct S as [|s S].
    + change (EmptyString +:+ String c X' +:+ B) with (String c (X' +:+ B)).
      cbn [String.prefix].
      destruct (Ascii.ascii_dec d0 c) as [->|Hne]; [|reflexivity].
      rewrite X_head in Hd0. discriminate.
    + change (String s S +:+ String c X' +:+ B)
        with (String s (S +:+ String c X' +:+ B)).
      cbn [String.prefix].
      destruct (Ascii.ascii_dec d0 s); [now apply IH | reflexivity].
Qed.

Lemma includes_blocked (d A B : string) :
  headChar (fun c => negb (P c)) d = true ->
  allChars (fun c => negb (Q c)) d = true ->
  includes d (A +:+ X +:+ B) = includes d A || includes d B.
Proof.
  intros Hhead Hd.
  destruct d as [|d0 d]; [discriminate|]. cbn [headChar] in Hhead.
  assert (Hskip : forall Y, allChars P Y = true ->
            includes (String d0 d) (Y +:+ B) = includes (String d0 d) B).
  { induction Y as [|c Y IH]; intros HY; [reflexivity|].
    cbn in HY. apply andb_prop in HY as [Hc HY].
    change (String c Y +:+ B) with (String c (Y +:+ B)).
    cbn [includes]. rewrite (IH HY). cbn [String.prefix].
    destruct (Ascii.ascii_dec d0 c) as [->|]; [|reflexivity].
    rewrite Hc in Hhead. discriminate. }
  induction A as [|a A IH].
  - change (EmptyString +:+ X +:+ B) with (X +:+ B).
    rewrite (Hskip X X_chars). reflexivity.
  - change (String a A +:+ X +:+ B) with (String a (A +:+ X +:+ B)).
    cbn [includes]. rewrite IH.
    change (String a (A +:+ X +:+ B)) with (String a A +:+ X +:+ B).
    rewrite (prefix_blocked (String d0 d) (String a A) B Hd).
    now rewrite orb_assoc.
Qed.

End Occurrences.

(** No mode directive of the random article starts with a character of a
    year or has a character that starts a year. *)
Lemma random_directives_clear (d : string) :
  In d [randomEmergency; randomCrazy; randomFakeNews; randomDefault] ->
  headChar (fun c => negb (isYearChar c)) d = true /\
  allChars (fun c => negb (isYearHead c)) d = true.
Proof.
  intros [<- | [<- | [<- | [<- | []]]]]; split; vm_compute; reflexivity.
Qed.

(** In a prompt with a year in its era directive, a mode directive occurs
    before the year or after it. *)
Lemma directivesIn_year (n : JsNumber) (A B : string) :
  directivesIn (A +:+ (showNumber n +:+ B)) =
  List.filter (fun d => includes d A || includes d B)
    [randomEmergency; randomCrazy; randomFakeNews; randomDefault].
Proof.
  destruct (showNumber_chars n) as (Hchars & Hhead).
  unfold directivesIn. apply filter_ext_in. intros d Hd.
  destruct (random_directives_clear d Hd) as (Hd1 & Hd2).
  now apply (includes_blocked isYearChar isYearHead).
Qed.

(** Every random-article prompt holds one mode directive, its own. *)
Lemma random_prompt_one_directive (currentYear : Z) (currentArticle : Article) :
  directivesIn (contents (randomArticleRequest currentYear currentArticle)) =
  [randomModeInstruction currentArticle].
Proof.
  unfold randomArticleRequest, contents, randomArticlePrompt, getEraContext,
    randomModeInstruction.
  destruct (isTimeMachineMode currentArticle).
  - generalize (resolveTargetYear currentYear currentArticle). intros n.
    repeat match goal with
           | |- context [if num_lt ?a ?b then _ else _] => destruct (num_lt a b)
           | |- context [if num_gt ?a ?b then _ else _] => destruct (num_gt a b)
           end;
      unfold eraBefore1990, era1990s, era2000s, eraFuture, eraReflect;
      rewrite append_assoc, directivesIn_year;
      destruct (isEmergencyMode currentArticle), (isCrazyMode currentArticle),
        (isFakeNews currentArticle); vm_compute; reflexivity.
  - destruct (isEmergencyMode currentArticle), (isCrazyMode currentArticle),
      (isFakeNews currentArticle); vm_compute; reflexivity.
Qed.

(** C7.  For every combination of the three flags, the random-article
    prompt has one mode directive, in the one place of the template for
    it: the emergency one when [isEmergencyMode] is set, whatever the
    other flags are; else the crazy one when [isCrazyMode] is set; else
    the fake-news one when [isFakeNews] is set; else the default.  Of the
    four directives it is the only one that occurs in the prompt. *)
Theorem random_mode_priority (currentYear : Z) (currentArticle : Article) :
  contents (randomArticleRequest currentYear currentArticle) =
    randomArticlePromptIntro +:+ getEraContext currentYear currentArticle
    +:+ randomArticlePromptMid +:+ randomModeInstruction currentArticle
    +:+ randomArticlePromptTail /\
  randomModeInstruction currentArticle =
    match isEmergencyMode currentArticle, isCrazyMode currentArticle,
          isFakeNews currentArticle with
    | true, _, _ => randomEmergency
    | false, true, _ => randomCrazy
    | false, false, true => randomFakeNews
    | false, false, false => randomDefault
    end /\
  (isEmergencyMode currentArticle = true ->
     randomModeInstruction currentArticle = randomEmergency /\
     randomModeInstruction currentArticle <> randomCrazy /\
     randomModeInstruction currentArticle <> randomFakeNews /\
     randomModeInstruction currentArticle <> randomDefault) /\
  directivesIn (contents (randomArticleRequest currentYear currentArticle)) =
    [randomModeInstruction currentArticle].
Proof.
  pose proof random_directives_distinct as (H1 & H2 & H3 & _).
  split; [reflexivity | split; [|split]].
  - unfold randomModeInstruction.
    destruct (isEmergencyMode currentArticle), (isCrazyMode currentArticle),
      (isFakeNews currentArticle); reflexivity.
  - intros He. unfold randomModeInstruction. rewrite He. tauto.
  - apply random_prompt_one_directive.
Qed.

(** Emergency with the other two flags set as well. *)
Lemma random_mode_priority_witness :
  randomModeInstruction (modeArticle true true true) =
    "국가 비상사태, 전쟁, 재난 등 매우 위급한 상황에 대한 속보를 작성하세요.".
Proof.
  exact (proj1 (proj1 (proj2 (proj2
                  (random_mode_priority 2026 (modeArticle true true true))))
                  eq_refl)).
Defined.

(** ** The entry points *)

Section ServiceFacts.

Variable currentYear : Z.
Variable ArticleCategory_values : list string.
Variable ArticleCategory_SOCIETY : string.
Variable JSON_parse : string -> Completion JsValue.
Variable generateContent :
  GenerateContentParameters -> Operation GenerateContentResponse.

Abbreviation randomArticle :=
  (generateRandomArticle currentYear ArticleCategory_values
     ArticleCategory_SOCIETY JSON_parse generateContent).
Abbreviation analysis := (analyzeArticle currentYear JSON_parse generateContent).
Abbreviation replies :=
  (generateReplyReaction currentYear JSON_parse generateContent).
Abbreviation request := (requestGeneration generateContent).
Abbreviation fallbackArticle := (randomArticleFallback ArticleCategory_SOCIETY).

(** The three flows after the request. *)

Lemma generateRandomArticle_run article w outcome w' :
  request (randomArticleRequest currentYear article) w = (outcome, w') ->
  randomArticle article w =
  match outcome with
  | Normal response =>
      tryCatch
        (readRandomArticle ArticleCategory_values ArticleCategory_SOCIETY
           JSON_parse response)
        (fun _ => ret fallbackArticle) w'
  | Abrupt _ => (Normal fallbackArticle, w')
  end.
Proof.
  unfold requestGeneration, generateRandomArticle, tryCatch, bind.
  intros ->. now destruct outcome.
Qed.

Lemma analyzeArticle_run article w outcome w' :
  request (analysisRequest currentYear article) w = (outcome, w') ->
  analysis article w =
  match outcome with
  | Normal response =>
      tryCatch (readSimulationResult JSON_parse response)
        (fun _ => ret analysisFallback) w'
  | Abrupt _ => (Normal analysisFallback, w')
  end.
Proof.
  unfold requestGeneration, analyzeArticle, tryCatch, bind.
  intros ->. now destruct outcome.
Qed.

Lemma generateReplyReaction_run article comment reply w outcome w' :
  request (replyRequest currentYear article comment reply) w = (outcome, w') ->
  replies article comment reply w =
  match outcome with
  | Normal response =>
      tryCatch (readReplies JSON_parse response) (fun _ => ret (VArray [])) w'
  | Abrupt _ => (Normal (VArray []), w')
  end.
Proof.
  unfold requestGeneration, generateReplyReaction, tryCatch, bind.
  intros ->. now destruct outcome.
Qed.

(** A response without text, or with an empty one. *)
Lemma falsy_text (response : GenerateContentResponse) :
  truthy (text response) = false ->
  text response = None \/ text response = Some EmptyString.
Proof. destruct (text response) as [[|c s]|]; cbn; auto; discriminate. Qed.

Lemma readRandomArticle_failure response w :
  truthy (text response) = false \/
  (exists t e, text response = Some t /\ JSON_parse t = Abrupt e) \/
  (exists t, text response = Some t /\
             (JSON_parse t = Normal VNull \/ JSON_parse t = Normal VUndefined)) ->
  tryCatch
    (readRandomArticle ArticleCategory_values ArticleCategory_SOCIETY
       JSON_parse response)
    (fun _ => ret fallbackArticle) w = (Normal fallbackArticle, w).
Proof.
  unfold tryCatch, readRandomArticle, bind, lift, throw, ret.
  intros [H | [(t & e & Ht & Hp) | (t & Ht & Hp)]].
  - destruct (falsy_text _ H) as [-> | ->]; reflexivity.
  - rewrite Ht. destruct t; [reflexivity|]. now rewrite Hp.
  - rewrite Ht. destruct t; [reflexivity|]. now destruct Hp as [-> | ->].
Qed.

Lemma readRandomArticle_parsed response w t data :
  text response = Some t -> t <> EmptyString ->
  JSON_parse t = Normal data ->
  data <> VNull -> data <> VUndefined ->
  tryCatch
    (readRandomArticle ArticleCategory_values ArticleCategory_SOCIETY
       JSON_parse response)
    (fun _ => ret fallbackArticle) w =
  (Normal
     {[ "title" := match data with VObject o => field o "title" | _ => VUndefined end;
        "content" := match data with VObject o => field o "content" | _ => VUndefined end;
        "category" :=
          match data with
          | VObject o =>
              if arrayIncludes ArticleCategory_values (field o "category")
              then field o "category"
              else VString ArticleCategory_SOCIETY
          | _ => VString ArticleCategory_SOCIETY
          end ]}, w).
Proof.
  unfold tryCatch, readRandomArticle, bind, lift, throw, ret.
  intros Ht Hne Hp Hnull Hundef. rewrite Ht.
  destruct t; [congruence|]. rewrite Hp.
  destruct data; try congruence; reflexivity.
Qed.

Lemma readSimulationResult_failure response w :
  truthy (text response) = false \/
  (exists t e, text response = Some t /\ JSON_parse t = Abrupt e) ->
  tryCatch (readSimulationResult JSON_parse response)
    (fun _ => ret analysisFallback) w = (Normal analysisFallback, w).
Proof.
  unfold tryCatch, readSimulationResult, lift, throw, ret.
  intros [H | (t & e & Ht & Hp)].
  - destruct (falsy_text _ H) as [-> | ->]; reflexivity.
  - rewrite Ht. destruct t; [reflexivity|]. now rewrite Hp.
Qed.

Lemma readReplies_failure response w :
  truthy (text response) = false \/
  (exists t e, text response = Some t /\ JSON_parse t = Abrupt e) ->
  tryCatch (readReplies JSON_parse response) (fun _ => ret (VArray [])) w =
  (Normal (VArray []), w).
Proof.
  unfold tryCatch, readReplies, lift, throw, ret.
  intros [H | (t & e & Ht & Hp)].
  - destruct (falsy_text _ H) as [-> | ->]; reflexivity.
  - rewrite Ht. destruct t; [reflexivity|]. now rewrite Hp.
Qed.

Lemma read_parsed response w t data :
  text response = Some t -> t <> EmptyString ->
  JSON_parse t = Normal data ->
  tryCatch (readSimulationResult JSON_parse response)
    (fun _ => ret analysisFallback) w = (Normal data, w) /\
  tryCatch (readReplies JSON_parse response) (fun _ => ret (VArray [])) w =
  (Normal data, w).
Proof.
  unfold tryCatch, readSimulationResult, readReplies, lift, throw, ret.
  intros Ht Hne Hp. rewrite Ht. destruct t; [congruence|]. now rewrite Hp.
Qed.

(** No flow throws. *)

Lemma tryCatch_returns {A} (body : Async A) (a : A) w :
  exists v w', tryCatch body (fun _ => ret a) w = (Normal v, w').
Proof.
  unfold tryCatch, ret. destruct (body w) as [[v|e] w']; eauto.
Qed.

Abbreviation Fails := (GenerationFailure JSON_parse generateContent).
Abbreviation Yields := (GenerationYields JSON_parse generateContent).

(** A failed generation gives the fallback of the flow. *)

Lemma randomArticle_failure article w :
  Fails (randomArticleRequest currentYear article) w ->
  exists w', randomArticle article w = (Normal fallbackArticle, w').
Proof.
  intros [e w' Hrun | response w' Hrun Hempty | response w' t e Hrun Ht Hne Hp];
    exists w'; rewrite (generateRandomArticle_run _ _ _ _ Hrun);
    [reflexivity | |]; apply readRandomArticle_failure; eauto 6.
Qed.

Lemma analysis_failure article w :
  Fails (analysisRequest currentYear article) w ->
  exists w', analysis article w = (Normal analysisFallback, w').
Proof.
  intros [e w' Hrun | response w' Hrun Hempty | response w' t e Hrun Ht Hne Hp];
    exists w'; rewrite (analyzeArticle_run _ _ _ _ Hrun);
    [reflexivity | |]; apply readSimulationResult_failure; eauto 6.
Qed.

Lemma replies_failure article comment reply w :
  Fails (replyRequest currentYear article comment reply) w ->
  exists w', replies article comment reply w = (Normal (VArray []), w').
Proof.
  intros [e w' Hrun | response w' Hrun Hempty | response w' t e Hrun Ht Hne Hp];
    exists w'; rewrite (generateReplyReaction_run _ _ _ _ _ _ Hrun);
    [reflexivity | |]; apply readReplies_failure; eauto 6.
Qed.

(** A generation that yields a value gives that value, unchecked. *)

Lemma analysis_yields article w data :
  Yields (analysisRequest currentYear article) w data ->
  exists w', analysis article w = (Normal data, w').
Proof.
  intros (response & w' & t & Hrun & Ht & Hne & Hp). exists w'.
  rewrite (analyzeArticle_run _ _ _ _ Hrun).
  now apply (read_parsed response w' t data).
Qed.

Lemma replies_yields article comment reply w data :
  Yields (replyRequest currentYear article comment reply) w data ->
  exists w', replies article comment reply w = (Normal data, w').
Proof.
  intros (response & w' & t & Hrun & Ht & Hne & Hp). exists w'.
  rewrite (generateReplyReaction_run _ _ _ _ _ _ Hrun).
  now apply (read_parsed response w' t data).
Qed.

Lemma randomArticle_yields article w data :
  Yields (randomArticleRequest currentYear article) w data ->
  data <> VNull -> data <> VUndefined ->
  exists w',
    randomArticle article w =
    (Normal
       {[ "title" := match data with VObject o => field o "title" | _ => VUndefined end;
          "content" := match data with VObject o => field o "content" | _ => VUndefined end;
          "category" :=
            match data with
            | VObject o =>
                if arrayIncludes ArticleCategory_values (field o "category")
                then field o "category"
                else VString ArticleCategory_SOCIETY
            | _ => VString ArticleCategory_SOCIETY
            end ]}, w').
Proof.
  intros (response & w' & t & Hrun & Ht & Hne & Hp) Hnull Hundef. exists w'.
  rewrite (generateRandomArticle_run _ _ _ _ Hrun).
  now apply (readRandomArticle_parsed response w' t data).
Qed.

Lemma randomArticle_yields_nullish article w data :
  Yields (randomArticleRequest currentYear article) w data ->
  data = VNull \/ data = VUndefined ->
  exists w', randomArticle article w = (Normal fallbackArticle, w').
Proof.
  intros (response & w' & t & Hrun & Ht & Hne & Hp) Hdata. exists w'.
  rewrite (generateRandomArticle_run _ _ _ _ Hrun).
  apply readRandomArticle_failure. right. right. exists t.
  split; [exact Ht|]. rewrite Hp. destruct Hdata as [-> | ->]; auto.
Qed.

Lemma nullish_or_not (data : JsValue) :
  (data = VNull \/ data = VUndefined) \/ (data <> VNull /\ data <> VUndefined).
Proof. destruct data; auto; right; split; discriminate. Qed.

Lemma article_object_dom (a b c : JsValue) :
  dom ({[ "title" := a; "content" := b; "category" := c ]} : gmap string JsValue)
  = ({[ "title"; "content"; "category" ]} : gset string).
Proof. rewrite !dom_insert_L, dom_singleton_L. set_solver. Qed.

Lemma article_object_lookup (a b c : JsValue) :
  let result : gmap string JsValue :=
    {[ "title" := a; "content" := b; "category" := c ]} in
  result !! "title" = Some a /\ result !! "content" = Some b /\
  result !! "category" = Some c.
Proof. repeat split. Qed.

(** C1.  Whatever the generation capability does, each of the three entry
    points returns a value and does not throw.  When the generation fails
    (the request throws, at once or after the retries; the response has
    no text or an empty one; the text does not parse),
    [generateRandomArticle] returns the article with the title and content
    of the failure notice and the category [SOCIETY], [analyzeArticle]
    returns the result with the scores 0, the fixed notices in
    [editorFeedback] and [impactSummary], empty [comments] and
    [otherMediaCoverage], and no [stockAnalysis] nor [extraIndices], and
    [generateReplyReaction] returns the empty array. *)
Theorem entry_points_fall_back (article : Article) (comment : Comment)
    (reply : string) (w : World) :
  (exists v w', randomArticle article w = (Normal v, w')) /\
  (exists v w', analysis article w = (Normal v, w')) /\
  (exists v w', replies article comment reply w = (Normal v, w')) /\
  (Fails (randomArticleRequest currentYear article) w ->
   fst (randomArticle article w) =
   Normal {[ "title" := VString "기사 생성 실패";
             "content" := VString "AI 연결 상태를 확인해주세요.";
             "category" := VString ArticleCategory_SOCIETY ]}) /\
  (Fails (analysisRequest currentYear article) w ->
   exists fields,
     fst (analysis article w) = Normal (VObject fields) /\
     fields !! "viralityScore" = Some (VNumber 0 0) /\
     fields !! "reliabilityScore" = Some (VNumber 0 0) /\
     fields !! "controversyScore" = Some (VNumber 0 0) /\
     fields !! "viewCountEstimate" = Some (VNumber 0 0) /\
     fields !! "shareCount" = Some (VNumber 0 0) /\
     fields !! "publicSentiment" = Some (VString "Error") /\
     fields !! "editorFeedback" =
       Some (VString "시스템 오류: AI 응답 지연. 잠시 후 다시 시도해주세요.") /\
     fields !! "impactSummary" = Some (VString "데이터 전송 실패.") /\
     fields !! "comments" = Some (VArray []) /\
     fields !! "otherMediaCoverage" = Some (VArray []) /\
     fields !! "stockAnalysis" = None /\
     fields !! "extraIndices" = None) /\
  (Fails (replyRequest currentYear article comment reply) w ->
   fst (replies article comment reply w) = Normal (VArray [])).
Proof.
  split; [apply tryCatch_returns|].
  split; [apply tryCatch_returns|].
  split; [apply tryCatch_returns|].
  split; [|split].
  - intros H. destruct (randomArticle_failure _ _ H) as (w' & ->). reflexivity.
  - intros H. destruct (analysis_failure _ _ H) as (w' & ->).
    eexists. split; [reflexivity|]. repeat split.
  - intros H. destruct (replies_failure _ _ _ _ H) as (w' & ->). reflexivity.
Qed.

(** C8.  When the generation yields a value whose [category] is a string:
    if the string is one of the values of [ArticleCategory], it is the
    category of the result; if not, the category of the result is
    [SOCIETY]; in both cases a result is returned. *)
Theorem random_article_category (article : Article) (w : World)
    (data : JsValue) (cat : string) :
  Yields (randomArticleRequest currentYear article) w data ->
  getProp data "category" = Normal (VString cat) ->
  exists result w',
    randomArticle article w = (Normal result, w') /\
    (cat ∈ ArticleCategory_values ->
     result !! "category" = Some (VString cat)) /\
    (cat ∉ ArticleCategory_values ->
     result !! "category" = Some (VString ArticleCategory_SOCIETY)).
Proof.
  intros Hy Hcat.
  destruct data; try discriminate. cbn in Hcat. injection Hcat as Hcat.
  destruct (randomArticle_yields _ _ _ Hy) as (w' & Hrun); [discriminate..|].
  eexists _, w'. split; [exact Hrun|]. rewrite Hcat. cbn [arrayIncludes].
  split; intros Hin.
  - rewrite bool_decide_eq_true_2 by assumption. reflexivity.
  - rewrite bool_decide_eq_false_2 by assumption. reflexivity.
Qed.

(** C10, as the code has it.  When the generation yields a value, the
    result has exactly the keys [title], [content] and [category].  For a
    value other than [null] its [title] and [content] are the values of
    these properties of the parsed value, as they are ([undefined] when
    the value has no such property), and no other property of the value
    is kept; for [null] the result is the fallback article. *)
Theorem random_article_fields (article : Article) (w : World) (data : JsValue) :
  Yields (randomArticleRequest currentYear article) w data ->
  exists result w',
    randomArticle article w = (Normal result, w') /\
    dom result = {[ "title"; "content"; "category" ]} /\
    (forall t c,
       getProp data "title" = Normal t ->
       getProp data "content" = Normal c ->
       result !! "title" = Some t /\ result !! "content" = Some c) /\
    (data = VNull -> result = fallbackArticle).
Proof.
  intros Hy. destruct (nullish_or_not data) as [Hnullish | (Hnull & Hundef)].
  - destruct (randomArticle_yields_nullish _ _ _ Hy Hnullish) as (w' & Hrun).
    eexists _, w'. split; [exact Hrun|].
    split; [apply article_object_dom|]. split; [|reflexivity].
    intros t c Ht. destruct Hnullish as [-> | ->]; discriminate.
  - destruct (randomArticle_yields _ _ _ Hy Hnull Hundef) as (w' & Hrun).
    eexists _, w'. split; [exact Hrun|].
    split; [apply article_object_dom|]. split; [|congruence].
    intros t c Ht Hc.
    destruct data; try congruence; cbn in Ht, Hc;
      injection Ht as <-; injection Hc as <-; split; reflexivity.
Qed.

(** C5, as the code has it.  A value that the generation yields is not
    checked against the schema of the request: [analyzeArticle] and
    [generateReplyReaction] return it as it is, and [generateRandomArticle]
    builds its result from an object whatever fields it has, with
    [undefined] for a missing [title] or [content] and [SOCIETY] for a
    missing [category].  Only a text that does not parse gives the
    fallback. *)
Theorem payload_not_validated (article : Article) (comment : Comment)
    (reply : string) (w : World) (data : JsValue) :
  (Yields (analysisRequest currentYear article) w data ->
   fst (analysis article w) = Normal data) /\
  (Yields (replyRequest currentYear article comment reply) w data ->
   fst (replies article comment reply w) = Normal data) /\
  (Yields (randomArticleRequest currentYear article) w data ->
   forall fields, data = VObject fields ->
     fst (randomArticle article w) =
     Normal {[ "title" := field fields "title";
               "content" := field fields "content";
               "category" :=
                 if arrayIncludes ArticleCategory_values (field fields "category")
                 then field fields "category"
                 else VString ArticleCategory_SOCIETY ]} /\
     (fields !! "title" = None ->
      fields !! "content" = None ->
      fields !! "category" = None ->
      fst (randomArticle article w) =
      Normal {[ "title" := VUndefined; "content" := VUndefined;
                "category" := VString ArticleCategory_SOCIETY ]})) /\
  (forall response w' t e,
     text response = Some t -> t <> EmptyString ->
     JSON_parse t = Abrupt e ->
     (request (analysisRequest currentYear article) w = (Normal response, w') ->
      fst (analysis article w) = Normal analysisFallback) /\
     (request (replyRequest currentYear article comment reply) w =
        (Normal response, w') ->
      fst (replies article comment reply w) = Normal (VArray [])) /\
     (request (randomArticleRequest currentYear article) w =
        (Normal response, w') ->
      fst (randomArticle article w) = Normal fallbackArticle)).
Proof.
  split; [|split; [|split]].
  - intros Hy. destruct (analysis_yields _ _ _ Hy) as (w' & ->). reflexivity.
  - intros Hy. destruct (replies_yields _ _ _ _ _ Hy) as (w' & ->). reflexivity.
  - intros Hy fields ->.
    destruct (randomArticle_yields _ _ _ Hy) as (w' & ->); [discriminate..|].
    split; [reflexivity|].
    intros Ht Hc Hcat. unfold field. rewrite Ht, Hc, Hcat. reflexivity.
  - intros response w' t e Ht Hne Hp. split; [|split]; intros Hrun.
    + destruct (analysis_failure article w) as (w'' & ->); [|reflexivity].
      eapply MalformedPayload; eassumption.
    + destruct (replies_failure article comment reply w) as (w'' & ->);
        [|reflexivity].
      eapply MalformedPayload; eassumption.
    + destruct (randomArticle_failure article w) as (w'' & ->); [|reflexivity].
      eapply MalformedPayload; eassumption.
Qed.

End ServiceFacts.

(** ** The entry points on sample generations *)

Lemma answering_yields payload data (request : GenerateContentParameters) :
  payload <> EmptyString ->
  jsonParse payload = Normal data ->
  GenerationYields jsonParse (answering (Some payload)) request initialWorld data.
Proof.
  intros Hne Hp.
  exists {| text := Some payload |}, [Invocation], payload.
  repeat split; assumption.
Qed.

(** A request that fails with a server error, a text that is no JSON, and
    a response without text. *)
Lemma entry_points_fall_back_witness :
  fst (generateRandomArticle 2026 promptCategories promptSociety jsonParse
         (failing serverError) plainArticle initialWorld) =
  Normal {[ "title" := VString "기사 생성 실패";
            "content" := VString "AI 연결 상태를 확인해주세요.";
            "category" := VString "사회" ]} /\
  fst (generateReplyReaction 2026 jsonParse (answering None)
         plainArticle plainComment "답글" initialWorld) = Normal (VArray []) /\
  fst (generateReplyReaction 2026 jsonParse (answering (Some "<html>"))
         plainArticle plainComment "답글" initialWorld) = Normal (VArray []).
Proof.
  split; [|split].
  - apply (entry_points_fall_back 2026 promptCategories promptSociety jsonParse
             (failing serverError) plainArticle plainComment "답글" initialWorld).
    apply (TransportFailure _ _ _ _ serverError [Invocation]).
    reflexivity.
  - apply (entry_points_fall_back 2026 promptCategories promptSociety jsonParse
             (answering None) plainArticle plainComment "답글" initialWorld).
    apply (EmptyPayload _ _ _ _ {| text := None |} [Invocation]);
      reflexivity.
  - apply (entry_points_fall_back 2026 promptCategories promptSociety jsonParse
             (answering (Some "<html>")) plainArticle plainComment "답글"
             initialWorld).
    apply (MalformedPayload _ _ _ _ {| text := Some "<html>" |}
             [Invocation] "<html>"
             (newSyntaxError "Unexpected token in JSON"));
      [reflexivity | reflexivity | discriminate | reflexivity].
Defined.

(** A known category passes; an unknown one becomes the default. *)
Lemma random_article_category_witness :
  (exists result w',
     generateRandomArticle 2026 promptCategories promptSociety jsonParse
       (answering (Some payloadEconomy)) plainArticle initialWorld =
     (Normal result, w') /\
     result !! "category" = Some (VString "경제")) /\
  (exists result w',
     generateRandomArticle 2026 promptCategories promptSociety jsonParse
       (answering (Some payloadWeather)) plainArticle initialWorld =
     (Normal result, w') /\
     result !! "category" = Some (VString "사회")).
Proof.
  split.
  - destruct (random_article_category 2026 promptCategories promptSociety
                jsonParse (answering (Some payloadEconomy)) plainArticle
                initialWorld dataEconomy "경제")
      as (result & w' & Hrun & Hin & _).
    + apply answering_yields; [discriminate | reflexivity].
    + reflexivity.
    + exists result, w'. split; [exact Hrun|]. apply Hin.
      unfold promptCategories. set_solver.
  - destruct (random_article_category 2026 promptCategories promptSociety
                jsonParse (answering (Some payloadWeather)) plainArticle
                initialWorld dataWeather "날씨")
      as (result & w' & Hrun & _ & Hout).
    + apply answering_yields; [discriminate | reflexivity].
    + reflexivity.
    + exists result, w'. split; [exact Hrun|]. apply Hout.
      unfold promptCategories. intros Hin.
      apply (bool_decide_pack _) in Hin. vm_compute in Hin. exact Hin.
Defined.

(** The result for a payload with one field too many: three keys, with the
    title and content of the payload. *)
Lemma random_article_fields_witness :
  exists result w',
    generateRandomArticle 2026 promptCategories promptSociety jsonParse
      (answering (Some payloadEconomy)) plainArticle initialWorld =
    (Normal result, w') /\
    dom result = {[ "title"; "content"; "category" ]} /\
    result !! "title" = Some (VString "금리 동결") /\
    result !! "content" = Some (VString "본문입니다.") /\
    result !! "mood" = None.
Proof.
  destruct (random_article_fields 2026 promptCategories promptSociety jsonParse
              (answering (Some payloadEconomy)) plainArticle initialWorld
              dataEconomy)
    as (result & w' & Hrun & Hdom & Hcopy & _).
  - apply answering_yields; [discriminate | reflexivity].
  - exists result, w'. split; [exact Hrun|]. split; [exact Hdom|].
    destruct (Hcopy (VString "금리 동결") (VString "본문입니다.") eq_refl eq_refl)
      as (Ht & Hc).
    split; [exact Ht|]. split; [exact Hc|].
    apply not_elem_of_dom. rewrite Hdom. intros Hin.
    apply (bool_decide_pack _) in Hin. vm_compute in Hin. exact Hin.
Defined.

(** C10, counterexample.  The text null parses, to [null]; the flow then
    returns the fallback article, whose title is the failure notice and
    not a value of the payload. *)
Lemma random_article_null_payload :
  jsonParse "null" = Normal VNull /\
  fst (generateRandomArticle 2026 promptCategories promptSociety jsonParse
         (answering (Some "null")) plainArticle initialWorld) =
  Normal (randomArticleFallback promptSociety) /\
  randomArticleFallback promptSociety !! "title" =
  Some (VString "기사 생성 실패") /\
  getProp VNull "title" <> Normal (VString "기사 생성 실패").
Proof. repeat split. discriminate. Qed.

(** A payload without the required fields is returned by the analysis as
    it is; a payload with a title only gives an article with that title. *)
Lemma payload_not_validated_witness :
  fst (analyzeArticle 2026 jsonParse (answering (Some "{}"))
         plainArticle initialWorld) = Normal (VObject ∅) /\
  fst (generateRandomArticle 2026 promptCategories promptSociety jsonParse
         (answering (Some payloadTitleOnly)) plainArticle initialWorld) =
  Normal {[ "title" := VString "속보"; "content" := VUndefined;
            "category" := VString "사회" ]}.
Proof.
  split.
  - apply (payload_not_validated 2026 promptCategories promptSociety jsonParse
             (answering (Some "{}")) plainArticle plainComment "답글"
             initialWorld (VObject ∅)).
    apply answering_yields; [discriminate | reflexivity].
  - refine (proj1 (proj1 (proj2 (proj2
              (payload_not_validated 2026 promptCategories promptSociety
                 jsonParse (answering (Some payloadTitleOnly)) plainArticle
                 plainComment "답글" initialWorld
                 (VObject {[ "title" := VString "속보" ]}))))
              _ {[ "title" := VString "속보" ]} eq_refl)).
    apply answering_yields; [discriminate | reflexivity].
Defined.

(** C5, counterexample.  The texts parse and lack fields that the schemas
    require; the flows do not return their fallbacks.  The analysis returns
    the empty object; the random article takes the title of the payload
    and leaves the content undefined. *)
Lemma payload_missing_fields_accepted :
  jsonParse "{}" = Normal (VObject ∅) /\
  lacksRequiredField simulationSchema (VObject ∅) = true /\
  fst (analyzeArticle 2026 jsonParse (answering (Some "{}"))
         plainArticle initialWorld) = Normal (VObject ∅) /\
  VObject ∅ <> analysisFallback /\
  jsonParse payloadTitleOnly = Normal (VObject {[ "title" := VString "속보" ]}) /\
  lacksRequiredField randomArticleSchema
    (VObject {[ "title" := VString "속보" ]}) = true /\
  fst (generateRandomArticle 2026 promptCategories promptSociety jsonParse
         (answering (Some payloadTitleOnly)) plainArticle initialWorld) =
  Normal {[ "title" := VString "속보"; "content" := VUndefined;
            "category" := VString "사회" ]} /\
  ({[ "title" := VString "속보"; "content" := VUndefined;
      "category" := VString "사회" ]} : gmap string JsValue) <>
  randomArticleFallback promptSociety.
Proof.
  split; [reflexivity|]. split; [reflexivity|]. split; [reflexivity|].
  split.
  { intros H.
    apply (f_equal (fun v => match v with
                             | VObject m => m !! "comments"
                             | _ => None
                             end)) in H.
    vm_compute in H. discriminate. }
  split; [reflexivity|]. split; [reflexivity|]. split; [reflexivity|].
  intros H. apply (f_equal (fun m => m !! "title")) in H.
  vm_compute in H. discriminate.
Qed.

(** All three flags set: the three blocks in order, and no default. *)
Lemma analysis_modes_accumulate_witness :
  analysisModeInstructions (modeArticle true true true) =
    [modeEmergency; modeCrazy; modeFakeNews] /\
  ~ In modeDefault (analysisModeInstructions (modeArticle true true true)).
Proof.
  pose proof (analysis_modes_accumulate 2026 (modeArticle true true true))
    as (Hlist & Hdefault & _).
  split; [exact Hlist|].
  intros Hin. apply Hdefault in Hin. destruct Hin as (Hflag & _). discriminate.
Defined.

(** * Further properties *)

(** ** retryRequest, in general *)

Lemma retryEvents_failedAttempts (delay : Z) (K : nat) :
  retryEvents delay K = failedAttempts delay K ++ [Invocation].
Proof.
  revert delay. induction K as [|K IH]; intros delay; [reflexivity|].
  cbn [retryEvents failedAttempts app]. now rewrite IH.
Qed.

Lemma calls_failedAttempts (delay : Z) (K : nat) :
  calls (failedAttempts delay K) = K.
Proof.
  revert delay. induction K as [|K IH]; intros delay; [reflexivity|].
  cbn [failedAttempts calls]. now rewrite IH.
Qed.

(** A run that meets [K] rate-limited failures, with [K] within the
    budget, goes on like a new run after them: with the budget less [K],
    the delay doubled [K] times, and the [K] waits made. *)
Lemma retryRequest_continues {T} (requestFn : Operation T) (K : nat)
    (retries delay : Z) (w : World) :
  (forall i, (i < K)%nat ->
     exists e, requestFn (calls w + i)%nat = Abrupt e /\
               rateLimitSignal e = Normal true) ->
  Z.of_nat K <= retries ->
  retryRequest requestFn retries delay w =
  retryRequest requestFn (retries - Z.of_nat K) (delay * 2 ^ Z.of_nat K)
    (w ++ failedAttempts delay K).
Proof.
  revert retries delay w.
  induction K as [|K IH]; intros retries delay w Hfail Hbudget.
  - replace (retries - Z.of_nat 0) with retries by lia.
    replace (delay * 2 ^ Z.of_nat 0) with delay by (cbn; lia).
    cbn [failedAttempts]. now rewrite app_nil_r.
  - destruct (Hfail 0%nat) as (e & He & Hsig); [lia|].
    rewrite Nat.add_0_r in He.
    rewrite (retryRequest_again _ _ _ _ _ He) by (assumption || lia).
    rewrite (IH (retries - 1) (delay * 2) (slept delay (invoked w))).
    + unfold slept, invoked. cbn [failedAttempts]. rewrite <- !app_assoc.
      cbn [app]. f_equal; [lia|].
      rewrite Nat2Z.inj_succ, Z.pow_succ_r by lia. lia.
    + intros i Hi. rewrite calls_slept, calls_invoked.
      replace (S (calls w) + i)%nat with (calls w + S i)%nat by lia.
      apply Hfail. lia.
    + lia.
Qed.

(** A number built from an integer is [=== 429] exactly when the integer
    is 429. *)
Lemma oddPart_spec (p : positive) :
  0 <= snd (oddPart p) /\ Z.pos p = Z.pos (fst (oddPart p)) * 2 ^ snd (oddPart p).
Proof.
  induction p as [p IH|p IH|]; cbn [oddPart]; try (cbn; lia).
  destruct (oddPart p) as [o k]. cbn [fst snd] in *.
  destruct IH as (Hk & IH). split; [lia|].
  rewrite Z.pow_add_r, Z.pow_1_r by lia. lia.
Qed.

Lemma strictEqInteger_number (n k : Z) :
  strictEqInteger n (number k) = (k =? n).
Proof.
  unfold number, finite.
  destruct k as [|p|p].
  - cbn [strictEqInteger]. cbn. destruct n; reflexivity.
  - pose proof (oddPart_spec p) as (Hk & Hp).
    destruct (oddPart p) as [o e]. cbn [fst snd] in *.
    cbn [strictEqInteger]. rewrite Z.add_0_l, Hp.
    rewrite (Z.max_r 0 e), (Z.max_l 0 (- e)) by lia.
    now rewrite Z.pow_0_r, Z.mul_1_r.
  - pose proof (oddPart_spec p) as (Hk & Hp).
    destruct (oddPart p) as [o e]. cbn [fst snd] in *.
    cbn [strictEqInteger]. rewrite Z.add_0_l.
    rewrite (Z.max_r 0 e), (Z.max_l 0 (- e)) by lia.
    rewrite Z.pow_0_r, Z.mul_1_r.
    replace (Z.neg p) with (- Z.pos p) by reflexivity. rewrite Hp.
    replace (Z.neg o * 2 ^ e) with (- (Z.pos o * 2 ^ e)) by lia.
    reflexivity.
Qed.

(** X18.  For a thrown value that holds data only, the condition of the
    [catch] block holds exactly when the
    status is the number 429, or the code is, or the message is a text
    with the digits 429 somewhere in it, or a list with the text 429 as
    an element.  It throws, a [TypeError], exactly when neither status
    nor code is 429 and the message is a boolean, a number or an object;
    in every other case it is false.  So a status or code that is the
    text 429 does not count by itself, a message that has 429 inside
    another number does, and a message that is the number 429 makes the
    condition throw. *)
Theorem rate_limit_signal_exact (error : JsError) :
  let status := optionalProp error "status" in
  let code := optionalProp error "code" in
  let message := optionalProp error "message" in
  (rateLimitSignal error = Normal true <->
   strictEqInteger 429 status = true \/ strictEqInteger 429 code = true \/
   (exists before after, message = VString (before +:+ "429" +:+ after)) \/
   (exists items, message = VArray items /\ In (VString "429") items)) /\
  (rateLimitSignal error = Abrupt includesNotCallable <->
   strictEqInteger 429 status = false /\ strictEqInteger 429 code = false /\
   match message with
   | VBool _ | VNumber _ _ | VInfinity _ | VNaN | VObject _ => True
   | _ => False
   end) /\
  (forall thrown,
     rateLimitSignal error = Abrupt thrown -> thrown = includesNotCallable) /\
  (forall n, status = number n ->
     (strictEqInteger 429 status = true <-> n = 429)) /\
  (forall s s',
     status = VString s -> code = VString s' ->
     message = VUndefined \/ message = VNull ->
     rateLimitSignal error = Normal false).
Proof.
  cbn zeta. split; [|split; [|split; [|split]]].
  - rewrite rateLimitSignal_spec. split.
    + intros [H | [H | [(m & Hm & Hin) | H]]]; [tauto | tauto | | tauto].
      right. right. left. apply includes_app in Hin as (before & after & ->).
      now exists before, after.
    + intros [H | [H | [(before & after & Hm) | H]]]; [tauto | tauto | | tauto].
      right. right. left. eexists. split; [exact Hm|].
      apply includes_app. now exists before, after.
  - unfold rateLimitSignal.
    destruct (strictEqInteger 429 (optionalProp error "status"));
      [split; [discriminate | intros (H & _); discriminate]|].
    destruct (strictEqInteger 429 (optionalProp error "code"));
      [split; [discriminate | intros (_ & H & _); discriminate]|].
    destruct (optionalProp error "message"); cbn [messageIncludes429];
      split; try discriminate; try tauto.
  - intros thrown. unfold rateLimitSignal.
    destruct (strictEqInteger 429 (optionalProp error "status")); [discriminate|].
    destruct (strictEqInteger 429 (optionalProp error "code")); [discriminate|].
    destruct (optionalProp error "message"); cbn [messageIncludes429];
      try discriminate; now intros [= <-].
  - intros n ->. rewrite strictEqInteger_number. apply Z.eqb_eq.
  - intros s s' Hs Hc Hm. unfold rateLimitSignal. rewrite Hs, Hc.
    now destruct Hm as [-> | ->].
Qed.

(** A status given as text is not a signal; a duration in the message
    and a list with the text 429 are; a message that is a number makes
    the condition throw. *)
Lemma rate_limit_signal_exact_witness :
  rateLimitSignal
    (VObject {[ "status" := VString "429"; "code" := VString "429" ]}) =
    Normal false /\
  rateLimitSignal (newError "timeout after 14290 ms") = Normal true /\
  rateLimitSignal listMessageError = Normal true /\
  rateLimitSignal numericMessageError = Abrupt includesNotCallable.
Proof.
  split; [|split; [|split]].
  - apply (proj2 (proj2 (proj2 (proj2 (rate_limit_signal_exact
             (VObject {[ "status" := VString "429"; "code" := VString "429" ]})))))
             "429" "429"); [reflexivity | reflexivity | now left].
  - apply (proj1 (rate_limit_signal_exact (newError "timeout after 14290 ms"))).
    right. right. left. exists "timeout after 1", "0 ms". reflexivity.
  - apply (proj1 (rate_limit_signal_exact listMessageError)).
    right. right. right. exists [VString "quota"; VString "429"].
    split; [reflexivity | right; now left].
  - apply (proj1 (proj2 (rate_limit_signal_exact numericMessageError))).
    repeat split.
Defined.

(** X1.  A failure that comes after [K] rate-limited ones, with [K]
    within the budget, and on which the condition of the [catch] block
    is not true, ends the run after the [K] waits and without a further
    one.  When the condition is false the error is thrown as it is.
    When the condition throws, what it throws is thrown in place of the
    error if budget is left, and the error itself if the budget is
    spent, since the condition is then not evaluated. *)
Theorem retryRequest_stops_at_other_error {T} (requestFn : Operation T)
    (K : nat) (retries delay : Z) (w : World) (e : JsError) :
  (forall i, (i < K)%nat ->
     exists e', requestFn (calls w + i)%nat = Abrupt e' /\
                rateLimitSignal e' = Normal true) ->
  requestFn (calls w + K)%nat = Abrupt e ->
  Z.of_nat K <= retries ->
  (rateLimitSignal e = Normal false ->
   retryRequest requestFn retries delay w =
   (Abrupt e, w ++ retryEvents delay K)) /\
  (forall thrown,
     rateLimitSignal e = Abrupt thrown ->
     retryRequest requestFn retries delay w =
     (Abrupt (if Z.of_nat K <? retries then thrown else e),
      w ++ retryEvents delay K)) /\
  calls (w ++ retryEvents delay K) = (calls w + K + 1)%nat /\
  sleeps (w ++ retryEvents delay K) = sleeps w ++ backoffDelays delay K.
Proof.
  intros Hfail He Hbudget.
  assert (He' : requestFn (calls (w ++ failedAttempts delay K)) = Abrupt e).
  { now rewrite calls_app, calls_failedAttempts. }
  rewrite (retryRequest_continues requestFn K retries delay w Hfail Hbudget).
  rewrite retryEvents_failedAttempts, app_assoc.
  split; [|split; [|split]].
  - intros Hsig. apply (retryRequest_no_signal requestFn _ _ _ e He' Hsig).
  - intros thrown Hsig. destruct (Z.ltb_spec (Z.of_nat K) retries).
    + apply (retryRequest_condition_throws requestFn _ _ _ e thrown He');
        [lia | exact Hsig].
    + apply (retryRequest_exhausted requestFn _ _ _ e He'). lia.
  - rewrite !calls_app, calls_failedAttempts. cbn. lia.
  - rewrite <- app_assoc, <- retryEvents_failedAttempts.
    apply sleeps_after_retry.
Qed.

(** A rate limit and then a server error; a rate limit and then an error
    whose message is a number. *)
Lemma retryRequest_stops_at_other_error_witness :
  retryRequest (T := Z)
    (scripted [Abrupt rateLimitError] (Abrupt serverError))
    defaultRetries defaultDelay initialWorld =
  (Abrupt serverError, [Invocation; Timeout 2000; Invocation]) /\
  retryRequest (T := Z)
    (scripted [Abrupt rateLimitError] (Abrupt numericMessageError))
    defaultRetries defaultDelay initialWorld =
  (Abrupt includesNotCallable, [Invocation; Timeout 2000; Invocation]).
Proof.
  split.
  - apply (proj1 (retryRequest_stops_at_other_error (T := Z)
             (scripted [Abrupt rateLimitError] (Abrupt serverError))
             1 defaultRetries defaultDelay initialWorld serverError
             ltac:(intros [|i] Hi; [|lia]; exists rateLimitError;
                   split; reflexivity)
             eq_refl ltac:(unfold defaultRetries; lia))).
    reflexivity.
  - apply (proj1 (proj2 (retryRequest_stops_at_other_error (T := Z)
             (scripted [Abrupt rateLimitError] (Abrupt numericMessageError))
             1 defaultRetries defaultDelay initialWorld numericMessageError
             ltac:(intros [|i] Hi; [|lia]; exists rateLimitError;
                   split; reflexivity)
             eq_refl ltac:(unfold defaultRetries; lia)))
             includesNotCallable).
    reflexivity.
Defined.

(** X2.  Every run of [retryRequest] is of one kind: it makes some number
    [m] of waits, within the budget; each of the first [m] invocations
    failed with a rate-limit signal; the run ends at invocation [m],
    because the budget was spent, or the invocation succeeded, or it
    failed and the condition of the [catch] block was not true; the
    outcome is that of this invocation, except that what the condition
    throws takes the place of the error when it throws with budget left.
    Every wait stands between two invocations. *)
Theorem retryRequest_waits_justified {T} (requestFn : Operation T)
    (retries delay : Z) (w : World) :
  exists m : nat,
    (m <= Z.to_nat retries)%nat /\
    retryRequest requestFn retries delay w =
    (outcomeAt (requestFn (calls w + m)%nat) (Z.of_nat m <? retries),
     w ++ retryEvents delay m) /\
    (forall i, (i < m)%nat ->
       exists e, requestFn (calls w + i)%nat = Abrupt e /\
                 rateLimitSignal e = Normal true) /\
    (m = Z.to_nat retries \/
     match requestFn (calls w + m)%nat with
     | Normal _ => True
     | Abrupt e => rateLimitSignal e <> Normal true
     end) /\
    (forall before after d,
       retryEvents delay m = before ++ Timeout d :: after ->
       (exists before', before = before' ++ [Invocation]) /\
       (exists after', after = Invocation :: after')).
Proof.
  enough (Hrun : exists m : nat,
    (m <= Z.to_nat retries)%nat /\
    retryRequest requestFn retries delay w =
    (outcomeAt (requestFn (calls w + m)%nat) (Z.of_nat m <? retries),
     w ++ retryEvents delay m) /\
    (forall i, (i < m)%nat ->
       exists e, requestFn (calls w + i)%nat = Abrupt e /\
                 rateLimitSignal e = Normal true) /\
    (m = Z.to_nat retries \/
     match requestFn (calls w + m)%nat with
     | Normal _ => True
     | Abrupt e => rateLimitSignal e <> Normal true
     end)).
  { destruct Hrun as (m & H1 & H2 & H3 & H4). exists m.
    repeat split; try assumption; eapply retryEvents_alternate; eassumption. }
  remember (Z.to_nat retries) as n eqn:Hn. revert retries delay w Hn.
  induction n as [|n IH]; intros retries delay w Hn.
  - exists 0%nat. rewrite Nat.add_0_r.
    replace (Z.of_nat 0 <? retries) with false
      by (symmetry; apply Z.ltb_ge; lia).
    repeat split; [lia | | lia | now left].
    destruct (requestFn (calls w)) as [v|e] eqn:Hop.
    + now rewrite (retryRequest_success _ _ _ _ _ Hop).
    + now rewrite (retryRequest_exhausted _ _ _ _ _ Hop) by lia.
  - destruct (requestFn (calls w)) as [v|e] eqn:Hop.
    + exists 0%nat. rewrite Nat.add_0_r, Hop.
      repeat split; [lia | | lia | now right].
      now rewrite (retryRequest_success _ _ _ _ _ Hop).
    + destruct (rateLimitSignal e) as [[|]|thrown] eqn:Hsig.
      * destruct (IH (retries - 1) (delay * 2) (slept delay (invoked w)))
          as (m & Hm & Hrun & Hbefore & Hstop); [lia|].
        rewrite calls_slept, calls_invoked in Hrun, Hbefore, Hstop.
        exists (S m).
        replace (calls w + S m)%nat with (S (calls w) + m)%nat by lia.
        repeat split.
        -- lia.
        -- rewrite (retryRequest_again _ _ _ _ _ Hop) by (assumption || lia).
           rewrite Hrun, retryEvents_next.
           replace (Z.of_nat m <? retries - 1) with (Z.of_nat (S m) <? retries)
             by (destruct (Z.ltb_spec (Z.of_nat (S m)) retries),
                   (Z.ltb_spec (Z.of_nat m) (retries - 1)); lia || reflexivity).
           reflexivity.
        -- intros [|i] Hi.
           ++ exists e. now rewrite Nat.add_0_r.
           ++ replace (calls w + S i)%nat with (S (calls w) + i)%nat by lia.
              apply Hbefore. lia.
        -- destruct Hstop as [-> | Hstop]; [left; lia | now right].
      * exists 0%nat. rewrite Nat.add_0_r, Hop.
        repeat split; [lia | | lia | right; rewrite Hsig; discriminate].
        cbn [outcomeAt]. rewrite Hsig.
        rewrite (retryRequest_no_signal _ _ _ _ _ Hop Hsig).
        now destruct (Z.of_nat 0 <? retries).
      * exists 0%nat. rewrite Nat.add_0_r, Hop.
        repeat split; [lia | | lia | right; rewrite Hsig; discriminate].
        cbn [outcomeAt]. rewrite Hsig.
        replace (Z.of_nat 0 <? retries) with true
          by (symmetry; apply Z.ltb_lt; lia).
        apply (retryRequest_condition_throws _ _ _ _ _ _ Hop); [lia | exact Hsig].
Qed.

Lemma backoffDelays_sum (delay : Z) (m : nat) :
  fold_right Z.add 0 (backoffDelays delay m) = delay * (2 ^ Z.of_nat m - 1).
Proof.
  revert delay. induction m as [|m IH]; intros delay; [cbn; lia|].
  rewrite backoffDelays_S. cbn [fold_right]. rewrite IH.
  rewrite Nat2Z.inj_succ, Z.pow_succ_r by lia. lia.
Qed.

Lemma totalWait_app (w w' : World) :
  totalWait (w ++ w') = totalWait w + totalWait w'.
Proof.
  unfold totalWait. rewrite sleeps_app.
  induction (sleeps w) as [|x s IH]; cbn [app fold_right]; lia.
Qed.

Lemma totalWait_retryEvents (delay : Z) (m : nat) :
  totalWait (retryEvents delay m) = delay * (2 ^ Z.of_nat m - 1).
Proof. unfold totalWait. now rewrite sleeps_retryEvents, backoffDelays_sum. Qed.

(** X3.  A run that invokes the operation [m + 1] times has waited
    [delay * (2^m - 1)] milliseconds in all; for a delay that is not
    negative this is at most [delay * (2^retries - 1)]. *)
Theorem retryRequest_total_wait {T} (requestFn : Operation T)
    (retries delay : Z) (w : World) :
  let w' := snd (retryRequest requestFn retries delay w) in
  exists m : nat,
    calls w' = (calls w + m + 1)%nat /\
    totalWait w' = totalWait w + delay * (2 ^ Z.of_nat m - 1) /\
    (0 <= delay ->
     totalWait w' <= totalWait w + delay * (2 ^ Z.max 0 retries - 1)).
Proof.
  destruct (retryRequest_shape requestFn (Z.to_nat retries) retries delay w eq_refl)
    as (m & Hm & Hrun).
  cbn zeta. rewrite Hrun. cbn [snd]. exists m.
  split; [apply calls_after_retry|].
  rewrite totalWait_app, totalWait_retryEvents.
  split; [reflexivity|].
  intros Hdelay.
  apply Z.add_le_mono_l, Z.mul_le_mono_nonneg_l; [exact Hdelay|].
  apply Z.sub_le_mono_r, Z.pow_le_mono_r; lia.
Qed.

Lemma retryRequest_total_wait_witness :
  totalWait (snd (retryRequest (T := Z) (scripted [] (Abrupt rateLimitError))
                    defaultRetries defaultDelay initialWorld)) <= 14000.
Proof.
  destruct (retryRequest_total_wait (T := Z) (scripted [] (Abrupt rateLimitError))
              defaultRetries defaultDelay initialWorld) as (m & _ & _ & Hbound).
  apply (Hbound ltac:(unfold defaultDelay; lia)).
Defined.

(** ** The text of a year, read back *)

Lemma readDigits_acc (d : Decimal.uint) :
  forall acc : positive,
    readDigits 10 (Some (Z.pos acc)) (NilEmpty.string_of_uint d) =
    Some (Z.pos (Pos.of_uint_acc d acc)).
Proof.
  induction d; intros acc; cbn [NilEmpty.string_of_uint readDigits Pos.of_uint_acc];
    [reflexivity | ..];
    match goal with
    | |- context [digitValue 10 ?c] =>
        let v := eval vm_compute in (digitValue 10 c) in
        change (digitValue 10 c) with v
    end; cbv iota; rewrite <- IHd; do 2 f_equal; lia.
Qed.

Lemma readDigits_uint (d : Decimal.uint) :
  readDigits 10 (Some 0) (NilEmpty.string_of_uint d) = Some (Z.of_uint d).
Proof.
  unfold Z.of_uint.
  induction d; cbn [NilEmpty.string_of_uint readDigits Pos.of_uint];
    [reflexivity | ..];
    match goal with
    | |- context [digitValue 10 ?c] =>
        let v := eval vm_compute in (digitValue 10 c) in
        change (digitValue 10 c) with v
    end; cbv iota; [exact IHd | ..]; apply readDigits_acc.
Qed.

(** A text of digits is read from its first digit on as from 0. *)
Lemma readDigits_start (d : Decimal.uint) :
  d <> Decimal.Nil ->
  readDigits 10 None (NilEmpty.string_of_uint d) =
  readDigits 10 (Some 0) (NilEmpty.string_of_uint d).
Proof.
  destruct d; [congruence | ..]; intros _;
    cbn [NilEmpty.string_of_uint readDigits];
    match goal with
    | |- context [digitValue 10 ?c] =>
        let v := eval vm_compute in (digitValue 10 c) in
        change (digitValue 10 c) with v
    end; reflexivity.
Qed.

Lemma string_of_uint_head (d : Decimal.uint) :
  d <> Decimal.Nil ->
  exists c rest,
    NilEmpty.string_of_uint d = String c rest /\
    ((48 <=? nat_of_ascii c) && (nat_of_ascii c <=? 57))%nat = true.
Proof.
  destruct d; [congruence | ..]; intros _; eexists _, _; split; reflexivity.
Qed.

Lemma parseInt_steps (s : string) :
  parseInt s =
  (let '(sign, afterSign) := signAndRest (skipWhiteSpace s) in
   let '(radix, afterRadix) := radixAndDigits afterSign in
   match readDigits radix None afterRadix with
   | Some n => toDouble (sign * n)
   | None => NaN
   end).
Proof. reflexivity. Qed.

(** The radix of a text of decimal digits is 10. *)
Lemma radix_decimal (d : Decimal.uint) :
  radixAndDigits (NilEmpty.string_of_uint d) = (10, NilEmpty.string_of_uint d).
Proof. destruct d as [|d| | | | | | | | |]; try reflexivity. destruct d; reflexivity. Qed.

(** Before a digit there is no white space and no sign to skip. *)
Lemma digit_head (c : ascii) (rest : string) :
  ((48 <=? nat_of_ascii c) && (nat_of_ascii c <=? 57))%nat = true ->
  skipWhiteSpace (String c rest) = String c rest /\
  signAndRest (String c rest) = (1, String c rest).
Proof.
  intros Hc.
  destruct c as [[] [] [] [] [] [] [] []]; try discriminate Hc;
    (split; [destruct rest as [|c1 [|c2 rest]]; reflexivity | reflexivity]).
Qed.

Lemma minus_head (s : string) :
  skipWhiteSpace (String "-" s) = String "-" s /\
  signAndRest (String "-" s) = (-1, s).
Proof. split; [destruct s as [|c1 [|c2 rest]]; reflexivity | reflexivity]. Qed.

Lemma parseInt_uint (d : Decimal.uint) :
  parseInt (NilZero.string_of_uint d) = toDouble (Z.of_uint d) /\
  parseInt (String "-" (NilZero.string_of_uint d)) = toDouble (- Z.of_uint d).
Proof.
  destruct (Decimal.uint_eq_dec d Decimal.Nil) as [-> | Hd]; [split; reflexivity|].
  replace (NilZero.string_of_uint d) with (NilEmpty.string_of_uint d)
    by now destruct d.
  destruct (string_of_uint_head d Hd) as (c & rest & Hs & Hc).
  destruct (digit_head c rest Hc) as (Hskip & Hsign).
  destruct (minus_head (NilEmpty.string_of_uint d)) as (Hskip' & Hsign').
  rewrite !parseInt_steps, Hskip', Hsign', Hs, Hskip, Hsign, <- Hs.
  rewrite radix_decimal, readDigits_start, readDigits_uint by assumption.
  split; f_equal; lia.
Qed.

(** The decimal text of an integer is read as the double nearest to it. *)
Lemma parseInt_decimalText (z : Z) : parseInt (decimalText z) = toDouble z.
Proof.
  unfold decimalText, NilZero.string_of_int.
  rewrite <- (DecimalZ.of_to z) at 2.
  destruct (Z.to_int z) as [d|d]; cbn [Z.of_int]; apply parseInt_uint.
Qed.

(** Below [2 ^ 53] an integer is its own nearest double. *)
Lemma toDouble_exact (n : Z) : Z.abs n < 2 ^ 53 -> toDouble n = Num n.
Proof.
  intros Hn. unfold toDouble. cbv zeta.
  assert (He : Z.log2 (Z.abs n) - 52 <= 0).
  { destruct (Z.eq_dec (Z.abs n) 0) as [-> | Hz]; [cbn; lia|].
    assert (Z.log2 (Z.abs n) < 53) by (apply Z.log2_lt_pow2; lia). lia. }
  apply Z.leb_le in He. now rewrite He.
Qed.

(** From [2 ^ 53] on the nearest double is not below [2 ^ 53]. *)
Lemma toDouble_large (n : Z) :
  2 ^ 53 <= n ->
  match toDouble n with
  | Num y => 2 ^ 53 <= y
  | Infinity _ => True
  | NaN => False
  end.
Proof.
  intros Hn. unfold toDouble. cbv zeta.
  rewrite (Z.abs_eq n) by lia.
  assert (Hlog : 53 <= Z.log2 n) by (apply Z.log2_le_pow2; lia).
  destruct (Z.leb_spec (Z.log2 n - 52) 0) as [He | He]; [lia|].
  set (e := Z.log2 n - 52) in *.
  destruct (2 ^ 1024 <=? _); [exact I|].
  assert (Hpow : 2 ^ (e + 52) <= n).
  { replace (e + 52) with (Z.log2 n) by (unfold e; lia).
    apply Z.log2_spec. lia. }
  assert (He2 : 0 < 2 ^ e) by (apply Z.pow_pos_nonneg; lia).
  assert (Hq : 2 ^ 52 <= n / 2 ^ e).
  { apply Z.div_le_lower_bound; [exact He2|].
    rewrite <- Z.pow_add_r by lia. exact Hpow. }
  assert (Hm : 2 ^ 52 <=
               (if 2 ^ (e - 1) <? n mod 2 ^ e then n / 2 ^ e + 1
                else if (n mod 2 ^ e =? 2 ^ (e - 1)) && Z.odd (n / 2 ^ e)
                     then n / 2 ^ e + 1 else n / 2 ^ e)).
  { destruct (_ <? _); [lia|]. destruct (_ && _); lia. }
  replace (Z.sgn n) with 1 by (symmetry; apply Z.sgn_pos; lia).
  rewrite Z.mul_1_l.
  assert (H2e : 2 <= 2 ^ e).
  { replace 2 with (2 ^ 1) at 1 by reflexivity.
    apply Z.pow_le_mono_r; lia. }
  change (2 ^ 53) with (2 ^ 52 * 2). nia.
Qed.

(** Below [2 ^ 53] the shortest decimal of an integer has its value. *)
Lemma shortestDecimal_exact (x : Z) (p : nat) :
  0 < x < 2 ^ 53 ->
  fst (shortestDecimal x p) * 10 ^ Z.of_nat (snd (shortestDecimal x p)) = x.
Proof.
  intros Hx. induction p as [|p IH]; [cbn; lia|].
  cbn [shortestDecimal]. cbv beta zeta.
  set (unit := 10 ^ Z.of_nat (S p)).
  assert (Hunit : 0 < unit) by (apply Z.pow_pos_nonneg; lia).
  assert (Hlo : 0 <= x / unit * unit <= x).
  { pose proof (Z.mul_div_le x unit Hunit).
    pose proof (Z.div_pos x unit). nia. }
  assert (Hexact : forall v,
            0 <= v ->
            match toDouble v with Num y => y =? x | _ => false end = true ->
            v = x).
  { intros v Hv Hdouble.
    destruct (Z.lt_ge_cases v (2 ^ 53)) as [Hsmall | Hlarge].
    - rewrite toDouble_exact in Hdouble by lia. now apply Z.eqb_eq.
    - pose proof (toDouble_large v Hlarge) as Hbig.
      destruct (toDouble v) as [y| |]; try discriminate.
      apply Z.eqb_eq in Hdouble. lia. }
  set (okLo := (0 <? x / unit) &&
                match toDouble (x / unit * unit) with
                | Num y => y =? x
                | _ => false
                end).
  set (okHi := match toDouble ((x / unit + 1) * unit) with
               | Num y => y =? x
               | _ => false
               end).
  set (nearerLo := (2 * (x mod unit) <? unit) || _).
  assert (HLo : okLo = true -> x / unit * unit = x).
  { intros H. apply andb_prop in H as [_ H]. apply Hexact; [lia | exact H]. }
  assert (HHi : okHi = true -> (x / unit + 1) * unit = x).
  { intros H. apply Hexact; [nia | exact H]. }
  clearbody okLo okHi nearerLo.
  destruct okLo, okHi, nearerLo; cbn [andb orb negb fst snd]; auto.
Qed.

Lemma showPositive_exact (x : Z) : 0 < x < 2 ^ 53 -> showPositive x = digits x.
Proof.
  intros Hx. unfold showPositive.
  pose proof (shortestDecimal_exact x (String.length (digits x)) Hx) as Hs.
  destruct (shortestDecimal x (String.length (digits x))) as [s p].
  cbn [fst snd] in Hs. rewrite Hs.
  replace (x <? 10 ^ 21) with true; [reflexivity|].
  symmetry. apply Z.ltb_lt. assert (2 ^ 53 < 10 ^ 21) by reflexivity. lia.
Qed.

(** Below [2 ^ 53] the text of an integer is its decimal text. *)
Lemma showNumber_exact (z : Z) :
  Z.abs z < 2 ^ 53 -> showNumber (Num z) = decimalText z.
Proof.
  intros Hz. destruct z as [|p|p]; cbn [showNumber]; [reflexivity | |].
  - rewrite showPositive_exact by lia. reflexivity.
  - rewrite showPositive_exact by lia. reflexivity.
Qed.

(** The text of an integer below [2 ^ 53] is read back as that integer. *)
Lemma parseInt_showNumber (z : Z) :
  Z.abs z < 2 ^ 53 -> parseInt (showNumber (Num z)) = Num z.
Proof.
  intros Hz.
  now rewrite showNumber_exact, parseInt_decimalText, toDouble_exact.
Qed.

(** ** The entry points, in general *)

Section ServiceMore.

Variable currentYear : Z.
Variable ArticleCategory_values : list string.
Variable ArticleCategory_SOCIETY : string.
Variable JSON_parse : string -> Completion JsValue.
Variable generateContent :
  GenerateContentParameters -> Operation GenerateContentResponse.

Abbreviation randomArticle :=
  (generateRandomArticle currentYear ArticleCategory_values
     ArticleCategory_SOCIETY JSON_parse generateContent).
Abbreviation analysis := (analyzeArticle currentYear JSON_parse generateContent).
Abbreviation replies :=
  (generateReplyReaction currentYear JSON_parse generateContent).
Abbreviation request := (requestGeneration generateContent).
Abbreviation fallbackArticle := (randomArticleFallback ArticleCategory_SOCIETY).

Lemma request_within_budget (req : GenerateContentParameters) (w : World) :
  exists outcome w',
    request req w = (outcome, w') /\ withinRequestBudget w w'.
Proof.
  destruct (retryRequest_shape (generateContent req) (Z.to_nat defaultRetries)
              defaultRetries defaultDelay w eq_refl) as (m & Hm & Hrun).
  eexists _, _. split; [exact Hrun|]. exists m. split; [exact Hm | reflexivity].
Qed.

(** Reading the response leaves the world as it is. *)
Lemma reads_keep_world (response : GenerateContentResponse) (w : World) :
  snd (tryCatch
         (readRandomArticle ArticleCategory_values ArticleCategory_SOCIETY
            JSON_parse response)
         (fun _ => ret fallbackArticle) w) = w /\
  snd (tryCatch (readSimulationResult JSON_parse response)
         (fun _ => ret analysisFallback) w) = w /\
  snd (tryCatch (readReplies JSON_parse response)
         (fun _ => ret (VArray [])) w) = w.
Proof.
  unfold tryCatch, readRandomArticle, readSimulationResult, readReplies,
    bind, lift, throw, ret.
  destruct (text response) as [[|c t]|];
    [repeat split | | repeat split].
  destruct (JSON_parse (String c t)) as [data|e]; [|repeat split].
  destruct data; repeat split.
Qed.

(** X4.  Each entry point sends its request between one and four times,
    a wait before every sending but the first: of 2, 4 and 8 seconds in
    this order, 14 seconds in all at most.  These are all the events of
    an entry point: reading and parsing the response adds none. *)
Theorem entry_points_within_budget (article : Article) (comment : Comment)
    (reply : string) (w : World) :
  withinRequestBudget w (snd (randomArticle article w)) /\
  withinRequestBudget w (snd (analysis article w)) /\
  withinRequestBudget w (snd (replies article comment reply w)) /\
  (forall w', withinRequestBudget w w' ->
     (exists events,
        w' = w ++ events /\
        In events
          [[Invocation];
           [Invocation; Timeout 2000; Invocation];
           [Invocation; Timeout 2000; Invocation; Timeout 4000; Invocation];
           [Invocation; Timeout 2000; Invocation; Timeout 4000; Invocation;
            Timeout 8000; Invocation]]) /\
     (calls w < calls w' <= calls w + 4)%nat /\
     totalWait w <= totalWait w' <= totalWait w + 14000).
Proof.
  split; [|split; [|split]].
  - destruct (request_within_budget (randomArticleRequest currentYear article) w)
      as (outcome & w' & Hrun & Hw).
    rewrite (generateRandomArticle_run _ _ _ _ _ _ _ _ _ Hrun).
    destruct outcome; [|exact Hw].
    now rewrite (proj1 (reads_keep_world _ _)).
  - destruct (request_within_budget (analysisRequest currentYear article) w)
      as (outcome & w' & Hrun & Hw).
    rewrite (analyzeArticle_run _ _ _ _ _ _ _ Hrun).
    destruct outcome; [|exact Hw].
    now rewrite (proj1 (proj2 (reads_keep_world _ _))).
  - destruct (request_within_budget
                (replyRequest currentYear article comment reply) w)
      as (outcome & w' & Hrun & Hw).
    rewrite (generateReplyReaction_run _ _ _ _ _ _ _ _ _ Hrun).
    destruct outcome; [|exact Hw].
    now rewrite (proj2 (proj2 (reads_keep_world _ _))).
  - intros w' (m & Hm & ->).
    rewrite calls_app, totalWait_app.
    destruct m as [|[|[|[|m]]]]; [| | | |lia];
      (split; [eexists; split; [reflexivity | cbn; tauto]|]);
      match goal with
      | |- context [totalWait (retryEvents ?d ?k)] =>
          let t := eval vm_compute in (totalWait (retryEvents d k)) in
          let c := eval vm_compute in (calls (retryEvents d k)) in
          change (totalWait (retryEvents d k)) with t;
          change (calls (retryEvents d k)) with c
      end; lia.
Qed.

(** X5.  Of the current article, [generateRandomArticle] reads the mode
    flags and the year only: two articles that agree on them give the
    same request and the same run, whatever their titles, contents,
    categories, authors and previous contexts are. *)
Theorem random_article_reads_modes_only (a1 a2 : Article) (w : World) :
  isEmergencyMode a1 = isEmergencyMode a2 ->
  isCrazyMode a1 = isCrazyMode a2 ->
  isFakeNews a1 = isFakeNews a2 ->
  isTimeMachineMode a1 = isTimeMachineMode a2 ->
  targetYear a1 = targetYear a2 ->
  randomArticleRequest currentYear a1 = randomArticleRequest currentYear a2 /\
  randomArticle a1 w = randomArticle a2 w.
Proof.
  intros He Hc Hf Ht Hy.
  assert (Hreq : randomArticleRequest currentYear a1 =
                 randomArticleRequest currentYear a2).
  { unfold randomArticleRequest, getEraContext, resolveTargetYear,
      randomModeInstruction. now rewrite He, Hc, Hf, Ht, Hy. }
  split; [exact Hreq|]. unfold generateRandomArticle. now rewrite Hreq.
Qed.

(** X6.  With the time machine off the year has no part in any request:
    an article with any year in its field gives the requests of the same
    article with another. *)
Theorem year_ignored_without_time_machine (article : Article)
    (year : option string) (comment : Comment) (reply : string) :
  isTimeMachineMode article = false ->
  randomArticleRequest currentYear (withTargetYear year article) =
    randomArticleRequest currentYear article /\
  analysisRequest currentYear (withTargetYear year article) =
    analysisRequest currentYear article /\
  replyRequest currentYear (withTargetYear year article) comment reply =
    replyRequest currentYear article comment reply.
Proof.
  intros Hoff.
  unfold randomArticleRequest, analysisRequest, replyRequest, getEraContext,
    analysisEraContext, resolveTargetYear, randomModeInstruction,
    analysisModeInstructions, analysisPreviousContext, analysisPrompt,
    analysisPromptHead, replyPrompt.
  cbn [withTargetYear isTimeMachineMode targetYear title content category
       author isEmergencyMode isCrazyMode isFakeNews previousArticleContext].
  rewrite Hoff. repeat split.
Qed.

(** X7.  An optional text that is empty counts as absent: an empty year
    gives the requests of no year (the current year, in time-machine
    mode), and an empty previous context gives the analysis request of
    no previous context.  The previous context has no part in the other
    two requests. *)
Theorem empty_text_is_absent (article : Article) (comment : Comment)
    (reply : string) (previous : option string) :
  randomArticleRequest currentYear (withTargetYear (Some "") article) =
    randomArticleRequest currentYear (withTargetYear None article) /\
  analysisRequest currentYear (withTargetYear (Some "") article) =
    analysisRequest currentYear (withTargetYear None article) /\
  replyRequest currentYear (withTargetYear (Some "") article) comment reply =
    replyRequest currentYear (withTargetYear None article) comment reply /\
  resolveTargetYear currentYear (withTargetYear (Some "") article) =
    Num currentYear /\
  analysisRequest currentYear (withPreviousArticleContext (Some "") article) =
    analysisRequest currentYear (withPreviousArticleContext None article) /\
  randomArticleRequest currentYear (withPreviousArticleContext previous article) =
    randomArticleRequest currentYear article /\
  replyRequest currentYear (withPreviousArticleContext previous article)
    comment reply =
    replyRequest currentYear article comment reply.
Proof.
  repeat split; unfold resolveTargetYear; cbn; now rewrite andb_false_r.
Qed.

(** Whatever happens, the result is an object of three properties whose
    category is [SOCIETY] or a value of [ArticleCategory]. *)
Lemma random_article_result (article : Article) (w : World) :
  exists (t c : JsValue) (cat : string) (w' : World),
    randomArticle article w =
    (Normal {[ "title" := t; "content" := c; "category" := VString cat ]}, w') /\
    (cat = ArticleCategory_SOCIETY \/ cat ∈ ArticleCategory_values).
Proof.
  assert (Hfallback : forall w',
            randomArticle article w = (Normal fallbackArticle, w') ->
            exists (t c : JsValue) (cat : string) (w'' : World),
              randomArticle article w =
              (Normal {[ "title" := t; "content" := c;
                         "category" := VString cat ]}, w'') /\
              (cat = ArticleCategory_SOCIETY \/ cat ∈ ArticleCategory_values)).
  { intros w' Hrun. eexists _, _, _, w'. split; [exact Hrun | now left]. }
  destruct (request (randomArticleRequest currentYear article) w)
    as [outcome w'] eqn:Hrun.
  pose proof (generateRandomArticle_run _ ArticleCategory_values
                ArticleCategory_SOCIETY JSON_parse _ _ _ _ _ Hrun) as Hrandom.
  destruct outcome as [response|e]; [|now apply (Hfallback w')].
  destruct (truthy (text response)) eqn:Htext.
  - destruct (text response) as [[|c0 t0]|] eqn:Ht; try discriminate.
    destruct (JSON_parse (String c0 t0)) as [data|e] eqn:Hp.
    + destruct (nullish_or_not data) as [Hnullish | (Hnull & Hundef)].
      * apply (Hfallback w'). rewrite Hrandom.
        apply readRandomArticle_failure. right. right.
        exists (String c0 t0). split; [exact Ht|].
        rewrite Hp. destruct Hnullish as [-> | ->]; auto.
      * rewrite (readRandomArticle_parsed _ _ _ response w' _ data Ht
                   ltac:(discriminate) Hp Hnull Hundef) in Hrandom.
        destruct data as [| | | | | | | |o]; try (eexists _, _, _, w';
          split; [exact Hrandom | now left]).
        destruct (arrayIncludes ArticleCategory_values (field o "category"))
          eqn:Hin.
        -- destruct (field o "category") as [| | | | | |s| |]; try discriminate.
           cbn in Hin. apply bool_decide_eq_true_1 in Hin.
           eexists _, _, s, w'. split; [exact Hrandom | now right].
        -- eexists _, _, _, w'. split; [exact Hrandom | now left].
    + apply (Hfallback w'). rewrite Hrandom.
      apply readRandomArticle_failure. right. left.
      exists (String c0 t0), e. now split.
  - apply (Hfallback w'). rewrite Hrandom.
    apply readRandomArticle_failure. now left.
Qed.

(** X8.  Whatever the generation capability and [JSON.parse] do,
    [generateRandomArticle] returns an object with exactly the keys
    [title], [content] and [category], and its category is a string:
    [SOCIETY] or one of the values of [ArticleCategory]. *)
Theorem random_article_shape (article : Article) (w : World) :
  exists (result : gmap string JsValue) (cat : string) (w' : World),
    randomArticle article w = (Normal result, w') /\
    dom result = {[ "title"; "content"; "category" ]} /\
    result !! "category" = Some (VString cat) /\
    (cat = ArticleCategory_SOCIETY \/ cat ∈ ArticleCategory_values).
Proof.
  destruct (random_article_result article w)
    as (t & c & cat & w' & Hrun & Hcat).
  eexists _, cat, w'. split; [exact Hrun|].
  split; [apply article_object_dom|].
  split; [reflexivity | exact Hcat].
Qed.

(** X9.  A year that is written in decimal digits is read as the double
    nearest to it.  Below [2 ^ 53] this is the integer itself: in
    time-machine mode the year of the article is that integer, its text
    in a directive is the text of the field, and the era directive starts
    with it.  From [2 ^ 53] on the year can differ from what is
    written. *)
Theorem year_text_round_trip (article : Article) (year : Z) :
  isTimeMachineMode article = true ->
  targetYear article = Some (decimalText year) ->
  resolveTargetYear currentYear article = toDouble year /\
  (Z.abs year < 2 ^ 53 ->
   resolveTargetYear currentYear article = Num year /\
   showNumber (Num year) = decimalText year /\
   exists rest,
     getEraContext currentYear article = decimalText year +:+ rest).
Proof.
  intros Hon Hyear.
  assert (Hresolved : resolveTargetYear currentYear article = toDouble year).
  { rewrite (resolveTargetYear_parsed currentYear article _ Hon Hyear).
    - apply parseInt_decimalText.
    - unfold decimalText, NilZero.string_of_int.
      destruct (Z.to_int year) as [d|d]; [destruct d; discriminate | discriminate]. }
  split; [exact Hresolved|]. intros Hsmall.
  rewrite toDouble_exact in Hresolved by exact Hsmall.
  split; [exact Hresolved|]. split; [now apply showNumber_exact|].
  rewrite (getEraContext_year currentYear article year Hon Hresolved).
  rewrite <- (showNumber_exact year Hsmall).
  destruct (bandOfYear currentYear year); eexists; reflexivity.
Qed.

End ServiceMore.

Lemma random_article_reads_modes_only_witness :
  generateRandomArticle 2026 promptCategories promptSociety jsonParse
    (answering (Some payloadEconomy)) plainArticle initialWorld =
  generateRandomArticle 2026 promptCategories promptSociety jsonParse
    (answering (Some payloadEconomy))
    (handleChange (ChangeTitle "쓰던 제목") plainArticle) initialWorld.
Proof.
  apply (random_article_reads_modes_only 2026 promptCategories promptSociety
           jsonParse (answering (Some payloadEconomy)) plainArticle
           (handleChange (ChangeTitle "쓰던 제목") plainArticle) initialWorld);
    reflexivity.
Defined.

Lemma year_ignored_without_time_machine_witness :
  analysisRequest 2026 (withTargetYear (Some "1950") plainArticle) =
  analysisRequest 2026 plainArticle.
Proof.
  apply (year_ignored_without_time_machine 2026 plainArticle (Some "1950")
           plainComment "답글" eq_refl).
Defined.

(** The year 1995, and a year above [2 ^ 53] that is not a double. *)
Lemma year_text_round_trip_witness :
  resolveTargetYear 2026 (timeMachineArticle (Some "1995")) = Num 1995 /\
  (exists rest,
     getEraContext 2026 (timeMachineArticle (Some "1995")) = "1995" +:+ rest) /\
  resolveTargetYear 2026 (timeMachineArticle (Some "9007199254740993")) =
    Num 9007199254740992.
Proof.
  destruct (proj2 (year_text_round_trip 2026 (timeMachineArticle (Some "1995"))
                     1995 eq_refl eq_refl) ltac:(cbn; lia))
    as (Hyear & _ & Hrest).
  split; [exact Hyear|]. split; [exact Hrest|].
  exact (proj1 (year_text_round_trip 2026
                  (timeMachineArticle (Some "9007199254740993"))
                  9007199254740993 eq_refl eq_refl)).
Defined.

(** ** The article editor *)

(** X10.  The theme of the editor follows the priority of the mode
    directive of the random article: dark red with the emergency
    directive, purple with the crazy one, red with the fake-news one, and
    amber or gray with the default one; the dot of the header has the
    colour class of the theme. *)
Theorem theme_follows_mode_priority (article : Article) :
  (getThemeColor article = darkRed <->
   randomModeInstruction article = randomEmergency) /\
  (getThemeColor article = purple <->
   randomModeInstruction article = randomCrazy) /\
  (getThemeColor article = red <->
   randomModeInstruction article = randomFakeNews) /\
  (getThemeColor article = amber \/ getThemeColor article = gray <->
   randomModeInstruction article = randomDefault) /\
  indicatorClass article =
    match getThemeColor article with
    | darkRed => "bg-red-600"
    | purple => "bg-fuchsia-400"
    | red => "bg-yellow-400"
    | amber => "bg-amber-400"
    | gray => "bg-red-500"
    end.
Proof.
  pose proof random_directives_distinct as (H1 & H2 & H3 & H4 & H5 & H6).
  unfold getThemeColor, randomModeInstruction, indicatorClass.
  destruct (isEmergencyMode article), (isCrazyMode article),
    (isFakeNews article), (isTimeMachineMode article);
    repeat split; try reflexivity; intros; try discriminate; try congruence;
    try (left; reflexivity); try (right; reflexivity);
    match goal with H : _ \/ _ |- _ => destruct H; discriminate end.
Qed.

(** X11.  The header shows the tag of every mode that is on and of no
    other, in the order emergency, crazy, fake news, time machine, and the
    name of the system exactly when the theme is gray, that is when no
    mode is on; it is never without a text. *)
Theorem header_labels_follow_modes (article : Article) :
  (In "[긴급]" (headerLabels article) <-> isEmergencyMode article = true) /\
  (In "[광기]" (headerLabels article) <-> isCrazyMode article = true) /\
  (In "[선동]" (headerLabels article) <-> isFakeNews article = true) /\
  (In "[시간여행]" (headerLabels article) <-> isTimeMachineMode article = true) /\
  (In "CMS: 기사 작성 시스템" (headerLabels article) <->
   getThemeColor article = gray) /\
  headerLabels article `sublist_of`
    ["[긴급]"; "[광기]"; "[선동]"; "[시간여행]"; "CMS: 기사 작성 시스템"] /\
  headerLabels article <> [].
Proof.
  unfold headerLabels, getThemeColor.
  destruct (isEmergencyMode article), (isCrazyMode article),
    (isFakeNews article), (isTimeMachineMode article);
    cbn [app negb andb In];
    repeat split; try reflexivity; try discriminate;
    try solve [repeat constructor]; intros;
    try discriminate; try tauto;
    repeat match goal with
           | H : _ \/ _ |- _ => destruct H
           | H : False |- _ => destruct H
           end; try discriminate.
Qed.

(** X12.  [handleChange] writes the field that it is called for and no
    other: the field then has the new value, every other field its
    former one; so switching one mode leaves the other modes as they are.
    Of two changes to the same field the later one stays, and changes to
    different fields can be made in either order. *)
Theorem handleChange_writes_one_field (change : FieldChange) (prev : Article) :
  readField (changedKey change) (handleChange change prev) = changedValue change /\
  (forall key, key <> changedKey change ->
     readField key (handleChange change prev) = readField key prev) /\
  (forall earlier, changedKey earlier = changedKey change ->
     handleChange change (handleChange earlier prev) = handleChange change prev) /\
  (forall other, changedKey other <> changedKey change ->
     handleChange change (handleChange other prev) =
     handleChange other (handleChange change prev)).
Proof.
  split; [destruct change; reflexivity|].
  split; [intros key Hkey; destruct change, key; try reflexivity;
          cbn in Hkey; congruence|].
  split.
  - intros earlier Hkey. destruct change, earlier; try discriminate Hkey;
      reflexivity.
  - intros other Hkey. destruct change, other; try reflexivity;
      cbn in Hkey; congruence.
Qed.

Lemma handleChange_writes_one_field_witness :
  readField KIsEmergencyMode
    (handleChange (ChangeIsFakeNews true) (modeArticle true true false)) =
  FlagValue true /\
  handleChange (ChangeTitle "둘째") (handleChange (ChangeTitle "첫째") plainArticle) =
  handleChange (ChangeTitle "둘째") plainArticle.
Proof.
  pose proof (handleChange_writes_one_field (ChangeIsFakeNews true)
                (modeArticle true true false)) as (_ & Hother & _).
  pose proof (handleChange_writes_one_field (ChangeTitle "둘째") plainArticle)
    as (_ & _ & Hsame & _).
  split.
  - apply (Hother KIsEmergencyMode). discriminate.
  - apply (Hsame (ChangeTitle "첫째")). reflexivity.
Defined.

(** X13.  No control of the editor changes the emergency mode, the crazy
    mode or the previous context of the article, and neither does
    [handleRewrite]. *)
Theorem editor_keeps_modes_of_parent (input : EditorInput) (confirmed : bool)
    (prev : Article) :
  isEmergencyMode (handleChange (onChange input) prev) = isEmergencyMode prev /\
  isCrazyMode (handleChange (onChange input) prev) = isCrazyMode prev /\
  previousArticleContext (handleChange (onChange input) prev) =
    previousArticleContext prev /\
  isEmergencyMode (handleRewrite confirmed prev) = isEmergencyMode prev /\
  isCrazyMode (handleRewrite confirmed prev) = isCrazyMode prev /\
  previousArticleContext (handleRewrite confirmed prev) =
    previousArticleContext prev.
Proof. destruct input, confirmed; repeat split. Qed.

(** X14.  A confirmed [handleRewrite] empties the title and the content and
    keeps every other field; after it the buttons to rewrite and to
    publish are disabled.  A declined one changes nothing.  Whenever the
    button to rewrite is disabled, so is the button to publish. *)
Theorem handleRewrite_clears_draft (prev : Article) (isSimulating : bool) :
  title (handleRewrite true prev) = "" /\
  content (handleRewrite true prev) = "" /\
  (forall key, key <> KTitle -> key <> KContent ->
     readField key (handleRewrite true prev) = readField key prev) /\
  rewriteButtonDisabled (handleRewrite true prev) isSimulating = true /\
  publishButtonDisabled (handleRewrite true prev) isSimulating = true /\
  handleRewrite false prev = prev /\
  (forall article,
     rewriteButtonDisabled article isSimulating = true ->
     publishButtonDisabled article isSimulating = true).
Proof.
  split; [reflexivity|]. split; [reflexivity|].
  split; [intros key Ht Hc; destruct key; try reflexivity; congruence|].
  split; [unfold rewriteButtonDisabled; cbn; apply orb_true_r|].
  split; [reflexivity|]. split; [reflexivity|].
  intros article. unfold rewriteButtonDisabled, publishButtonDisabled.
  destruct isSimulating, (truthyText (title article)),
    (truthyText (content article)); cbn; congruence.
Qed.

Section EditorFacts.

Variable currentYear : Z.
Variable ArticleCategory_values : list string.
Variable ArticleCategory_SOCIETY : string.
Variable JSON_parse : string -> Completion JsValue.
Variable generateContent :
  GenerateContentParameters -> Operation GenerateContentResponse.

Abbreviation randomArticle :=
  (generateRandomArticle currentYear ArticleCategory_values
     ArticleCategory_SOCIETY JSON_parse generateContent).
Abbreviation randomGenerate :=
  (handleRandomGenerate currentYear ArticleCategory_values
     ArticleCategory_SOCIETY JSON_parse generateContent).
Abbreviation fallbackArticle := (randomArticleFallback ArticleCategory_SOCIETY).

(** X15.  [handleRandomGenerate] does one of two things.  When the article
    has a title or a content and the user declines the confirmation, it
    does nothing: no request, no wait, no change of state.  In every
    other case it sets the flag of the generation, passes the result of
    [generateRandomArticle] to [setArticle] and clears the flag, in this
    order, and it shows no alert, whatever the generation capability
    does.  An article without title and content is not asked about: the
    answer has no part then. *)
Theorem handleRandomGenerate_effects (confirmed : bool) (article : Article)
    (w : World) :
  exists randomContent w',
    randomArticle article w = (Normal randomContent, w') /\
    randomGenerate confirmed article w =
    (if (truthyText (title article) || truthyText (content article))
        && negb confirmed
     then (Normal [], w)
     else (Normal [SetIsGeneratingRandom true; SetArticle randomContent;
                   SetIsGeneratingRandom false], w')) /\
    (truthyText (title article) || truthyText (content article) = false ->
     randomGenerate (negb confirmed) article w =
     randomGenerate confirmed article w).
Proof.
  destruct (tryCatch_returns
              (let* response :=
                 retryRequest
                   (generateContent (randomArticleRequest currentYear article))
                   defaultRetries defaultDelay in
               readRandomArticle ArticleCategory_values
                 ArticleCategory_SOCIETY JSON_parse response)%async
              fallbackArticle w) as (randomContent & w' & Hrun).
  exists randomContent, w'. split; [exact Hrun|]. split.
  - unfold handleRandomGenerate.
    destruct ((truthyText (title article) || truthyText (content article))
              && negb confirmed); [reflexivity|].
    unfold bind, tryCatch at 1. unfold generateRandomArticle. rewrite Hrun.
    reflexivity.
  - intros Hempty. unfold handleRandomGenerate. now rewrite Hempty.
Qed.

End EditorFacts.

(** A declined confirmation, and a failing generation that was confirmed. *)
Lemma handleRandomGenerate_effects_witness :
  handleRandomGenerate 2026 promptCategories promptSociety jsonParse
    (answering (Some payloadEconomy)) false plainArticle initialWorld =
  (Normal [], initialWorld) /\
  exists w',
    handleRandomGenerate 2026 promptCategories promptSociety jsonParse
      (failing serverError) true plainArticle initialWorld =
    (Normal [SetIsGeneratingRandom true;
             SetArticle (randomArticleFallback promptSociety);
             SetIsGeneratingRandom false], w').
Proof.
  split.
  - destruct (handleRandomGenerate_effects 2026 promptCategories promptSociety
                jsonParse (answering (Some payloadEconomy)) false plainArticle
                initialWorld) as (randomContent & w' & _ & Hrun & _).
    exact Hrun.
  - destruct (handleRandomGenerate_effects 2026 promptCategories promptSociety
                jsonParse (failing serverError) true plainArticle initialWorld)
      as (randomContent & w' & Hrandom & Hrun & _).
    exists w'. injection Hrandom as <- _. exact Hrun.
Defined.

Section MergeFacts.

Variable currentYear : Z.
Variable ArticleCategory_values : list string.
Variable ArticleCategory_SOCIETY : string.
Variable JSON_parse : string -> Completion JsValue.
Variable generateContent :
  GenerateContentParameters -> Operation GenerateContentResponse.

Abbreviation randomArticle :=
  (generateRandomArticle currentYear ArticleCategory_values
     ArticleCategory_SOCIETY JSON_parse generateContent).
Abbreviation randomGenerate :=
  (handleRandomGenerate currentYear ArticleCategory_values
     ArticleCategory_SOCIETY JSON_parse generateContent).
Abbreviation fallbackArticle := (randomArticleFallback ArticleCategory_SOCIETY).

Lemma merge_lookups (t c cat : JsValue) (prev : Article) :
  let merged :=
    mergeRandomContent
      {[ "title" := t; "content" := c; "category" := cat ]} prev in
  merged !! "title" = Some t /\
  merged !! "content" = Some c /\
  merged !! "category" = Some cat /\
  merged !! "author" = Some (VString (author prev)) /\
  merged !! "isEmergencyMode" = Some (VBool (isEmergencyMode prev)) /\
  merged !! "isCrazyMode" = Some (VBool (isCrazyMode prev)) /\
  merged !! "isFakeNews" = Some (VBool (isFakeNews prev)) /\
  merged !! "isTimeMachineMode" = Some (VBool (isTimeMachineMode prev)) /\
  merged !! "targetYear" = VString <$> targetYear prev /\
  merged !! "previousArticleContext" = VString <$> previousArticleContext prev.
Proof.
  unfold mergeRandomContent, articleObject.
  destruct (targetYear prev), (previousArticleContext prev); repeat split.
Qed.

(** X16.  The article that [handleRandomGenerate] passes on is merged into
    the article of the moment of the update: the title, the content and
    the category are those of the generation, whatever was typed there in
    the meantime; the author, the modes, the year and the previous
    context are those of the moment, so what was changed there while the
    generation ran is kept.  When the generated title and content are
    texts, the merged article is the former one with these three fields
    changed. *)
Theorem merge_keeps_other_fields (article prev : Article) (w : World) :
  exists randomContent w',
    randomArticle article w = (Normal randomContent, w') /\
    (forall key, key ∈ ["title"; "content"; "category"] ->
       is_Some (randomContent !! key) /\
       mergeRandomContent randomContent prev !! key = randomContent !! key) /\
    (forall key, key ∉ ["title"; "content"; "category"] ->
       mergeRandomContent randomContent prev !! key = articleObject prev !! key) /\
    mergeRandomContent randomContent prev !! "author" =
      Some (VString (author prev)) /\
    mergeRandomContent randomContent prev !! "isFakeNews" =
      Some (VBool (isFakeNews prev)) /\
    mergeRandomContent randomContent prev !! "isTimeMachineMode" =
      Some (VBool (isTimeMachineMode prev)) /\
    mergeRandomContent randomContent prev !! "targetYear" =
      VString <$> targetYear prev /\
    (forall t c cat,
       randomContent = {[ "title" := VString t; "content" := VString c;
                          "category" := VString cat ]} ->
       mergeRandomContent randomContent prev =
       articleObject
         (handleChange (ChangeCategory cat)
            (handleChange (ChangeContent c)
               (handleChange (ChangeTitle t) prev)))).
Proof.
  destruct (random_article_result currentYear ArticleCategory_values
              ArticleCategory_SOCIETY JSON_parse generateContent article w)
    as (t & c & cat & w' & Hrun & _).
  eexists _, w'. split; [exact Hrun|].
  pose proof (merge_lookups t c (VString cat) prev)
    as (Ht & Hc & Hcat & Hauthor & _ & _ & Hfake & Htm & Hyear & _).
  split; [|split; [|repeat split; assumption || idtac]].
  - intros key Hkey.
    assert (Hcases : key = "title" \/ key = "content" \/ key = "category")
      by set_solver.
    destruct Hcases as [-> | [-> | ->]].
    + rewrite Ht. split; [eexists|]; reflexivity.
    + rewrite Hc. split; [eexists|]; reflexivity.
    + rewrite Hcat. split; [eexists|]; reflexivity.
  - intros key Hkey. unfold mergeRandomContent.
    rewrite lookup_union_r; [reflexivity|].
    apply not_elem_of_dom. rewrite article_object_dom. set_solver.
  - intros t' c' cat' ->. unfold mergeRandomContent, articleObject.
    cbn [handleChange title content category author isEmergencyMode
         isCrazyMode isFakeNews isTimeMachineMode targetYear
         previousArticleContext].
    destruct (targetYear prev), (previousArticleContext prev); reflexivity.
Qed.

(** X17.  When the generation fails, [handleRandomGenerate] still replaces
    the article: the title and the content become the notice of the
    failure and the category becomes [SOCIETY], in place of what the
    article had. *)
Theorem failed_generation_replaces_draft (confirmed : bool)
    (article prev : Article) (w : World) :
  GenerationFailure JSON_parse generateContent
    (randomArticleRequest currentYear article) w ->
  (truthyText (title article) || truthyText (content article)) && negb confirmed
    = false ->
  exists w',
    randomGenerate confirmed article w =
    (Normal [SetIsGeneratingRandom true; SetArticle fallbackArticle;
             SetIsGeneratingRandom false], w') /\
    mergeRandomContent fallbackArticle prev !! "title" =
      Some (VString "기사 생성 실패") /\
    mergeRandomContent fallbackArticle prev !! "content" =
      Some (VString "AI 연결 상태를 확인해주세요.") /\
    mergeRandomContent fallbackArticle prev !! "category" =
      Some (VString ArticleCategory_SOCIETY).
Proof.
  intros Hfail Hgo.
  destruct (randomArticle_failure currentYear ArticleCategory_values
              ArticleCategory_SOCIETY JSON_parse generateContent article w Hfail)
    as (w' & Hrun).
  exists w'. split.
  - unfold handleRandomGenerate. rewrite Hgo.
    unfold bind, tryCatch at 1. rewrite Hrun. reflexivity.
  - pose proof (merge_lookups (VString "기사 생성 실패")
                  (VString "AI 연결 상태를 확인해주세요.")
                  (VString ArticleCategory_SOCIETY) prev)
      as (Ht & Hc & Hcat & _).
    repeat split; assumption.
Qed.

End MergeFacts.

Lemma failed_generation_replaces_draft_witness :
  exists w',
    handleRandomGenerate 2026 promptCategories promptSociety jsonParse
      (failing serverError) true
      (handleChange (ChangeTitle "쓰던 제목") plainArticle) initialWorld =
    (Normal [SetIsGeneratingRandom true;
             SetArticle (randomArticleFallback promptSociety);
             SetIsGeneratingRandom false], w').
Proof.
  destruct (failed_generation_replaces_draft 2026 promptCategories promptSociety
              jsonParse (failing serverError) true
              (handleChange (ChangeTitle "쓰던 제목") plainArticle)
              plainArticle initialWorld) as (w' & Hrun & _).
  - apply (TransportFailure _ _ _ _ serverError [Invocation]).
    reflexivity.
  - reflexivity.
  - exists w'. exact Hrun.
Defined.

Lemma entry_points_within_budget_witness :
  (calls initialWorld
   < calls (snd (analyzeArticle 2026 jsonParse (failing rateLimitError)
                   plainArticle initialWorld))
   <= calls initialWorld + 4)%nat.
Proof.
  destruct (entry_points_within_budget 2026 promptCategories promptSociety
              jsonParse (failing rateLimitError) plainArticle plainComment
              "답글" initialWorld) as (_ & Hanalysis & _ & Hbound).
  exact (proj1 (proj2 (Hbound _ Hanalysis))).
Defined.

Lemma handleRewrite_clears_draft_witness :
  publishButtonDisabled
    (handleRewrite true (handleChange (ChangeTitle "쓰던 제목") plainArticle))
    false = true.
Proof.
  pose proof (handleRewrite_clears_draft
                (handleChange (ChangeTitle "쓰던 제목") plainArticle) false)
    as (_ & _ & _ & Hrewrite & _ & _ & Himplies).
  exact (Himplies _ Hrewrite).
Defined.
